(** * QgsMapRendererTask: a shallow embedding of src/core/qgsmaprenderertask.cpp

    The task renders a map through an opaque job, then draws decorations and
    annotations over it and, for a file destination, writes the file and its
    georeferencing.

    Modelling choices.
    - A C++ [double] is a real number of [R]: rounding is not modelled.  An
      [int] is a [Z].
    - A pointer is the identity of what it points to ([nat]); a null pointer
      is [None].
    - [bool run()] is a computation over the task object that returns early:
      a small monad carries the task, the flow of control and the calls made
      on the collaborators (painter, job, GDAL, files), in order.
    - What the collaborators answer (does the image allocate, does GDALOpen
      succeed, when does another thread call [cancel()]) is an [Env]. *)

From Stdlib Require Import Reals Lra ZArith Lia List Bool String Ascii Arith.
Import ListNotations.

Local Open Scope string_scope.

(** ** Qt value types *)

Module QSize.
Record t : Type := mk { width : Z; height : Z }.
End QSize.

Module QPointF.
Record t : Type := mk { x : R; y : R }.
End QPointF.

Module QString.
Definition isEmpty (s : string) : bool :=
  match s with EmptyString => true | String _ _ => false end.

Definition size (s : string) : Z := Z.of_nat (String.length s).

(** [QString::at(i)]: the index must be a valid position of the string;
    anything else is outside the contract ([None]). *)
Definition at_ (s : string) (i : Z) : option ascii :=
  if (i <? 0)%Z then None else String.get (Z.to_nat i) s.

(** The part after the last [c], if [c] occurs. *)
Fixpoint afterLast (c : ascii) (s : string) : option string :=
  match s with
  | EmptyString => None
  | String h r =>
        match afterLast c r with
        | Some u => Some u
        | None => if Ascii.eqb h c then Some r else None
        end
  end.

(** The part before the last [c], if [c] occurs. *)
Fixpoint beforeLast (c : ascii) (s : string) : option string :=
  match s with
  | EmptyString => None
  | String h r =>
        match beforeLast c r with
        | Some u => Some (String h u)
        | None => if Ascii.eqb h c then Some EmptyString else None
        end
  end.

(** The part before the first [c] (the whole string when there is none). *)
Fixpoint beforeFirst (c : ascii) (s : string) : string :=
  match s with
  | EmptyString => EmptyString
  | String h r => if Ascii.eqb h c then EmptyString else String h (beforeFirst c r)
  end.

Definition ofChar (c : ascii) : string := String c EmptyString.
End QString.

(** [QFileInfo] on a path with '/' separators.  [baseName] stops at the first
    '.' of the file name, [completeBaseName] at the last one; [suffix] starts
    after the last one.  [absolutePath] depends on the file system and is
    left to the environment. *)
Module QFileInfo.
Definition fileName (path : string) : string :=
  match QString.afterLast "/" path with Some f => f | None => path end.

Definition baseName (path : string) : string :=
  QString.beforeFirst "." (fileName path).

Definition completeBaseName (path : string) : string :=
  match QString.beforeLast "." (fileName path) with
  | Some b => b
  | None => fileName path
  end.

Definition suffix (path : string) : string :=
  match QString.afterLast "." (fileName path) with
  | Some s => s
  | None => EmptyString
  end.
End QFileInfo.

(** ** QGIS value types *)

Module QgsPointXY.
Record t : Type := mk { x : R; y : R }.
End QgsPointXY.

(** Modelled from the spec: QgsRectangle is declared outside this file.  The
    extent is (xmin, ymin, xmax, ymax); its width and height are the
    differences of its bounds and its center is the midpoint. *)
Module QgsRectangle.
Record t : Type := mk { xMinimum : R; yMinimum : R; xMaximum : R; yMaximum : R }.

Definition width (r : t) : R := (xMaximum r - xMinimum r)%R.
Definition height (r : t) : R := (yMaximum r - yMinimum r)%R.

Definition center (r : t) : QgsPointXY.t :=
  QgsPointXY.mk (xMinimum r + width r / 2)%R (yMinimum r + height r / 2)%R.
End QgsRectangle.

(** A map layer, a decoration and an external painter are known by their
    address only. *)
Definition QgsMapLayer : Type := nat.
Definition QgsMapDecoration : Type := nat.
Definition QPainter : Type := nat.

(** Modelled from the spec: QgsMapSettings is declared outside this file; the
    fields are the ones [run()] reads. *)
Record QgsMapSettings : Type := {
  extent : QgsRectangle.t;
  outputSize : QSize.t;
  outputDpi : R;
  layers : list QgsMapLayer;
  destinationCrs : string   (* its WKT *)
}.

(** Modelled from the spec: QgsAnnotation is declared outside this file; the
    fields are the accessors [run()] calls. *)
Record QgsAnnotation : Type := {
  isVisible : bool;
  mapLayer : option QgsMapLayer;
  hasFixedMapPosition : bool;
  mapPosition : QgsPointXY.t;
  relativePosition : QPointF.t
}.

(** [QList<QgsMapLayer*>::contains] *)
Definition contains (ls : list QgsMapLayer) (l : QgsMapLayer) : bool :=
  existsb (Nat.eqb l) ls.

(** ** The world file *)

Record WorldFile : Type := { wf_a : R; wf_b : R; wf_c : R; wf_d : R; wf_e : R; wf_f : R }.

(** The six coefficients handed to GDALSetGeoTransform, with the names the
    spec gives to the positions of the array. *)
Record GeoTransform : Type := {
  originX : R; pixelWidth : R; rowRotation : R;
  originY : R; columnRotation : R; pixelHeight : R
}.

(** ** The task *)

Inductive ErrorType : Type :=
| ImageAllocationFail
| ImageSaveFail
| ImageUnsupportedFormat.

(** What [destPainter] points to: the painter given to the constructor, or
    [tempPainter] opened on the printer or on [img]. *)
Inductive Painter : Type :=
| External (p : QPainter)
| OnPrinter
| OnImage.

Record QgsMapRendererCustomPainterJob : Type := {
  jobSettings : QgsMapSettings;
  jobPainter : Painter
}.

(** The members of the class.  [isCanceled] is the flag of the QgsTask base
    class; [mError = None] is the initial "no error" of the spec. *)
Record QgsMapRendererTask : Type := {
  mMapSettings : QgsMapSettings;
  mFileName : string;
  mFileFormat : string;
  mForceRaster : bool;
  mSaveWorldFile : bool;
  mPainter : option QPainter;
  mAnnotations : list (option QgsAnnotation);
  mDecorations : list QgsMapDecoration;
  mJob : option QgsMapRendererCustomPainterJob;
  mError : option ErrorType;
  isCanceled : bool
}.

Definition set_mError (e : ErrorType) (t : QgsMapRendererTask) : QgsMapRendererTask :=
  {| mMapSettings := mMapSettings t; mFileName := mFileName t;
     mFileFormat := mFileFormat t; mForceRaster := mForceRaster t;
     mSaveWorldFile := mSaveWorldFile t; mPainter := mPainter t;
     mAnnotations := mAnnotations t; mDecorations := mDecorations t;
     mJob := mJob t; mError := Some e; isCanceled := isCanceled t |}.

Definition set_mJob (j : option QgsMapRendererCustomPainterJob)
  (t : QgsMapRendererTask) : QgsMapRendererTask :=
  {| mMapSettings := mMapSettings t; mFileName := mFileName t;
     mFileFormat := mFileFormat t; mForceRaster := mForceRaster t;
     mSaveWorldFile := mSaveWorldFile t; mPainter := mPainter t;
     mAnnotations := mAnnotations t; mDecorations := mDecorations t;
     mJob := j; mError := mError t; isCanceled := isCanceled t |}.

Definition set_mAnnotations (l : list (option QgsAnnotation))
  (t : QgsMapRendererTask) : QgsMapRendererTask :=
  {| mMapSettings := mMapSettings t; mFileName := mFileName t;
     mFileFormat := mFileFormat t; mForceRaster := mForceRaster t;
     mSaveWorldFile := mSaveWorldFile t; mPainter := mPainter t;
     mAnnotations := l; mDecorations := mDecorations t;
     mJob := mJob t; mError := mError t; isCanceled := isCanceled t |}.

Definition set_mDecorations (l : list QgsMapDecoration)
  (t : QgsMapRendererTask) : QgsMapRendererTask :=
  {| mMapSettings := mMapSettings t; mFileName := mFileName t;
     mFileFormat := mFileFormat t; mForceRaster := mForceRaster t;
     mSaveWorldFile := mSaveWorldFile t; mPainter := mPainter t;
     mAnnotations := mAnnotations t; mDecorations := l;
     mJob := mJob t; mError := mError t; isCanceled := isCanceled t |}.

(** Modelled from the spec: QgsTask::cancel() is defined outside this file;
    it marks the task canceled, which [isCanceled()] then reports. *)
Definition QgsTask_cancel (t : QgsMapRendererTask) : QgsMapRendererTask :=
  {| mMapSettings := mMapSettings t; mFileName := mFileName t;
     mFileFormat := mFileFormat t; mForceRaster := mForceRaster t;
     mSaveWorldFile := mSaveWorldFile t; mPainter := mPainter t;
     mAnnotations := mAnnotations t; mDecorations := mDecorations t;
     mJob := mJob t; mError := mError t; isCanceled := true |}.

(** ** Calls on the collaborators *)

Inductive Event : Type :=
(* mJobMutex *)
| MutexLock
| MutexUnlock
(* the drawing surface *)
| PrinterNew (fileName : string) (paperWidth paperHeight resolution : R)
| ImageNew (size : QSize.t)
| ImageSetDotsPerMeterX (v : R)
| ImageSetDotsPerMeterY (v : R)
| PainterNew (on : Painter)
(* the render job *)
| JobNew (j : QgsMapRendererCustomPainterJob)
| JobRenderSynchronously
| JobCancelWithoutBlocking
| JobDelete
(* decorations and annotations *)
| DecorationRender (d : QgsMapDecoration)
| PainterSave
| PainterSetRenderHint
| PainterTranslate (dx dy : R)
| AnnotationRender (index : nat)
| PainterRestore
(* the output *)
| PainterEnd (p : Painter)
| PrinterDrawImage
| ImageSave (fileName format : string)
| CPLSetThreadLocalConfigOption (key : string) (value : option R)
| GDALOpen (fileName : string)
| GDALSetGeoTransform (g : GeoTransform)
| GDALSetProjection (wkt : string)
| WorldFileOpen (fileName : string)
| WorldFileWrite (fileName : string) (lines : list R).

(** The moments of [run()] at which a [cancel()] of another thread can make
    a difference: before the job exists, while it renders, after it is gone
    and before the check that follows, and before the check that opens the
    i-th turn of the annotation loop. *)
Inductive Checkpoint : Type :=
| BeforeJob
| DuringRender
| AfterRender
| BeforeAnnotation (i : nat).

(** What is not decided by the task: the build flag, the answers of Qt, GDAL
    and the file system, the rotation terms of the world file, and the
    number of [cancel()] calls that arrive at each checkpoint. *)
Record Env : Type := {
  QT_NO_PRINTER : bool;
  imageIsNull : QSize.t -> bool;
  imageSaves : bool;
  gdalOpens : bool;
  worldFileOpens : bool;
  absolutePath : string -> string;
  rotationTerms : QgsMapSettings -> R * R * R;
  cancelCalls : Checkpoint -> nat
}.

(** ** A monad for member functions that return early *)

Inductive Flow (A : Type) : Type :=
| Next (a : A)          (* falls through to the next statement *)
| Return (b : bool)     (* [return b;] *)
| Undefined.            (* left the contract of a callee *)
Arguments Next {A} a.
Arguments Return {A} b.
Arguments Undefined {A}.

Record Step (A : Type) : Type := {
  flow : Flow A;
  task : QgsMapRendererTask;
  events : list Event
}.
Arguments flow {A} s.
Arguments task {A} s.
Arguments events {A} s.

Definition M (A : Type) : Type := QgsMapRendererTask -> Step A.

Definition ret {A : Type} (a : A) : M A :=
  fun t => {| flow := Next a; task := t; events := [] |}.

Definition bind {A B : Type} (m : M A) (k : A -> M B) : M B :=
  fun t =>
    let s := m t in
    match flow s with
    | Next a =>
        let s' := k a (task s) in
        {| flow := flow s'; task := task s'; events := events s ++ events s' |}
    | Return b => {| flow := Return b; task := task s; events := events s |}
    | Undefined => {| flow := Undefined; task := task s; events := events s |}
    end.

Notation "x <- c1 ;; c2" := (bind c1 (fun x => c2))
  (at level 61, c1 at next level, right associativity).
Notation "c1 ;; c2" := (bind c1 (fun _ => c2))
  (at level 61, right associativity).

Definition get : M QgsMapRendererTask :=
  fun t => {| flow := Next t; task := t; events := [] |}.

Definition modify (f : QgsMapRendererTask -> QgsMapRendererTask) : M unit :=
  fun t => {| flow := Next tt; task := f t; events := [] |}.

Definition emit (e : Event) : M unit :=
  fun t => {| flow := Next tt; task := t; events := [e] |}.

Definition exit {A : Type} (b : bool) : M A :=
  fun t => {| flow := Return b; task := t; events := [] |}.

Definition undefined {A : Type} : M A :=
  fun t => {| flow := Undefined; task := t; events := [] |}.

Fixpoint times (n : nat) (m : M unit) : M unit :=
  match n with
  | O => ret tt
  | S n' => m ;; times n' m
  end.

Fixpoint forEach {A : Type} (body : A -> M unit) (l : list A) : M unit :=
  match l with
  | [] => ret tt
  | a :: l' => body a ;; forEach body l'
  end.

(** ** Constructors and setters (lines 31-62) *)

(** Modelled from the spec: the in-class initialisers are in the header,
    which is not part of this file.  The two output modes exclude each other
    (no painter in the file mode, no destination in the painter mode), the
    error code starts as none and the task starts not canceled. *)
Definition QgsMapRendererTask_file (ms : QgsMapSettings) (fileName fileFormat : string)
  (forceRaster : bool) : QgsMapRendererTask :=
  {| mMapSettings := ms; mFileName := fileName; mFileFormat := fileFormat;
     mForceRaster := forceRaster; mSaveWorldFile := false; mPainter := None;
     mAnnotations := []; mDecorations := []; mJob := None; mError := None;
     isCanceled := false |}.

Definition QgsMapRendererTask_painter (ms : QgsMapSettings) (p : option QPainter)
  : QgsMapRendererTask :=
  {| mMapSettings := ms; mFileName := EmptyString; mFileFormat := EmptyString;
     mForceRaster := false; mSaveWorldFile := false; mPainter := p;
     mAnnotations := []; mDecorations := []; mJob := None; mError := None;
     isCanceled := false |}.

(** The old clones are deleted and the list is rebuilt from clones. *)
Definition addAnnotations (annotations : list QgsAnnotation) : M unit :=
  modify (set_mAnnotations (map Some annotations)).

Definition addDecorations (decorations : list QgsMapDecoration) : M unit :=
  modify (set_mDecorations decorations).

(** ** cancel() (lines 65-73) *)

Definition cancel : M unit :=
  emit MutexLock ;;
  t <- get ;;
  match mJob t with
  | Some _ => emit JobCancelWithoutBlocking
  | None => ret tt
  end ;;
  emit MutexUnlock ;;
  modify QgsTask_cancel.

(** The [cancel()] calls of other threads that arrive at a checkpoint. *)
Definition interleave (env : Env) (cp : Checkpoint) : M unit :=
  times (cancelCalls env cp) cancel.

(** ** The world file and the geotransform *)

(** Modelled from the spec: QgsMapSettingsUtils::worldFileParameters is
    defined outside this file.  The pixel width [a] is the extent's width
    over the output width, the origin [c], [f] is the top-left corner of the
    extent, and [b], [d], [e] are the terms that depend on the rotation,
    which the spec leaves open. *)
Definition worldFileParameters (env : Env) (ms : QgsMapSettings) : WorldFile :=
  let '(b, d, e) := rotationTerms env ms in
  {| wf_a := (QgsRectangle.width (extent ms) / IZR (QSize.width (outputSize ms)))%R;
     wf_b := b;
     wf_c := QgsRectangle.xMinimum (extent ms);
     wf_d := d;
     wf_e := e;
     wf_f := QgsRectangle.yMaximum (extent ms) |}.

(** Lines 205-211 and 244-250: the origin is moved to the center of the
    top-left pixel and the array is filled as { c, a, b, f, d, e }. *)
Definition geoTransform (env : Env) (ms : QgsMapSettings) : GeoTransform :=
  let p := worldFileParameters env ms in
  let c := (wf_c p - 0.5 * wf_a p)%R in
  let c := (c - 0.5 * wf_b p)%R in
  let f := (wf_f p - 0.5 * wf_d p)%R in
  let f := (f - 0.5 * wf_e p)%R in
  {| originX := c; pixelWidth := wf_a p; rowRotation := wf_b p;
     originY := f; columnRotation := wf_d p; pixelHeight := wf_e p |}.

(** Modelled from the spec: QgsMapSettingsUtils::worldFileContent is defined
    outside this file.  Six lines of decimal text, a line being the number it
    prints: pixel width, row rotation, column rotation, pixel height, and
    the origin in x and in y after the half-pixel shift. *)
Definition worldFileContent (env : Env) (ms : QgsMapSettings) : list R :=
  let p := worldFileParameters env ms in
  [ wf_a p; wf_b p; wf_d p; wf_e p;
    (wf_c p - 0.5 * (wf_a p + wf_b p))%R;
    (wf_f p - 0.5 * (wf_d p + wf_e p))%R ].

(** ** run() (lines 75-273) *)

(** Lines 77-127: which painter the job and the compositor draw with. *)
Definition resolveSurface (env : Env) : M Painter :=
  t <- get ;;
  let ms := mMapSettings t in
  let destPainter := option_map External (mPainter t) in
  destPainter <-
    (if mFileFormat t =? "PDF" then
       if QT_NO_PRINTER env then
         modify (set_mError ImageUnsupportedFormat) ;;
         exit false
       else
         emit (PrinterNew (mFileName t)
                 (IZR (QSize.width (outputSize ms)) * 25.4 / outputDpi ms)%R
                 (IZR (QSize.height (outputSize ms)) * 25.4 / outputDpi ms)%R
                 (outputDpi ms)) ;;
         if negb (mForceRaster t) then
           emit (PainterNew OnPrinter) ;;
           ret (Some OnPrinter)
         else ret destPainter
     else ret destPainter) ;;
  destPainter <-
    match destPainter with
    | None =>
        emit (ImageNew (outputSize ms)) ;;
        if imageIsNull env (outputSize ms) then
          modify (set_mError ImageAllocationFail) ;;
          exit false
        else
          emit (ImageSetDotsPerMeterX (1000 * outputDpi ms / 25.4)%R) ;;
          emit (ImageSetDotsPerMeterY (1000 * outputDpi ms / 25.4)%R) ;;
          emit (PainterNew OnImage) ;;
          ret (Some OnImage)
    | Some p => ret (Some p)
    end ;;
  match destPainter with
  | None => exit false
  | Some p => ret p
  end.

(** Lines 129-136: the job lives while it renders; other threads may call
    [cancel()] meanwhile. *)
Definition renderJob (env : Env) (destPainter : Painter) : M unit :=
  interleave env BeforeJob ;;
  emit MutexLock ;;
  t <- get ;;
  let job := {| jobSettings := mMapSettings t; jobPainter := destPainter |} in
  modify (set_mJob (Some job)) ;;
  emit (JobNew job) ;;
  emit MutexUnlock ;;
  emit JobRenderSynchronously ;;
  interleave env DuringRender ;;
  emit MutexLock ;;
  modify (set_mJob None) ;;
  emit JobDelete ;;
  emit MutexUnlock ;;
  interleave env AfterRender.

(** Lines 168-178: where the painter is moved to before an annotation is
    drawn. *)
Definition itemPosition (ms : QgsMapSettings) (annotation : QgsAnnotation) : R * R :=
  if hasFixedMapPosition annotation then
    ((IZR (QSize.width (outputSize ms))
       * (QgsPointXY.x (mapPosition annotation) - QgsRectangle.xMinimum (extent ms))
       / QgsRectangle.width (extent ms))%R,
     (IZR (QSize.height (outputSize ms))
       * (1 - (QgsPointXY.y (mapPosition annotation) - QgsRectangle.yMinimum (extent ms))
              / QgsRectangle.height (extent ms)))%R)
  else
    ((QPointF.x (relativePosition annotation) * IZR (QSize.width (outputSize ms)))%R,
     (QPointF.y (relativePosition annotation) * IZR (QSize.height (outputSize ms)))%R).

(** Lines 156-163: the two [continue] tests of the annotation loop. *)
Definition skipped (ms : QgsMapSettings) (annotation : option QgsAnnotation) : bool :=
  match annotation with
  | None => true
  | Some a =>
      if negb (isVisible a) then true
      else
        match mapLayer a with
        | Some l => negb (contains (layers ms) l)
        | None => false
        end
  end.

(** Lines 151-184, from the i-th annotation on. *)
Fixpoint renderAnnotations (env : Env) (ms : QgsMapSettings) (i : nat)
  (annotations : list (option QgsAnnotation)) : M unit :=
  match annotations with
  | [] => ret tt
  | annotation :: rest =>
      interleave env (BeforeAnnotation i) ;;
      t <- get ;;
      (if isCanceled t then exit false else ret tt) ;;
      match annotation with
      | Some a =>
          if skipped ms annotation then ret tt
          else
            emit PainterSave ;;
            emit PainterSetRenderHint ;;
            let '(itemX, itemY) := itemPosition ms a in
            emit (PainterTranslate itemX itemY) ;;
            emit (AnnotationRender i) ;;
            emit PainterRestore
      | None => ret tt
      end ;;
      renderAnnotations env ms (S i) rest
  end.

(** Lines 201-215 and 240-253: the file is reopened and stamped. *)
Definition embedGeoTransform (env : Env) (t : QgsMapRendererTask) : M bool :=
  emit (GDALOpen (mFileName t)) ;;
  if gdalOpens env then
    emit (GDALSetGeoTransform (geoTransform env (mMapSettings t))) ;;
    emit (GDALSetProjection (destinationCrs (mMapSettings t))) ;;
    ret true
  else ret false.

(** Lines 258-266: the sidecar next to the image. *)
Definition writeWorldFile (env : Env) (t : QgsMapRendererTask) : M unit :=
  let outputSuffix := QFileInfo.suffix (mFileName t) in
  match QString.at_ outputSuffix 0,
        QString.at_ outputSuffix (QString.size (QFileInfo.suffix (mFileName t)) - 1) with
  | Some first, Some last =>
      let worldFileName :=
        (absolutePath env (mFileName t) ++ "/" ++ QFileInfo.baseName (mFileName t) ++ "."
           ++ QString.ofChar first ++ QString.ofChar last ++ "w")%string in
      emit (WorldFileOpen worldFileName) ;;
      if worldFileOpens env then
        emit (WorldFileWrite worldFileName (worldFileContent env (mMapSettings t)))
      else ret tt
  | _, _ => undefined
  end.

(** Lines 186-270. *)
Definition finalize (env : Env) (destPainter : Painter) : M unit :=
  t <- get ;;
  if negb (QString.isEmpty (mFileName t)) then
    emit (PainterEnd destPainter) ;;
    if mForceRaster t && (mFileFormat t =? "PDF") then
      if QT_NO_PRINTER env then
        modify (set_mError ImageUnsupportedFormat) ;;
        exit false
      else
        emit PrinterDrawImage ;;
        if mSaveWorldFile t then
          emit (CPLSetThreadLocalConfigOption "GDAL_PDF_DPI" (Some (outputDpi (mMapSettings t)))) ;;
          _ <- embedGeoTransform env t ;;
          emit (CPLSetThreadLocalConfigOption "GDAL_PDF_DPI" None)
        else ret tt
    else if negb (mFileFormat t =? "PDF") then
      emit (ImageSave (mFileName t) (mFileFormat t)) ;;
      if negb (imageSaves env) then
        modify (set_mError ImageSaveFail) ;;
        exit false
      else
        if mSaveWorldFile t then
          let outputSuffix := QFileInfo.suffix (mFileName t) in
          skipWorldFile <-
            (if (outputSuffix =? "tif") || (outputSuffix =? "tiff") then
               embedGeoTransform env t
             else ret false) ;;
          if negb skipWorldFile then writeWorldFile env t else ret tt
        else ret tt
    else ret tt
  else ret tt.

(** The render context of lines 141-142 is built from the settings and
    bound to [destPainter]; it makes no call on a collaborator. *)
Definition run (env : Env) : M unit :=
  destPainter <- resolveSurface env ;;
  renderJob env destPainter ;;
  t <- get ;;
  (if isCanceled t then exit false else ret tt) ;;
  forEach (fun decoration => emit (DecorationRender decoration)) (mDecorations t) ;;
  renderAnnotations env (mMapSettings t) 0 (mAnnotations t) ;;
  finalize env destPainter ;;
  exit true.

(** ** finished() (lines 275-284) *)

Inductive Signal : Type :=
| renderingComplete
| errorOccurred (error : option ErrorType).

Definition finished (result : bool) (t : QgsMapRendererTask)
  : QgsMapRendererTask * Signal :=
  (set_mAnnotations [] t,
   if result then renderingComplete else errorOccurred (mError t)).

(** ** Helpers for the statements *)

Definition hasJob (t : QgsMapRendererTask) : bool :=
  match mJob t with Some _ => true | None => false end.

Definition set_isCanceled (c : bool) (t : QgsMapRendererTask) : QgsMapRendererTask :=
  {| mMapSettings := mMapSettings t; mFileName := mFileName t;
     mFileFormat := mFileFormat t; mForceRaster := mForceRaster t;
     mSaveWorldFile := mSaveWorldFile t; mPainter := mPainter t;
     mAnnotations := mAnnotations t; mDecorations := mDecorations t;
     mJob := mJob t; mError := mError t; isCanceled := c |}.

(** Whether a [cancel()] arrives between the start of [run()] and the check
    of line 138. *)
Definition canceledMeanwhile (env : Env) : bool :=
  negb (cancelCalls env BeforeJob =? 0)%nat
  || negb (cancelCalls env DuringRender =? 0)%nat
  || negb (cancelCalls env AfterRender =? 0)%nat.

(** The task when line 138 is reached: the job is gone, and the task is
    canceled if it was before or if a [cancel()] arrived meanwhile. *)
Definition afterJob (env : Env) (t : QgsMapRendererTask) : QgsMapRendererTask :=
  {| mMapSettings := mMapSettings t; mFileName := mFileName t;
     mFileFormat := mFileFormat t; mForceRaster := mForceRaster t;
     mSaveWorldFile := mSaveWorldFile t; mPainter := mPainter t;
     mAnnotations := mAnnotations t; mDecorations := mDecorations t;
     mJob := None; mError := mError t;
     isCanceled := isCanceled t || canceledMeanwhile env |}.

(** The calls made before anything is composed: the mutex, the surface and
    the job. *)
Definition isSetup (e : Event) : bool :=
  match e with
  | MutexLock | MutexUnlock | PrinterNew _ _ _ _ | ImageNew _
  | ImageSetDotsPerMeterX _ | ImageSetDotsPerMeterY _ | PainterNew _
  | JobNew _ | JobRenderSynchronously | JobCancelWithoutBlocking | JobDelete => true
  | _ => false
  end.

(** The calls of the compositor (lines 144-184). *)
Definition isCompose (e : Event) : bool :=
  match e with
  | DecorationRender _ | PainterSave | PainterSetRenderHint | PainterTranslate _ _
  | AnnotationRender _ | PainterRestore => true
  | _ => false
  end.

(** ** Observations on a run *)

Definition isRender (e : Event) : bool :=
  match e with
  | DecorationRender _ | AnnotationRender _ => true
  | _ => false
  end.

Definition isAnnotationRender (i : nat) (e : Event) : bool :=
  match e with
  | AnnotationRender j => Nat.eqb i j
  | _ => false
  end.

Definition isJobCancel (e : Event) : bool :=
  match e with
  | JobCancelWithoutBlocking => true
  | _ => false
  end.

(** The calls of the output phase (lines 186-270). *)
Definition isOutput (e : Event) : bool :=
  match e with
  | PainterEnd _ | PrinterDrawImage | ImageSave _ _
  | CPLSetThreadLocalConfigOption _ _ | GDALOpen _ | GDALSetGeoTransform _
  | GDALSetProjection _ | WorldFileOpen _ | WorldFileWrite _ _ => true
  | _ => false
  end.

Definition count (p : Event -> bool) (l : list Event) : nat :=
  List.length (filter p l).

(** How often the i-th annotation of the list was rendered. *)
Definition annotationRenders (i : nat) (l : list Event) : nat :=
  count (isAnnotationRender i) l.

Definition jobCancels (l : list Event) : nat := count isJobCancel l.

(** The geotransforms stamped into the output, the sidecars written and the
    attempts to open one. *)
Fixpoint geoTransforms (l : list Event) : list GeoTransform :=
  match l with
  | [] => []
  | GDALSetGeoTransform g :: l' => g :: geoTransforms l'
  | _ :: l' => geoTransforms l'
  end.

Fixpoint worldFiles (l : list Event) : list (string * list R) :=
  match l with
  | [] => []
  | WorldFileWrite n c :: l' => (n, c) :: worldFiles l'
  | _ :: l' => worldFiles l'
  end.

Fixpoint worldFileOpenings (l : list Event) : list string :=
  match l with
  | [] => []
  | WorldFileOpen n :: l' => n :: worldFileOpenings l'
  | _ :: l' => worldFileOpenings l'
  end.

(** Whether an image buffer is needed, and the error of lines 85-124, if
    any, read off the task and the environment. *)
Definition needsImage (t : QgsMapRendererTask) : bool :=
  match mPainter t with
  | Some _ => false
  | None => negb (mFileFormat t =? "PDF") || mForceRaster t
  end.

Definition surfaceError (env : Env) (t : QgsMapRendererTask) : option ErrorType :=
  if (mFileFormat t =? "PDF") && QT_NO_PRINTER env then Some ImageUnsupportedFormat
  else if needsImage t && imageIsNull env (outputSize (mMapSettings t))
       then Some ImageAllocationFail
       else None.

(** No [cancel()] has been seen by the check that opens turn [i] of the
    annotation loop. *)
Definition notCanceledUpTo (env : Env) (t : QgsMapRendererTask) (i : nat) : Prop :=
  isCanceled t = false
  /\ cancelCalls env BeforeJob = 0%nat
  /\ cancelCalls env DuringRender = 0%nat
  /\ cancelCalls env AfterRender = 0%nat
  /\ forall j, (j <= i)%nat -> cancelCalls env (BeforeAnnotation j) = 0%nat.

(** The run ended as a cancellation: it returned false, the task is canceled
    and the run set no error code, so that [finished] reports the code the
    task had before. *)
Definition canceledOutcome (before : QgsMapRendererTask) (s : Step unit) : Prop :=
  flow s = Return false
  /\ isCanceled (task s) = true
  /\ mError (task s) = mError before.

(** The sidecar name in the words of the spec: the extension of the output
    replaced by its first character, its last character and 'w'. *)
Definition sidecarName_spec (env : Env) (path : string) : option string :=
  let ext := QFileInfo.suffix path in
  match QString.at_ ext 0, QString.at_ ext (QString.size ext - 1) with
  | Some first, Some last =>
      Some (absolutePath env path ++ "/" ++ QFileInfo.completeBaseName path ++ "."
              ++ QString.ofChar first ++ QString.ofChar last ++ "w")%string
  | _, _ => None
  end.

(** The calls a client makes on a task before it runs. *)
Inductive Call : Type :=
| CallAddAnnotations (annotations : list QgsAnnotation)
| CallAddDecorations (decorations : list QgsMapDecoration)
| CallCancel.

Definition call (c : Call) : M unit :=
  match c with
  | CallAddAnnotations l => addAnnotations l
  | CallAddDecorations l => addDecorations l
  | CallCancel => cancel
  end.

(** ** Sample inputs *)

Definition sampleSettings : QgsMapSettings :=
  {| extent := QgsRectangle.mk 0 0 100 100;
     outputSize := QSize.mk 200 100;
     outputDpi := 96;
     layers := [1; 2]%nat;
     destinationCrs := "EPSG:4326" |}.

(** Everything works and nobody cancels. *)
Definition sampleEnv : Env :=
  {| QT_NO_PRINTER := false;
     imageIsNull := fun _ => false;
     imageSaves := true;
     gdalOpens := true;
     worldFileOpens := true;
     absolutePath := fun path =>
       match QString.beforeLast "/" path with Some d => d | None => "." end;
     rotationTerms := fun _ => (0, 0, -1)%R;
     cancelCalls := fun _ => 0%nat |}.

Definition sampleAnnotation : QgsAnnotation :=
  {| isVisible := true;
     mapLayer := None;
     hasFixedMapPosition := true;
     mapPosition := QgsPointXY.mk 50 50;
     relativePosition := QPointF.mk 0 0 |}.

(** The save-worldfile flag switched on (its setter is in the header). *)
Definition withSaveWorldFile (t : QgsMapRendererTask) : QgsMapRendererTask :=
  {| mMapSettings := mMapSettings t; mFileName := mFileName t;
     mFileFormat := mFileFormat t; mForceRaster := mForceRaster t;
     mSaveWorldFile := true; mPainter := mPainter t;
     mAnnotations := mAnnotations t; mDecorations := mDecorations t;
     mJob := mJob t; mError := mError t; isCanceled := isCanceled t |}.

(** The image buffer cannot be allocated. *)
Definition allocationFails : Env :=
  {| QT_NO_PRINTER := false;
     imageIsNull := fun _ => true;
     imageSaves := true;
     gdalOpens := true;
     worldFileOpens := true;
     absolutePath := absolutePath sampleEnv;
     rotationTerms := rotationTerms sampleEnv;
     cancelCalls := fun _ => 0%nat |}.

(** The image is saved, but GDAL cannot reopen it and no sidecar can be
    opened for writing. *)
Definition noGeoreferencing : Env :=
  {| QT_NO_PRINTER := false;
     imageIsNull := fun _ => false;
     imageSaves := true;
     gdalOpens := false;
     worldFileOpens := false;
     absolutePath := absolutePath sampleEnv;
     rotationTerms := rotationTerms sampleEnv;
     cancelCalls := fun _ => 0%nat |}.

(** A build without printer support. *)
Definition noPrinter : Env :=
  {| QT_NO_PRINTER := true;
     imageIsNull := fun _ => false;
     imageSaves := true;
     gdalOpens := true;
     worldFileOpens := true;
     absolutePath := absolutePath sampleEnv;
     rotationTerms := rotationTerms sampleEnv;
     cancelCalls := fun _ => 0%nat |}.

(** A file task with the save-worldfile flag on. *)
Definition worldFileTask (fileName fileFormat : string) : QgsMapRendererTask :=
  withSaveWorldFile (QgsMapRendererTask_file sampleSettings fileName fileFormat false).

Definition relativeAnnotation : QgsAnnotation :=
  {| isVisible := true;
     mapLayer := Some 1%nat;
     hasFixedMapPosition := false;
     mapPosition := QgsPointXY.mk 0 0;
     relativePosition := QPointF.mk 1 1 |}.

(** What [run()] returns once the output phase is over. *)
Definition afterFinalize (f : Flow unit) : Flow unit :=
  match f with
  | Next _ => Return true
  | Return b => Return b
  | Undefined => Undefined
  end.

(** ** Further observations on a run *)

(** The stage of [run()] a call belongs to: the surface and the job (0),
    the decorations (1), the annotations (2), the output (3).  The mutex and
    the cancel request belong to [cancel()], which can come at any time. *)
Definition stage (e : Event) : option nat :=
  match e with
  | MutexLock | MutexUnlock | JobCancelWithoutBlocking => None
  | PrinterNew _ _ _ _ | ImageNew _ | ImageSetDotsPerMeterX _
  | ImageSetDotsPerMeterY _ | PainterNew _
  | JobNew _ | JobRenderSynchronously | JobDelete => Some 0%nat
  | DecorationRender _ => Some 1%nat
  | PainterSave | PainterSetRenderHint | PainterTranslate _ _
  | AnnotationRender _ | PainterRestore => Some 2%nat
  | PainterEnd _ | PrinterDrawImage | ImageSave _ _
  | CPLSetThreadLocalConfigOption _ _ | GDALOpen _ | GDALSetGeoTransform _
  | GDALSetProjection _ | WorldFileOpen _ | WorldFileWrite _ _ => Some 3%nat
  end.

Definition inStage (s : nat) (e : Event) : Prop :=
  stage e = None \/ stage e = Some s.

Definition isMutexLock (e : Event) : bool :=
  match e with MutexLock => true | _ => false end.

Definition isMutexUnlock (e : Event) : bool :=
  match e with MutexUnlock => true | _ => false end.

Definition isJobNew (e : Event) : bool :=
  match e with JobNew _ => true | _ => false end.

Definition isJobRender (e : Event) : bool :=
  match e with JobRenderSynchronously => true | _ => false end.

Definition isJobDelete (e : Event) : bool :=
  match e with JobDelete => true | _ => false end.

Definition isPainterSave (e : Event) : bool :=
  match e with PainterSave => true | _ => false end.

Definition isPainterTranslate (e : Event) : bool :=
  match e with PainterTranslate _ _ => true | _ => false end.

Definition isPainterRestore (e : Event) : bool :=
  match e with PainterRestore => true | _ => false end.

Definition isImageNew (e : Event) : bool :=
  match e with ImageNew _ => true | _ => false end.

Definition isImageSave (e : Event) : bool :=
  match e with ImageSave _ _ => true | _ => false end.

Definition isConfigSet (e : Event) : bool :=
  match e with CPLSetThreadLocalConfigOption _ (Some _) => true | _ => false end.

Definition isConfigReset (e : Event) : bool :=
  match e with CPLSetThreadLocalConfigOption _ None => true | _ => false end.

(** The calls that georeference the output (lines 199-216 and 231-268). *)
Definition isGeoreferencing (e : Event) : bool :=
  match e with
  | CPLSetThreadLocalConfigOption _ _ | GDALOpen _ | GDALSetGeoTransform _
  | GDALSetProjection _ | WorldFileOpen _ | WorldFileWrite _ _ => true
  | _ => false
  end.

Definition decorationRendered (e : Event) : list QgsMapDecoration :=
  match e with DecorationRender d => [d] | _ => [] end.

Definition annotationRendered (e : Event) : list nat :=
  match e with AnnotationRender i => [i] | _ => [] end.

Definition jobCreated (e : Event) : list QgsMapRendererCustomPainterJob :=
  match e with JobNew j => [j] | _ => [] end.

(** The decorations rendered, the indices of the annotations rendered and
    the jobs created, in the order of the calls. *)
Definition decorationsRendered (l : list Event) : list QgsMapDecoration :=
  flat_map decorationRendered l.

Definition annotationsRendered (l : list Event) : list nat :=
  flat_map annotationRendered l.

Definition jobsCreated (l : list Event) : list QgsMapRendererCustomPainterJob :=
  flat_map jobCreated l.

(** The indices, from [i] on, of the annotations that the loop does not
    skip. *)
Fixpoint toRender (ms : QgsMapSettings) (i : nat)
  (annotations : list (option QgsAnnotation)) : list nat :=
  match annotations with
  | [] => []
  | a :: rest =>
      (if skipped ms a then [] else [i]) ++ toRender ms (S i) rest
  end.

(** The painter that lines 79-124 choose when they raise no error. *)
Definition destination (t : QgsMapRendererTask) : Painter :=
  if (mFileFormat t =? "PDF") && negb (mForceRaster t) then OnPrinter
  else match mPainter t with
       | Some p => External p
       | None => OnImage
       end.

(** No thread ever calls [cancel()] on the task. *)
Definition neverCanceled (env : Env) (t : QgsMapRendererTask) : Prop :=
  isCanceled t = false /\ forall cp, cancelCalls env cp = 0%nat.

(** A task with two decorations and three annotations, the second of which
    is invisible. *)
Definition hiddenAnnotation : QgsAnnotation :=
  {| isVisible := false;
     mapLayer := None;
     hasFixedMapPosition := false;
     mapPosition := QgsPointXY.mk 0 0;
     relativePosition := QPointF.mk 0 0 |}.

Definition decoratedTask : QgsMapRendererTask :=
  task (addDecorations [7; 8]%nat
          (task (addAnnotations [sampleAnnotation; hiddenAnnotation; relativeAnnotation]
                   (QgsMapRendererTask_file sampleSettings "/data/map.png" "PNG" false)))).

(** Two [cancel()] calls arrive while the job renders. *)
Definition cancelWhileRendering : Env :=
  {| QT_NO_PRINTER := false;
     imageIsNull := fun _ => false;
     imageSaves := true;
     gdalOpens := true;
     worldFileOpens := true;
     absolutePath := absolutePath sampleEnv;
     rotationTerms := rotationTerms sampleEnv;
     cancelCalls := fun cp => match cp with DuringRender => 2%nat | _ => 0%nat end |}.

(** The image cannot be saved. *)
Definition saveFails : Env :=
  {| QT_NO_PRINTER := false;
     imageIsNull := fun _ => false;
     imageSaves := false;
     gdalOpens := true;
     worldFileOpens := true;
     absolutePath := absolutePath sampleEnv;
     rotationTerms := rotationTerms sampleEnv;
     cancelCalls := fun _ => 0%nat |}.

Definition isGDALOpen (e : Event) : bool :=
  match e with GDALOpen _ => true | _ => false end.

Definition isPrinterNew (e : Event) : bool :=
  match e with PrinterNew _ _ _ _ => true | _ => false end.

Definition isPrinterDrawImage (e : Event) : bool :=
  match e with PrinterDrawImage => true | _ => false end.


(** A PDF output that is rasterized first, with the save-worldfile flag. *)
Definition forceRasterTask : QgsMapRendererTask :=
  withSaveWorldFile (QgsMapRendererTask_file sampleSettings "/data/map.pdf" "PDF" true).


(** Case analysis on the tests of a computation. *)
Ltac split_ifs :=
  repeat match goal with
         | |- context [if ?c then _ else _] => destruct c eqn:?
         | |- context [match ?c with Some _ => _ | None => _ end] => destruct c eqn:?
         end.

(** * Properties *)

Local Open Scope list_scope.

(** ** The monad *)

Lemma bind_flow {A B : Type} (m : M A) (k : A -> M B) (t : QgsMapRendererTask) :
  flow (bind m k t) =
  match flow (m t) with
  | Next a => flow (k a (task (m t)))
  | Return b => Return b
  | Undefined => Undefined
  end.
Proof. unfold bind. destruct (flow (m t)); reflexivity. Qed.

Lemma bind_task {A B : Type} (m : M A) (k : A -> M B) (t : QgsMapRendererTask) :
  task (bind m k t) =
  match flow (m t) with
  | Next a => task (k a (task (m t)))
  | _ => task (m t)
  end.
Proof. unfold bind. destruct (flow (m t)); reflexivity. Qed.

Lemma bind_events {A B : Type} (m : M A) (k : A -> M B) (t : QgsMapRendererTask) :
  events (bind m k t) =
  events (m t) ++
  match flow (m t) with
  | Next a => events (k a (task (m t)))
  | _ => []
  end.
Proof.
  unfold bind. destruct (flow (m t)); cbn; try reflexivity.
  all: now rewrite app_nil_r.
Qed.

Lemma count_app (p : Event -> bool) (l1 l2 : list Event) :
  count p (l1 ++ l2) = (count p l1 + count p l2)%nat.
Proof. unfold count. now rewrite filter_app, length_app. Qed.

(** ** cancel() *)

Lemma cancel_flow (t : QgsMapRendererTask) : flow (cancel t) = Next tt.
Proof. unfold cancel, bind, hasJob; cbn. destruct (mJob t); reflexivity. Qed.

Lemma cancel_task (t : QgsMapRendererTask) : task (cancel t) = QgsTask_cancel t.
Proof. unfold cancel, bind, hasJob; cbn. destruct (mJob t); reflexivity. Qed.

Lemma cancel_events (t : QgsMapRendererTask) :
  events (cancel t) =
  MutexLock :: (if hasJob t then [JobCancelWithoutBlocking] else []) ++ [MutexUnlock].
Proof. unfold cancel, bind, hasJob; cbn. destruct (mJob t); reflexivity. Qed.

(** C6: a [cancel()] call asks the job to cancel exactly when the task holds
    a job at that moment, hence at most once, under the mutex; it returns
    normally, and the task is marked canceled afterwards whether or not
    there was a job, with nothing else changed. *)
Theorem C6_cancel (t : QgsMapRendererTask) :
  events (cancel t) =
    MutexLock :: (if hasJob t then [JobCancelWithoutBlocking] else []) ++ [MutexUnlock]
  /\ jobCancels (events (cancel t)) = (if hasJob t then 1 else 0)%nat
  /\ (jobCancels (events (cancel t)) <= 1)%nat
  /\ flow (cancel t) = Next tt
  /\ isCanceled (task (cancel t)) = true
  /\ task (cancel t) = QgsTask_cancel t.
Proof.
  rewrite cancel_events, cancel_flow, cancel_task. unfold hasJob.
  destruct (mJob t); cbn; repeat split; auto.
Qed.

(** ** The anchor of an annotation *)

(** The anchor of lines 171-172, and where it puts the center of the
    extent. *)
Lemma itemPosition_fixed (ms : QgsMapSettings) (a : QgsAnnotation) :
  hasFixedMapPosition a = true ->
  (0 < QgsRectangle.width (extent ms))%R ->
  (0 < QgsRectangle.height (extent ms))%R ->
  let W := IZR (QSize.width (outputSize ms)) in
  let H := IZR (QSize.height (outputSize ms)) in
  itemPosition ms a =
    ((W * (QgsPointXY.x (mapPosition a) - QgsRectangle.xMinimum (extent ms))
        / QgsRectangle.width (extent ms))%R,
     (H * (1 - (QgsPointXY.y (mapPosition a) - QgsRectangle.yMinimum (extent ms))
                / QgsRectangle.height (extent ms)))%R)
  /\ (mapPosition a = QgsRectangle.center (extent ms) ->
      itemPosition ms a = ((W / 2)%R, (H / 2)%R)).
Proof.
  intros Hfixed Hw Hh W H. unfold itemPosition. rewrite Hfixed.
  split; [reflexivity|].
  intros ->. cbn. fold W H. f_equal; field; lra.
Qed.

(** The anchor of lines 176-177, and where it puts the corners (0,0) and
    (1,1). *)
Lemma itemPosition_relative (ms : QgsMapSettings) (a : QgsAnnotation) :
  hasFixedMapPosition a = false ->
  let W := IZR (QSize.width (outputSize ms)) in
  let H := IZR (QSize.height (outputSize ms)) in
  itemPosition ms a =
    ((QPointF.x (relativePosition a) * W)%R, (QPointF.y (relativePosition a) * H)%R)
  /\ (relativePosition a = QPointF.mk 0 0 -> itemPosition ms a = (0%R, 0%R))
  /\ (relativePosition a = QPointF.mk 1 1 -> itemPosition ms a = (W, H)).
Proof.
  intros Hrel W H. unfold itemPosition. rewrite Hrel. fold W H.
  repeat split; try reflexivity.
  - intros ->. cbn. f_equal; ring.
  - intros ->. cbn. f_equal; ring.
Qed.

(** ** Events that an observation does not see *)

Lemma count_none (p q : Event -> bool) (l : list Event) :
  (forall e, q e = true -> p e = false) ->
  Forall (fun e => q e = true) l ->
  count p l = 0%nat.
Proof.
  intros Hpq Hl. unfold count. induction Hl as [|e l He _ IH]; cbn; [reflexivity|].
  now rewrite (Hpq e He).
Qed.

Lemma setup_not_render (e : Event) : isSetup e = true -> isRender e = false.
Proof. destruct e; cbn; congruence. Qed.

Lemma setup_not_output (e : Event) : isSetup e = true -> isOutput e = false.
Proof. destruct e; cbn; congruence. Qed.

Lemma setup_not_annotationRender (i : nat) (e : Event) :
  isSetup e = true -> isAnnotationRender i e = false.
Proof. destruct e; cbn; congruence. Qed.

Lemma output_not_annotationRender (i : nat) (e : Event) :
  isOutput e = true -> isAnnotationRender i e = false.
Proof. destruct e; cbn; congruence. Qed.

Lemma compose_not_output (e : Event) : isCompose e = true -> isOutput e = false.
Proof. destruct e; cbn; congruence. Qed.

(** ** Interleaved cancel() calls *)

Lemma times_cancel_flow (n : nat) (t : QgsMapRendererTask) :
  flow (times n cancel t) = Next tt.
Proof.
  revert t. induction n as [|n IH]; intros t; cbn; [reflexivity|].
  now rewrite bind_flow, cancel_flow, IH.
Qed.

Lemma times_cancel_task (n : nat) (t : QgsMapRendererTask) :
  task (times n cancel t) = set_isCanceled (isCanceled t || negb (n =? 0)%nat) t.
Proof.
  revert t. induction n as [|n IH]; intros t; cbn.
  - destruct t as [? ? ? ? ? ? ? ? ? ? c]; cbn. now rewrite orb_false_r.
  - rewrite bind_task, cancel_flow, cancel_task, IH. cbn.
    now rewrite orb_true_r.
Qed.

Lemma times_cancel_events (n : nat) (t : QgsMapRendererTask) :
  Forall (fun e => isSetup e = true) (events (times n cancel t)).
Proof.
  revert t. induction n as [|n IH]; intros t; cbn; [constructor|].
  rewrite bind_events, cancel_flow, cancel_events. cbn.
  constructor; [reflexivity|]. rewrite <- app_assoc.
  apply Forall_app; split.
  - destruct (hasJob t); repeat constructor.
  - cbn. constructor; [reflexivity|]. apply IH.
Qed.

(** ** The drawing surface *)

Lemma resolveSurface_fail (env : Env) (t : QgsMapRendererTask) (e : ErrorType) :
  surfaceError env t = Some e ->
  flow (resolveSurface env t) = Return false
  /\ task (resolveSurface env t) = set_mError e t.
Proof.
  unfold surfaceError, needsImage, resolveSurface, bind. cbn.
  destruct (mFileFormat t =? "PDF"), (QT_NO_PRINTER env), (mForceRaster t),
    (mPainter t), (imageIsNull env (outputSize (mMapSettings t))); cbn;
    intros [= <-]; split; reflexivity.
Qed.

Lemma resolveSurface_ok (env : Env) (t : QgsMapRendererTask) :
  surfaceError env t = None ->
  exists p, flow (resolveSurface env t) = Next p
            /\ task (resolveSurface env t) = t.
Proof.
  unfold surfaceError, needsImage, resolveSurface, bind. cbn.
  destruct (mFileFormat t =? "PDF"), (QT_NO_PRINTER env), (mForceRaster t),
    (mPainter t), (imageIsNull env (outputSize (mMapSettings t))); cbn;
    intros [=]; eexists; split; reflexivity.
Qed.

Lemma resolveSurface_events (env : Env) (t : QgsMapRendererTask) :
  Forall (fun e => isSetup e = true) (events (resolveSurface env t)).
Proof.
  unfold resolveSurface, bind. cbn.
  destruct (mFileFormat t =? "PDF"), (QT_NO_PRINTER env), (mForceRaster t),
    (mPainter t), (imageIsNull env (outputSize (mMapSettings t))); cbn;
    repeat constructor.
Qed.

(** ** The render job *)

Lemma renderJob_flow (env : Env) (p : Painter) (t : QgsMapRendererTask) :
  flow (renderJob env p t) = Next tt.
Proof.
  unfold renderJob, interleave.
  repeat (rewrite bind_flow; try rewrite times_cancel_flow; cbn [flow get modify emit]).
  reflexivity.
Qed.

Lemma renderJob_task (env : Env) (p : Painter) (t : QgsMapRendererTask) :
  task (renderJob env p t) = afterJob env t.
Proof.
  unfold renderJob, interleave.
  repeat (rewrite bind_task; try rewrite times_cancel_flow;
          cbn [flow task get modify emit]).
  rewrite !times_cancel_task. unfold afterJob, canceledMeanwhile. cbn.
  now rewrite <- !orb_assoc.
Qed.

Lemma renderJob_events (env : Env) (p : Painter) (t : QgsMapRendererTask) :
  Forall (fun e => isSetup e = true) (events (renderJob env p t)).
Proof.
  unfold renderJob, interleave.
  repeat (rewrite bind_events; try rewrite times_cancel_flow;
          cbn [flow task events get modify emit]).
  repeat (apply Forall_app; split); try apply times_cancel_events;
    repeat constructor.
Qed.

(** ** Decorations *)

Lemma decorations_flow (l : list QgsMapDecoration) (t : QgsMapRendererTask) :
  flow (forEach (fun d => emit (DecorationRender d)) l t) = Next tt.
Proof.
  induction l as [|d l IH]; cbn [forEach]; [reflexivity|].
  rewrite bind_flow. cbn [flow task emit]. exact IH.
Qed.

Lemma decorations_task (l : list QgsMapDecoration) (t : QgsMapRendererTask) :
  task (forEach (fun d => emit (DecorationRender d)) l t) = t.
Proof.
  induction l as [|d l IH]; cbn [forEach]; [reflexivity|].
  rewrite bind_task. cbn [flow task emit]. exact IH.
Qed.

Lemma decorations_events (l : list QgsMapDecoration) (t : QgsMapRendererTask) :
  events (forEach (fun d => emit (DecorationRender d)) l t) = map DecorationRender l.
Proof.
  induction l as [|d l IH]; cbn [forEach]; [reflexivity|].
  rewrite bind_events. cbn [flow task events emit]. now rewrite IH.
Qed.

(** ** The annotation loop *)

(** One turn of the loop, after the cancellation check. *)
Lemma renderAnnotations_cons (env : Env) (ms : QgsMapSettings) (i : nat)
  (a : option QgsAnnotation) (rest : list (option QgsAnnotation))
  (t : QgsMapRendererTask) :
  let t1 := set_isCanceled
              (isCanceled t || negb (cancelCalls env (BeforeAnnotation i) =? 0)%nat) t in
  let own := if skipped ms a then []
             else [PainterSave; PainterSetRenderHint;
                   PainterTranslate
                     (fst (match a with Some a' => itemPosition ms a' | None => (0%R, 0%R) end))
                     (snd (match a with Some a' => itemPosition ms a' | None => (0%R, 0%R) end));
                   AnnotationRender i; PainterRestore] in
  let s := renderAnnotations env ms i (a :: rest) t in
  let s' := renderAnnotations env ms (S i) rest t1 in
  if isCanceled t1
  then flow s = Return false /\ task s = t1
       /\ events s = events (interleave env (BeforeAnnotation i) t)
  else flow s = flow s' /\ task s = task s'
       /\ events s = events (interleave env (BeforeAnnotation i) t) ++ own ++ events s'.
Proof.
  cbn zeta. cbn [renderAnnotations]. unfold interleave.
  rewrite bind_flow, bind_task, bind_events, times_cancel_flow, times_cancel_task.
  cbn beta iota.
  set (t1 := set_isCanceled _ t).
  rewrite bind_flow, bind_task, bind_events. cbn [flow task events get app].
  rewrite bind_flow, bind_task, bind_events.
  change (isCanceled t1) with (isCanceled t || negb (cancelCalls env (BeforeAnnotation i) =? 0)%nat).
  destruct (isCanceled t || negb (cancelCalls env (BeforeAnnotation i) =? 0)%nat) eqn:Hc.
  - cbn. rewrite app_nil_r. auto.
  - cbn [flow task events ret exit app].
    rewrite bind_flow, bind_task, bind_events.
    destruct a as [a|]; cbn [skipped].
    + destruct (skipped ms (Some a)) eqn:Hs; cbn in Hs; rewrite Hs.
      * cbn. auto.
      * destruct (itemPosition ms a) as [x y]. cbn. auto.
    + cbn. auto.
Qed.

Lemma interleave_count_annotationRender (env : Env) (cp : Checkpoint) (j : nat)
  (t : QgsMapRendererTask) :
  count (isAnnotationRender j) (events (interleave env cp t)) = 0%nat.
Proof.
  apply count_none with (q := isSetup).
  - apply setup_not_annotationRender.
  - apply times_cancel_events.
Qed.

Lemma turn_count (j i : nat) (x y : R) :
  count (isAnnotationRender j)
    [PainterSave; PainterSetRenderHint; PainterTranslate x y;
     AnnotationRender i; PainterRestore]
  = if (j =? i)%nat then 1%nat else 0%nat.
Proof.
  unfold count. cbn -[Nat.eqb]. destruct (j =? i)%nat; reflexivity.
Qed.

Lemma renderAnnotations_flow (env : Env) (ms : QgsMapSettings)
  (l : list (option QgsAnnotation)) :
  forall i t,
    flow (renderAnnotations env ms i l t) = Next tt
    \/ flow (renderAnnotations env ms i l t) = Return false.
Proof.
  induction l as [|a rest IH]; intros i t; [left; reflexivity|].
  pose proof (renderAnnotations_cons env ms i a rest t) as H. cbn zeta in H.
  cbn [isCanceled set_isCanceled] in H.
  destruct (isCanceled t || _) in H.
  - right. apply H.
  - destruct H as (-> & _). apply IH.
Qed.

Lemma renderAnnotations_task (env : Env) (ms : QgsMapSettings)
  (l : list (option QgsAnnotation)) :
  forall i t, exists c, task (renderAnnotations env ms i l t) = set_isCanceled c t.
Proof.
  induction l as [|a rest IH]; intros i t.
  - exists (isCanceled t). destruct t; reflexivity.
  - pose proof (renderAnnotations_cons env ms i a rest t) as H. cbn zeta in H.
    cbn [isCanceled set_isCanceled] in H.
    destruct (isCanceled t || _) in H.
    + eexists. apply H.
    + destruct H as (_ & -> & _).
      destruct (IH (S i) (set_isCanceled false t)) as [c ->].
      exists c. reflexivity.
Qed.

Lemma renderAnnotations_events (env : Env) (ms : QgsMapSettings)
  (l : list (option QgsAnnotation)) :
  forall i t,
    Forall (fun e => isOutput e = false) (events (renderAnnotations env ms i l t)).
Proof.
  induction l as [|a rest IH]; intros i t; [constructor|].
  assert (Hi : Forall (fun e => isOutput e = false)
                 (events (interleave env (BeforeAnnotation i) t))).
  { eapply Forall_impl; [|apply times_cancel_events]. apply setup_not_output. }
  pose proof (renderAnnotations_cons env ms i a rest t) as H. cbn zeta in H.
  cbn [isCanceled set_isCanceled] in H.
  destruct (isCanceled t || _) in H.
  - destruct H as (_ & _ & ->). exact Hi.
  - destruct H as (_ & _ & ->).
    apply Forall_app; split; [exact Hi|].
    apply Forall_app; split; [|apply IH].
    destruct (skipped ms a); repeat constructor.
Qed.

Lemma renderAnnotations_count_below (env : Env) (ms : QgsMapSettings)
  (l : list (option QgsAnnotation)) :
  forall i t j, (j < i)%nat ->
    annotationRenders j (events (renderAnnotations env ms i l t)) = 0%nat.
Proof.
  unfold annotationRenders.
  induction l as [|a rest IH]; intros i t j Hj; [reflexivity|].
  pose proof (renderAnnotations_cons env ms i a rest t) as H. cbn zeta in H.
  cbn [isCanceled set_isCanceled] in H.
  destruct (isCanceled t || _) in H; destruct H as (_ & _ & ->).
  - apply interleave_count_annotationRender.
  - rewrite !count_app, interleave_count_annotationRender, IH by lia.
    destruct (skipped ms a); [reflexivity|].
    rewrite turn_count. destruct (Nat.eqb_spec j i); [lia|reflexivity].
Qed.

Lemma renderAnnotations_count (env : Env) (ms : QgsMapSettings)
  (l : list (option QgsAnnotation)) :
  forall i t k a,
    nth_error l k = Some a ->
    let n := annotationRenders (i + k) (events (renderAnnotations env ms i l t)) in
    (n <= 1)%nat
    /\ (skipped ms a = true -> n = 0%nat)
    /\ (skipped ms a = false ->
        isCanceled t = false ->
        (forall j, (j <= k)%nat -> cancelCalls env (BeforeAnnotation (i + j)) = 0%nat) ->
        n = 1%nat).
Proof.
  unfold annotationRenders.
  induction l as [|a0 rest IH]; intros i t k a Hnth; [destruct k; discriminate|].
  pose proof (renderAnnotations_cons env ms i a0 rest t) as H. cbn zeta in H.
  cbn [isCanceled set_isCanceled] in H.
  destruct (isCanceled t || _) eqn:Hc in H; destruct H as (_ & _ & He);
    cbn zeta; rewrite He; clear He.
  - rewrite interleave_count_annotationRender.
    split; [lia|split; [reflexivity|]].
    intros _ Ht Hcalls. specialize (Hcalls 0%nat ltac:(lia)).
    rewrite Nat.add_0_r in Hcalls. rewrite Ht, Hcalls in Hc. discriminate.
  - rewrite !count_app, interleave_count_annotationRender.
    destruct k as [|k]; cbn in Hnth.
    + injection Hnth as ->. rewrite Nat.add_0_r.
      pose proof (renderAnnotations_count_below env ms rest (S i)
                    (set_isCanceled false t) i ltac:(lia)) as Hb.
      unfold annotationRenders in Hb. rewrite Hb.
      destruct (skipped ms a).
      * split; [cbn; lia|split; [reflexivity|discriminate]].
      * rewrite turn_count, Nat.eqb_refl. cbn.
        split; [lia|split; [discriminate|reflexivity]].
    + replace (i + S k)%nat with (S i + k)%nat by lia.
      destruct (IH (S i) (set_isCanceled false t) k a Hnth) as (Hle & Hskip & Hone).
      assert (Hown : count (isAnnotationRender (S i + k))
                       (if skipped ms a0 then []
                        else [PainterSave; PainterSetRenderHint;
                              PainterTranslate
                                (fst match a0 with
                                     | Some a' => itemPosition ms a'
                                     | None => (0%R, 0%R)
                                     end)
                                (snd match a0 with
                                     | Some a' => itemPosition ms a'
                                     | None => (0%R, 0%R)
                                     end);
                              AnnotationRender i; PainterRestore]) = 0%nat).
      { destruct (skipped ms a0); [reflexivity|].
        rewrite turn_count. destruct (Nat.eqb_spec (S i + k) i); [lia|reflexivity]. }
      rewrite Hown. cbn [Nat.add].
      split; [exact Hle|split; [exact Hskip|]].
      intros Hs Ht Hcalls. apply Hone; [exact Hs|reflexivity|].
      intros j Hj. specialize (Hcalls (S j) ltac:(lia)).
      now replace (S i + j)%nat with (i + S j)%nat by lia.
Qed.

(** ** run(), phase by phase *)

Lemma run_shape (env : Env) (t : QgsMapRendererTask) :
  let s := run env t in
  let s1 := resolveSurface env t in
  match surfaceError env t with
  | Some e =>
      flow s = Return false /\ task s = set_mError e t /\ events s = events s1
  | None =>
      exists p, flow s1 = Next p /\
        let t1 := afterJob env t in
        let pre := events s1 ++ events (renderJob env p t) in
        if isCanceled t1
        then flow s = Return false /\ task s = t1 /\ events s = pre
        else
          let s3 := renderAnnotations env (mMapSettings t) 0 (mAnnotations t) t1 in
          let mid := pre ++ map DecorationRender (mDecorations t) ++ events s3 in
          match flow s3 with
          | Next _ =>
              let s4 := finalize env p (task s3) in
              flow s = afterFinalize (flow s4) /\ task s = task s4
              /\ events s = mid ++ events s4
          | _ => flow s = Return false /\ task s = task s3 /\ events s = mid
          end
  end.
Proof.
  cbn zeta. unfold run.
  rewrite bind_flow, bind_task, bind_events.
  destruct (surfaceError env t) as [e|] eqn:Hs.
  - destruct (resolveSurface_fail env t e Hs) as (-> & ->).
    now rewrite app_nil_r.
  - destruct (resolveSurface_ok env t Hs) as (p & Hf & Ht).
    exists p. split; [exact Hf|]. rewrite Hf, Ht. clear Hf Ht.
    rewrite bind_flow, bind_task, bind_events, renderJob_flow, renderJob_task.
    rewrite bind_flow, bind_task, bind_events. cbn [flow task events get app].
    rewrite bind_flow, bind_task, bind_events.
    destruct (isCanceled (afterJob env t)) eqn:Hc.
    + cbn [flow task events exit]. rewrite !app_nil_r. auto.
    + cbn [flow task events ret app].
      rewrite bind_flow, bind_task, bind_events.
      rewrite decorations_flow, decorations_task, decorations_events.
      rewrite bind_flow, bind_task, bind_events.
      cbn [mDecorations mAnnotations mMapSettings afterJob].
      destruct (renderAnnotations_flow env (mMapSettings t) (mAnnotations t) 0
                  (afterJob env t)) as [Hf|Hf]; rewrite Hf.
      * rewrite bind_flow, bind_task, bind_events.
        match goal with
        | |- context [finalize env p ?x] => destruct (flow (finalize env p x)) eqn:Hfin
        end.
        -- cbn [flow task events exit afterFinalize].
           rewrite !app_nil_r, <- !app_assoc. repeat split.
        -- cbn [afterFinalize]. rewrite !app_nil_r, <- !app_assoc. repeat split.
        -- cbn [afterFinalize]. rewrite !app_nil_r, <- !app_assoc. repeat split.
      * rewrite !app_nil_r, <- !app_assoc. repeat split.
Qed.

(** ** The output phase *)

Lemma finalize_events (env : Env) (p : Painter) (t : QgsMapRendererTask) :
  Forall (fun e => isOutput e = true) (events (finalize env p t)).
Proof.
  unfold finalize, embedGeoTransform, writeWorldFile, bind. cbn.
  split_ifs; cbn; repeat constructor.
Qed.

Lemma finalize_skipped (env : Env) (p : Painter) (t : QgsMapRendererTask) :
  QString.isEmpty (mFileName t) = true ->
  finalize env p t = ret tt t.
Proof.
  intros H. unfold finalize, bind. cbn. rewrite H. reflexivity.
Qed.

Lemma finalize_geoTransform (env : Env) (p : Painter) (t : QgsMapRendererTask)
  (g : GeoTransform) :
  In (GDALSetGeoTransform g) (events (finalize env p t)) ->
  g = geoTransform env (mMapSettings t).
Proof.
  unfold finalize, embedGeoTransform, writeWorldFile, bind. cbn.
  split_ifs; cbn; intros H;
    repeat (destruct H as [H|H]; [try discriminate; injection H as <-; reflexivity|]);
    contradiction.
Qed.

Lemma geoTransforms_app (l1 l2 : list Event) :
  geoTransforms (l1 ++ l2) = geoTransforms l1 ++ geoTransforms l2.
Proof.
  induction l1 as [|e l1 IH]; [reflexivity|].
  destruct e; cbn; rewrite IH; reflexivity.
Qed.

Lemma worldFiles_app (l1 l2 : list Event) :
  worldFiles (l1 ++ l2) = worldFiles l1 ++ worldFiles l2.
Proof.
  induction l1 as [|e l1 IH]; [reflexivity|].
  destruct e; cbn; rewrite IH; reflexivity.
Qed.

Lemma worldFileOpenings_app (l1 l2 : list Event) :
  worldFileOpenings (l1 ++ l2) = worldFileOpenings l1 ++ worldFileOpenings l2.
Proof.
  induction l1 as [|e l1 IH]; [reflexivity|].
  destruct e; cbn; rewrite IH; reflexivity.
Qed.

Lemma no_output_observed (l : list Event) :
  Forall (fun e => isOutput e = false) l ->
  geoTransforms l = [] /\ worldFiles l = [] /\ worldFileOpenings l = [].
Proof.
  induction 1 as [|e l He _ (IH1 & IH2 & IH3)]; [auto|].
  destruct e; cbn in *; try discriminate; auto.
Qed.

(** The run up to the output phase makes no call of the output phase; the
    output phase, when it is reached, works on the task as the constructor
    and the setters left it. *)
Lemma run_output (env : Env) (t : QgsMapRendererTask) :
  exists mid,
    Forall (fun e => isOutput e = false) mid
    /\ ((events (run env t) = mid /\ flow (run env t) = Return false)
        \/ exists p c,
             let t' := set_isCanceled c (afterJob env t) in
             events (run env t) = mid ++ events (finalize env p t')
             /\ flow (run env t) = afterFinalize (flow (finalize env p t'))
             /\ task (run env t) = task (finalize env p t')).
Proof.
  pose proof (run_shape env t) as H. cbn zeta in H.
  assert (Hs1 : Forall (fun e => isOutput e = false) (events (resolveSurface env t))).
  { eapply Forall_impl; [|apply resolveSurface_events]. apply setup_not_output. }
  destruct (surfaceError env t) as [e|].
  - destruct H as (Hf & _ & He). eexists; split; [exact Hs1|]. left. auto.
  - destruct H as (p & _ & H).
    assert (Hs2 : Forall (fun e => isOutput e = false) (events (renderJob env p t))).
    { eapply Forall_impl; [|apply renderJob_events]. apply setup_not_output. }
    destruct (isCanceled (afterJob env t)).
    + destruct H as (Hf & _ & He).
      eexists; split; [|left; split; [exact He|exact Hf]].
      apply Forall_app; auto.
    + set (s3 := renderAnnotations env (mMapSettings t) 0 (mAnnotations t) (afterJob env t)) in *.
      assert (Hmid : Forall (fun e => isOutput e = false)
                       ((events (resolveSurface env t) ++ events (renderJob env p t))
                          ++ map DecorationRender (mDecorations t) ++ events s3)).
      { repeat (apply Forall_app; split); auto.
        - apply Forall_forall. intros e He. apply in_map_iff in He.
          destruct He as (d & <- & _). reflexivity.
        - apply renderAnnotations_events. }
      destruct (renderAnnotations_task env (mMapSettings t) (mAnnotations t) 0
                  (afterJob env t)) as [c Hc]. fold s3 in Hc.
      destruct (flow s3).
      * destruct H as (Hf & Ht & He). eexists; split; [exact Hmid|].
        right. exists p, c. cbn zeta. rewrite <- Hc. auto.
      * destruct H as (Hf & _ & He). eexists; split; [exact Hmid|]. left; auto.
      * destruct H as (Hf & _ & He). eexists; split; [exact Hmid|]. left; auto.
Qed.

(** ** Where the painter is moved *)

Lemma setup_not_translate (x y : R) (l : list Event) :
  Forall (fun e => isSetup e = true) l -> ~ In (PainterTranslate x y) l.
Proof.
  intros Hl Hin. rewrite Forall_forall in Hl. specialize (Hl _ Hin). discriminate.
Qed.

Lemma renderAnnotations_translate (env : Env) (ms : QgsMapSettings)
  (l : list (option QgsAnnotation)) :
  forall i t x y,
    In (PainterTranslate x y) (events (renderAnnotations env ms i l t)) ->
    exists a, In (Some a) l /\ skipped ms (Some a) = false /\ itemPosition ms a = (x, y).
Proof.
  induction l as [|a0 rest IH]; intros i t x y Hin; [contradiction|].
  pose proof (renderAnnotations_cons env ms i a0 rest t) as H. cbn zeta in H.
  cbn [isCanceled set_isCanceled] in H.
  destruct (isCanceled t || _) in H; destruct H as (_ & _ & He); rewrite He in Hin.
  - exfalso. eapply setup_not_translate; [apply times_cancel_events|exact Hin].
  - apply in_app_or in Hin. destruct Hin as [Hin|Hin].
    { exfalso. eapply setup_not_translate; [apply times_cancel_events|exact Hin]. }
    apply in_app_or in Hin. destruct Hin as [Hin|Hin].
    + destruct (skipped ms a0) eqn:Hs; [contradiction|].
      destruct a0 as [a|]; [|discriminate].
      exists a. split; [now left|]. split; [exact Hs|].
      cbn in Hin.
      destruct Hin as [Hin|[Hin|[Hin|[Hin|[Hin|[]]]]]]; try discriminate.
      injection Hin as <- <-. apply surjective_pairing.
    + destruct (IH _ _ _ _ Hin) as (a & Ha & Hs & Hp).
      exists a. split; [now right|auto].
Qed.

(** Every translation of the painter in a run is the anchor computed for an
    annotation of the task that is not skipped. *)
Lemma run_translate (env : Env) (t : QgsMapRendererTask) (x y : R) :
  In (PainterTranslate x y) (events (run env t)) ->
  exists a, In (Some a) (mAnnotations t)
            /\ skipped (mMapSettings t) (Some a) = false
            /\ itemPosition (mMapSettings t) a = (x, y).
Proof.
  intros Hin. pose proof (run_shape env t) as H. cbn zeta in H.
  assert (Hout : forall p t', ~ In (PainterTranslate x y) (events (finalize env p t'))).
  { intros p t' Hi. pose proof (finalize_events env p t') as Hf.
    rewrite Forall_forall in Hf. specialize (Hf _ Hi). discriminate. }
  assert (Hdeco : ~ In (PainterTranslate x y) (map DecorationRender (mDecorations t))).
  { intros Hi. apply in_map_iff in Hi. destruct Hi as (d & Hd & _). discriminate. }
  destruct (surfaceError env t).
  - destruct H as (_ & _ & He). rewrite He in Hin.
    exfalso. eapply setup_not_translate; [apply resolveSurface_events|exact Hin].
  - destruct H as (p & _ & H).
    pose proof (setup_not_translate x y _ (resolveSurface_events env t)) as Hpre1.
    pose proof (setup_not_translate x y _ (renderJob_events env p t)) as Hpre2.
    destruct (isCanceled (afterJob env t)).
    + destruct H as (_ & _ & He). rewrite He, in_app_iff in Hin. tauto.
    + set (s3 := renderAnnotations env (mMapSettings t) 0 (mAnnotations t)
                   (afterJob env t)) in *.
      specialize (Hout p (task s3)).
      apply (renderAnnotations_translate env (mMapSettings t) (mAnnotations t) 0
               (afterJob env t)).
      fold s3.
      destruct (flow s3); destruct H as (_ & _ & He);
        rewrite He, !in_app_iff in Hin; tauto.
Qed.

(** ** Unsupported format *)

(** C8: in a build without printer support, a task whose format is PDF
    fails with ImageUnsupportedFormat before any call is made on a
    collaborator: no surface is created, no job is constructed, nothing is
    drawn, and [finished] reports that error. *)
Theorem C8_pdf_without_printer (env : Env) (t : QgsMapRendererTask) :
  QT_NO_PRINTER env = true ->
  mFileFormat t = "PDF"%string ->
  flow (run env t) = Return false
  /\ mError (task (run env t)) = Some ImageUnsupportedFormat
  /\ events (run env t) = []
  /\ snd (finished false (task (run env t))) = errorOccurred (Some ImageUnsupportedFormat).
Proof.
  intros Hnp Hpdf.
  assert (Hs : surfaceError env t = Some ImageUnsupportedFormat).
  { unfold surfaceError. now rewrite Hpdf, Hnp. }
  pose proof (run_shape env t) as H. cbn zeta in H. rewrite Hs in H.
  destruct H as (-> & -> & ->).
  repeat split.
  unfold resolveSurface, bind. cbn. now rewrite Hpdf, Hnp.
Qed.

Lemma C8_pdf_without_printer_witness :
  flow (run noPrinter (QgsMapRendererTask_file sampleSettings "/data/map.pdf" "PDF" false))
    = Return false
  /\ events (run noPrinter (QgsMapRendererTask_file sampleSettings "/data/map.pdf" "PDF" false))
    = [].
Proof.
  destruct (C8_pdf_without_printer noPrinter
              (QgsMapRendererTask_file sampleSettings "/data/map.pdf" "PDF" false)
              eq_refl eq_refl) as (Hf & _ & He & _).
  split; [exact Hf|exact He].
Defined.

(** ** Cancellation before the run *)

(** C1, as the code has it: after [cancel()], [run()] returns false and
    renders no decoration and no annotation, whatever the environment; when
    the drawing surface is resolved (lines 85-124 raise no error), the run
    ends as a cancellation, with no error code set; otherwise the run ends
    with the error code of the surface, ImageUnsupportedFormat or
    ImageAllocationFail. *)
Theorem C1_cancel_before_run (env : Env) (t0 : QgsMapRendererTask) :
  let t := task (cancel t0) in
  flow (run env t) = Return false
  /\ count isRender (events (run env t)) = 0%nat
  /\ (surfaceError env t = None -> canceledOutcome t (run env t))
  /\ (forall e, surfaceError env t = Some e ->
                mError (task (run env t)) = Some e
                /\ (e = ImageUnsupportedFormat \/ e = ImageAllocationFail)).
Proof.
  cbn zeta. rewrite cancel_task.
  set (t := QgsTask_cancel t0).
  assert (Hcodes : forall e, surfaceError env t = Some e ->
                             e = ImageUnsupportedFormat \/ e = ImageAllocationFail).
  { intros e. unfold surfaceError.
    destruct ((mFileFormat t =? "PDF") && QT_NO_PRINTER env);
      [intros [= <-]; now left|].
    destruct (needsImage t && imageIsNull env (outputSize (mMapSettings t)));
      [intros [= <-]; now right|discriminate]. }
  pose proof (run_shape env t) as H. cbn zeta in H.
  destruct (surfaceError env t) as [e|].
  - destruct H as (Hf & Ht & He). rewrite He.
    split; [exact Hf|]. split; [|split; [discriminate|]].
    + apply count_none with (q := isSetup);
        [apply setup_not_render|apply resolveSurface_events].
    + intros e' [= <-]. split; [now rewrite Ht|now apply Hcodes].
  - destruct H as (p & _ & H).
    change (isCanceled (afterJob env t)) with (true || canceledMeanwhile env) in H.
    cbn [orb] in H. destruct H as (Hf & Ht & He).
    split; [exact Hf|]. split; [|split; [|discriminate]].
    + rewrite He. apply count_none with (q := isSetup); [apply setup_not_render|].
      apply Forall_app; split; [apply resolveSurface_events|apply renderJob_events].
    + intros _. unfold canceledOutcome. rewrite Hf, Ht. repeat split.
Qed.

Lemma C1_cancel_before_run_witness :
  canceledOutcome
    (task (cancel (QgsMapRendererTask_file sampleSettings "/data/map.png" "PNG" false)))
    (run sampleEnv
       (task (cancel (QgsMapRendererTask_file sampleSettings "/data/map.png" "PNG" false)))).
Proof.
  apply (C1_cancel_before_run sampleEnv
           (QgsMapRendererTask_file sampleSettings "/data/map.png" "PNG" false)).
  reflexivity.
Defined.

(** C1 as the spec has it fails: the task is canceled before the run, the
    image buffer cannot be allocated, and the run ends with the error code
    ImageAllocationFail, which [finished] reports. *)
Lemma C1_counterexample :
  let t := task (cancel (QgsMapRendererTask_file sampleSettings "/data/map.png" "PNG" false)) in
  isCanceled t = true
  /\ mError t = None
  /\ flow (run allocationFails t) = Return false
  /\ snd (finished false (task (run allocationFails t)))
       = errorOccurred (Some ImageAllocationFail)
  /\ ~ canceledOutcome t (run allocationFails t).
Proof.
  cbn zeta. repeat split.
  intros (_ & _ & H). discriminate H.
Qed.

(** ** Which annotations are rendered *)

Lemma decorations_count (i : nat) (l : list QgsMapDecoration) :
  count (isAnnotationRender i) (map DecorationRender l) = 0%nat.
Proof.
  unfold count. induction l as [|d l IH]; [reflexivity|]. exact IH.
Qed.

(** C3, as the code has it: an annotation whose layer is not among the
    layers of the settings, or that is invisible, is never rendered; no
    annotation is rendered more than once; and a visible annotation without
    a layer, or with a layer of the settings, is rendered exactly once in a
    run that resolves its drawing surface and sees no cancellation up to
    the turn of that annotation. *)
Theorem C3_annotation_rendering (env : Env) (t : QgsMapRendererTask) (i : nat)
  (a : QgsAnnotation) :
  nth_error (mAnnotations t) i = Some (Some a) ->
  let n := annotationRenders i (events (run env t)) in
  (forall l, mapLayer a = Some l -> contains (layers (mMapSettings t)) l = false ->
             n = 0%nat)
  /\ (isVisible a = false -> n = 0%nat)
  /\ (n <= 1)%nat
  /\ (isVisible a = true ->
      (mapLayer a = None
       \/ exists l, mapLayer a = Some l /\ contains (layers (mMapSettings t)) l = true) ->
      surfaceError env t = None ->
      notCanceledUpTo env t i ->
      n = 1%nat).
Proof.
  intros Hnth. cbn zeta. unfold annotationRenders.
  assert (Hsetup : forall l, Forall (fun e => isSetup e = true) l ->
                             count (isAnnotationRender i) l = 0%nat).
  { intros l. apply count_none. apply setup_not_annotationRender. }
  pose proof (run_shape env t) as H. cbn zeta in H.
  destruct (surfaceError env t) as [e|] eqn:Hsurf.
  { destruct H as (_ & _ & ->). rewrite (Hsetup _ (resolveSurface_events env t)).
    repeat split; auto; discriminate. }
  destruct H as (p & _ & H).
  pose proof (Hsetup _ (resolveSurface_events env t)) as Hpre1.
  pose proof (Hsetup _ (renderJob_events env p t)) as Hpre2.
  destruct (isCanceled (afterJob env t)) eqn:Hc.
  { destruct H as (_ & _ & ->). rewrite count_app, Hpre1, Hpre2.
    repeat split; auto.
    intros _ _ _ (Ht & H1 & H2 & H3 & _).
    unfold afterJob, canceledMeanwhile in Hc. cbn in Hc.
    rewrite Ht, H1, H2, H3 in Hc. discriminate. }
  set (s3 := renderAnnotations env (mMapSettings t) 0 (mAnnotations t) (afterJob env t)) in *.
  assert (Hev : count (isAnnotationRender i) (events (run env t))
                = count (isAnnotationRender i) (events s3)).
  { pose proof (decorations_count i (mDecorations t)) as Hdeco.
    destruct (flow s3).
    - destruct H as (_ & _ & ->).
      rewrite !count_app, Hpre1, Hpre2, Hdeco.
      rewrite (count_none _ isOutput _ (output_not_annotationRender i)
                 (finalize_events env p (task s3))). lia.
    - destruct H as (_ & _ & ->). rewrite !count_app, Hpre1, Hpre2, Hdeco. lia.
    - destruct H as (_ & _ & ->). rewrite !count_app, Hpre1, Hpre2, Hdeco. lia. }
  rewrite Hev.
  destruct (renderAnnotations_count env (mMapSettings t) (mAnnotations t) 0
              (afterJob env t) i (Some a) Hnth) as (Hle & Hskip & Hone).
  cbn [Nat.add] in Hle, Hskip, Hone. fold s3 in Hle, Hskip, Hone.
  unfold annotationRenders in Hle, Hskip, Hone.
  split; [|split; [|split]].
  - intros l Hl Hnot. apply Hskip. cbn. rewrite Hl, Hnot.
    destruct (isVisible a); reflexivity.
  - intros Hv. apply Hskip. cbn. now rewrite Hv.
  - exact Hle.
  - intros Hv Hlayer _ (_ & _ & _ & _ & Hcalls).
    apply Hone; [|exact Hc|exact Hcalls].
    cbn. rewrite Hv. cbn.
    destruct Hlayer as [->|(l & -> & ->)]; reflexivity.
Qed.

Lemma C3_annotation_rendering_witness :
  annotationRenders 0
    (events (run sampleEnv
               (task (addAnnotations [sampleAnnotation]
                        (QgsMapRendererTask_file sampleSettings "/data/map.png" "PNG" false)))))
  = 1%nat.
Proof.
  apply (C3_annotation_rendering sampleEnv
           (task (addAnnotations [sampleAnnotation]
                    (QgsMapRendererTask_file sampleSettings "/data/map.png" "PNG" false)))
           0%nat sampleAnnotation eq_refl).
  - reflexivity.
  - left; reflexivity.
  - reflexivity.
  - repeat split.
Defined.

(** C3 as the spec has it fails: a visible annotation without a layer is
    the only annotation of a task that is canceled before it runs, and it
    is not rendered in that run. *)
Lemma C3_counterexample :
  let t := task (cancel (task (addAnnotations [sampleAnnotation]
             (QgsMapRendererTask_file sampleSettings "/data/map.png" "PNG" false)))) in
  nth_error (mAnnotations t) 0 = Some (Some sampleAnnotation)
  /\ isVisible sampleAnnotation = true
  /\ mapLayer sampleAnnotation = None
  /\ annotationRenders 0 (events (run sampleEnv t)) = 0%nat
  /\ annotationRenders 0 (events (run sampleEnv t)) <> 1%nat.
Proof.
  cbn zeta. repeat split. vm_compute. discriminate.
Qed.

(** ** The geotransform *)

Lemma geoTransforms_In (g : GeoTransform) (l : list Event) :
  In (GDALSetGeoTransform g) l <-> In g (geoTransforms l).
Proof.
  induction l as [|e l IH]; [reflexivity|].
  destruct e; cbn; rewrite <- IH; try (split; [intros [H|H]; [discriminate|exact H]|auto]).
  split; intros [H|H]; auto. left. congruence. left. congruence.
Qed.

(** Every geotransform written by a run is the one of lines 205-211 for the
    settings of the task. *)
Lemma run_geoTransform (env : Env) (t : QgsMapRendererTask) (g : GeoTransform) :
  In (GDALSetGeoTransform g) (events (run env t)) ->
  g = geoTransform env (mMapSettings t).
Proof.
  intros Hin. destruct (run_output env t) as (mid & Hmid & H).
  destruct (no_output_observed mid Hmid) as (Hg & _ & _).
  apply geoTransforms_In in Hin.
  destruct H as [(He & _)|(p & c & He & _)]; rewrite He in Hin.
  - rewrite Hg in Hin. contradiction.
  - rewrite geoTransforms_app, Hg in Hin. cbn [app] in Hin.
    apply geoTransforms_In in Hin.
    apply finalize_geoTransform in Hin. exact Hin.
Qed.

(** C2: the six coefficients written to the geo-metadata of the output are
    the world file parameters (a, b, c, d, e, f) of the settings with the
    origin shifted by half a pixel in both axes: c - 0.5 * (a + b) and
    f - 0.5 * (d + e); and a is the width of the extent over the width of
    the output. *)
Theorem C2_geotransform (env : Env) (t : QgsMapRendererTask) (g : GeoTransform) :
  In (GDALSetGeoTransform g) (events (run env t)) ->
  let ms := mMapSettings t in
  let p := worldFileParameters env ms in
  originX g = (wf_c p - 0.5 * (wf_a p + wf_b p))%R
  /\ originY g = (wf_f p - 0.5 * (wf_d p + wf_e p))%R
  /\ pixelWidth g = wf_a p
  /\ rowRotation g = wf_b p
  /\ columnRotation g = wf_d p
  /\ pixelHeight g = wf_e p
  /\ wf_a p = (QgsRectangle.width (extent ms) / IZR (QSize.width (outputSize ms)))%R.
Proof.
  intros Hin. apply run_geoTransform in Hin. subst g. cbn zeta.
  unfold geoTransform. cbn [originX originY pixelWidth rowRotation columnRotation pixelHeight].
  repeat split; try lra.
  unfold worldFileParameters. destruct (rotationTerms env (mMapSettings t)) as [[b d] e].
  reflexivity.
Qed.

(** ** An external painter *)


Lemma call_flow (c : Call) (t : QgsMapRendererTask) : flow (call c t) = Next tt.
Proof. destruct c; cbn [call]; [reflexivity|reflexivity|]. apply cancel_flow. Qed.


Lemma filter_none (p : Event -> bool) (l : list Event) :
  Forall (fun e => p e = false) l -> filter p l = [].
Proof.
  induction 1 as [|e l He _ IH]; [reflexivity|]. cbn. now rewrite He.
Qed.



Lemma C2_geotransform_witness :
  let p := worldFileParameters sampleEnv sampleSettings in
  let g := geoTransform sampleEnv sampleSettings in
  originX g = (wf_c p - 0.5 * (wf_a p + wf_b p))%R
  /\ originY g = (wf_f p - 0.5 * (wf_d p + wf_e p))%R
  /\ pixelWidth g = wf_a p
  /\ rowRotation g = wf_b p
  /\ columnRotation g = wf_d p
  /\ pixelHeight g = wf_e p
  /\ wf_a p = (QgsRectangle.width (extent sampleSettings)
               / IZR (QSize.width (outputSize sampleSettings)))%R.
Proof.
  apply (C2_geotransform sampleEnv (worldFileTask "/data/map.tif" "tif")
           (geoTransform sampleEnv sampleSettings)).
  apply geoTransforms_In. left. reflexivity.
Defined.

(** The sample of the spec: extent (0, 0, 100, 100) on 200 x 100 pixels
    gives a pixel width of 0.5 and an origin in x of -0.25. *)
Example geoTransform_sample :
  pixelWidth (geoTransform sampleEnv sampleSettings) = 0.5%R
  /\ originX (geoTransform sampleEnv sampleSettings) = (-0.25)%R.
Proof.
  unfold geoTransform, worldFileParameters, sampleEnv, sampleSettings,
    QgsRectangle.width; cbn.
  split; lra.
Qed.

(** ** Embedded geo-metadata or sidecar *)

Lemma suffix_nonempty (path : string) :
  QFileInfo.suffix path <> EmptyString -> QString.isEmpty path = false.
Proof. destruct path; [intros H; now contradiction H|reflexivity]. Qed.

Lemma finalize_tif (env : Env) (p : Painter) (t : QgsMapRendererTask) :
  QFileInfo.suffix (mFileName t) = "tif"%string
  \/ QFileInfo.suffix (mFileName t) = "tiff"%string ->
  mSaveWorldFile t = true ->
  mFileFormat t <> "PDF"%string ->
  let name := (absolutePath env (mFileName t) ++ "/"
                 ++ QFileInfo.baseName (mFileName t) ++ ".tfw")%string in
  let ev := events (finalize env p t) in
  if imageSaves env then
    flow (finalize env p t) = Next tt
    /\ geoTransforms ev
       = (if gdalOpens env then [geoTransform env (mMapSettings t)] else [])
    /\ worldFileOpenings ev = (if gdalOpens env then [] else [name])
    /\ worldFiles ev
       = (if gdalOpens env then []
          else if worldFileOpens env
               then [(name, worldFileContent env (mMapSettings t))]
               else [])
  else flow (finalize env p t) = Return false.
Proof.
  intros Hs Hw Hf.
  assert (He : QString.isEmpty (mFileName t) = false).
  { apply suffix_nonempty. destruct Hs as [-> | ->]; discriminate. }
  apply String.eqb_neq in Hf.
  unfold finalize, embedGeoTransform, writeWorldFile, bind. cbn.
  rewrite He, Hw, Hf, andb_false_r. cbn.
  destruct Hs as [-> | ->]; cbn;
    destruct (imageSaves env), (gdalOpens env), (worldFileOpens env); cbn; auto.
Qed.

(** C10, as the code has it: for an output with the extension tif or tiff
    and the save-worldfile flag, in a run that succeeds, the sidecar is left
    alone exactly when the file could be reopened, and then the geotransform
    is embedded once; when the reopening fails nothing is embedded and the
    sidecar is opened once, and written once if that opening succeeds.  So
    at most one of the two is produced, and exactly one whenever the
    sidecar can be opened for writing. *)
Theorem C10_tif_embedded_or_sidecar (env : Env) (t : QgsMapRendererTask) :
  QFileInfo.suffix (mFileName t) = "tif"%string
  \/ QFileInfo.suffix (mFileName t) = "tiff"%string ->
  mSaveWorldFile t = true ->
  mFileFormat t <> "PDF"%string ->
  flow (run env t) = Return true ->
  let ev := events (run env t) in
  let embedded := List.length (geoTransforms ev) in
  let sidecars := List.length (worldFiles ev) in
  (worldFileOpenings ev = [] <-> gdalOpens env = true)
  /\ (gdalOpens env = true -> embedded = 1%nat /\ sidecars = 0%nat)
  /\ (gdalOpens env = false ->
      embedded = 0%nat
      /\ List.length (worldFileOpenings ev) = 1%nat
      /\ sidecars = (if worldFileOpens env then 1 else 0)%nat)
  /\ (embedded + sidecars <= 1)%nat
  /\ (worldFileOpens env = true -> (embedded + sidecars = 1)%nat).
Proof.
  intros Hs Hw Hf Hrun. cbn zeta.
  destruct (run_output env t) as (mid & Hmid & H).
  destruct (no_output_observed mid Hmid) as (Hg & Hwf & Ho).
  destruct H as [(_ & Hfalse)|(p & c & He & Hflow & _)]; [congruence|].
  cbn zeta in He, Hflow.
  pose proof (finalize_tif env p (set_isCanceled c (afterJob env t)) Hs Hw Hf) as Hfin.
  cbn zeta in Hfin. cbn [mFileName mMapSettings set_isCanceled afterJob] in Hfin.
  destruct (imageSaves env).
  - destruct Hfin as (_ & Hfg & Hfo & Hfw).
    rewrite He, geoTransforms_app, worldFiles_app, worldFileOpenings_app,
      Hg, Hwf, Ho, Hfg, Hfo, Hfw.
    cbn [app].
    destruct (gdalOpens env), (worldFileOpens env); cbn;
      repeat split; intros; try discriminate; try lia; auto.
  - rewrite Hfin in Hflow. cbn in Hflow. congruence.
Qed.

Lemma C10_tif_embedded_or_sidecar_witness :
  List.length (geoTransforms (events (run sampleEnv (worldFileTask "/data/map.tif" "tif"))))
  = 1%nat
  /\ List.length (worldFiles (events (run sampleEnv (worldFileTask "/data/map.tif" "tif"))))
     = 0%nat.
Proof.
  apply (C10_tif_embedded_or_sidecar sampleEnv (worldFileTask "/data/map.tif" "tif")
           (or_introl eq_refl) eq_refl).
  - discriminate.
  - reflexivity.
  - reflexivity.
Defined.

(** C10 as the spec has it fails: the image is saved, GDAL cannot reopen it
    and the sidecar cannot be opened for writing; the run succeeds with
    neither embedded geo-metadata nor a sidecar. *)
Lemma C10_counterexample :
  let t := worldFileTask "/data/map.tif" "tif" in
  QFileInfo.suffix (mFileName t) = "tif"%string
  /\ mSaveWorldFile t = true
  /\ flow (run noGeoreferencing t) = Return true
  /\ geoTransforms (events (run noGeoreferencing t)) = []
  /\ worldFileOpenings (events (run noGeoreferencing t)) = ["/data/map.tfw"%string]
  /\ worldFiles (events (run noGeoreferencing t)) = [].
Proof. cbn zeta. repeat split. Qed.

(** ** The name of the sidecar *)

(** Whenever a sidecar is written, its name is put together as in lines
    258-259 and its six lines are those of [worldFileContent]. *)
Lemma run_worldFile (env : Env) (t : QgsMapRendererTask) (name : string)
  (lines : list R) :
  In (name, lines) (worldFiles (events (run env t))) ->
  exists first last,
    QString.at_ (QFileInfo.suffix (mFileName t)) 0 = Some first
    /\ QString.at_ (QFileInfo.suffix (mFileName t))
         (QString.size (QFileInfo.suffix (mFileName t)) - 1) = Some last
    /\ name = (absolutePath env (mFileName t) ++ "/" ++ QFileInfo.baseName (mFileName t)
                 ++ "." ++ QString.ofChar first ++ QString.ofChar last ++ "w")%string
    /\ lines = worldFileContent env (mMapSettings t)
    /\ List.length lines = 6%nat.
Proof.
  intros Hin. destruct (run_output env t) as (mid & Hmid & H).
  destruct (no_output_observed mid Hmid) as (_ & Hwf & _).
  destruct H as [(He & _)|(p & c & He & _)]; rewrite He in Hin.
  - rewrite Hwf in Hin. contradiction.
  - rewrite worldFiles_app, Hwf in Hin. cbn [app] in Hin. cbn zeta in Hin.
    revert Hin. unfold finalize, embedGeoTransform, writeWorldFile, bind. cbn.
    split_ifs; cbn; intros Hin;
      repeat (destruct Hin as [Hin|Hin]; [injection Hin as <- <-|]);
      try contradiction;
      do 2 eexists; repeat split.
Qed.

(** When the file name has a single '.', the code and the spec agree on the
    name of the sidecar. *)
Lemma sidecar_name_single_dot (env : Env) (path : string) (first last : ascii) :
  QFileInfo.baseName path = QFileInfo.completeBaseName path ->
  QString.at_ (QFileInfo.suffix path) 0 = Some first ->
  QString.at_ (QFileInfo.suffix path) (QString.size (QFileInfo.suffix path) - 1)
    = Some last ->
  sidecarName_spec env path
  = Some (absolutePath env path ++ "/" ++ QFileInfo.baseName path ++ "."
            ++ QString.ofChar first ++ QString.ofChar last ++ "w")%string.
Proof.
  intros Hb H0 H1. unfold sidecarName_spec. now rewrite H0, H1, Hb.
Qed.

(** C7 at a file name with two dots: the output /data/map.v2.png is saved
    as PNG with the save-worldfile flag.  The run succeeds and writes one
    sidecar of six lines, named /data/map.pgw: [baseName()] ends at the
    first '.', while [suffix()] starts after the last one.  Replacing the
    extension, as the spec says, gives /data/map.v2.pgw. *)
Theorem C7_sidecar_name_two_dots :
  let t := worldFileTask "/data/map.v2.png" "PNG" in
  flow (run sampleEnv t) = Return true
  /\ map fst (worldFiles (events (run sampleEnv t))) = ["/data/map.pgw"%string]
  /\ map (fun w => List.length (snd w)) (worldFiles (events (run sampleEnv t))) = [6%nat]
  /\ sidecarName_spec sampleEnv "/data/map.v2.png" = Some "/data/map.v2.pgw"%string
  /\ QFileInfo.suffix "/data/map.v2.png" = "png"%string.
Proof. cbn zeta. repeat split. Qed.

(** With a single dot the sidecar of /data/map.png is /data/map.pgw, as the
    spec says. *)
Example sidecar_name_png :
  map fst (worldFiles (events (run sampleEnv (worldFileTask "/data/map.png" "PNG"))))
  = ["/data/map.pgw"%string]
  /\ sidecarName_spec sampleEnv "/data/map.png" = Some "/data/map.pgw"%string.
Proof. split; reflexivity. Qed.

(** A file name without extension leaves the contract of [QString::at]. *)
Example sidecar_without_extension :
  flow (run sampleEnv (worldFileTask "/data/map" "PNG")) = Undefined.
Proof. reflexivity. Qed.

(** * Further properties *)

(** ** The stages of a run *)

Lemma inStage_app (s : nat) (l1 l2 : list Event) :
  Forall (inStage s) l1 -> Forall (inStage s) l2 -> Forall (inStage s) (l1 ++ l2).
Proof. intros H1 H2. apply Forall_app; split; assumption. Qed.

Lemma times_cancel_unstaged (n : nat) (t : QgsMapRendererTask) :
  Forall (fun e => stage e = None) (events (times n cancel t)).
Proof.
  revert t. induction n as [|n IH]; intros t; cbn [times]; [constructor|].
  rewrite bind_events, cancel_flow, cancel_events.
  cbn [app]. constructor; [reflexivity|]. rewrite <- app_assoc.
  apply Forall_app; split.
  - destruct (hasJob t); repeat constructor.
  - cbn [app]. constructor; [reflexivity|]. apply IH.
Qed.

Lemma unstaged_inStage (s : nat) (l : list Event) :
  Forall (fun e => stage e = None) l -> Forall (inStage s) l.
Proof. apply Forall_impl. intros e He. left. exact He. Qed.

Lemma resolveSurface_stage (env : Env) (t : QgsMapRendererTask) :
  Forall (fun e => stage e = Some 0%nat) (events (resolveSurface env t)).
Proof.
  unfold resolveSurface, bind. cbn.
  destruct (mFileFormat t =? "PDF"), (QT_NO_PRINTER env), (mForceRaster t),
    (mPainter t), (imageIsNull env (outputSize (mMapSettings t))); cbn;
    repeat constructor.
Qed.

Lemma renderJob_events_eq (env : Env) (p : Painter) (t : QgsMapRendererTask) :
  exists t1 t2 t3,
    hasJob t1 = hasJob t /\ hasJob t2 = true /\ hasJob t3 = false
    /\ events (renderJob env p t)
       = events (times (cancelCalls env BeforeJob) cancel t1)
         ++ [MutexLock; JobNew {| jobSettings := mMapSettings t; jobPainter := p |};
             MutexUnlock; JobRenderSynchronously]
         ++ events (times (cancelCalls env DuringRender) cancel t2)
         ++ [MutexLock; JobDelete; MutexUnlock]
         ++ events (times (cancelCalls env AfterRender) cancel t3).
Proof.
  unfold renderJob, interleave.
  repeat (rewrite bind_events; try rewrite times_cancel_flow;
          cbn [flow task events get modify emit]).
  repeat (rewrite bind_task; try rewrite times_cancel_flow;
          cbn [flow task events get modify emit]).
  rewrite !times_cancel_task.
  do 3 eexists. split; [|split; [|split]].
  4: { cbn [app mMapSettings set_isCanceled]. reflexivity. }
  all: reflexivity.
Qed.

Lemma renderJob_stage (env : Env) (p : Painter) (t : QgsMapRendererTask) :
  Forall (inStage 0) (events (renderJob env p t)).
Proof.
  destruct (renderJob_events_eq env p t) as (t1 & t2 & t3 & _ & _ & _ & ->).
  repeat apply inStage_app;
    try (apply unstaged_inStage, times_cancel_unstaged);
    repeat constructor; try (now left); now right.
Qed.

Lemma decorations_stage (l : list QgsMapDecoration) :
  Forall (inStage 1) (map DecorationRender l).
Proof.
  apply Forall_forall. intros e He. apply in_map_iff in He.
  destruct He as (d & <- & _). now right.
Qed.

Lemma renderAnnotations_stage (env : Env) (ms : QgsMapSettings)
  (l : list (option QgsAnnotation)) :
  forall i t, Forall (inStage 2) (events (renderAnnotations env ms i l t)).
Proof.
  induction l as [|a rest IH]; intros i t; [constructor|].
  pose proof (renderAnnotations_cons env ms i a rest t) as H. cbn zeta in H.
  cbn [isCanceled set_isCanceled] in H.
  destruct (isCanceled t || _) in H; destruct H as (_ & _ & ->).
  - apply unstaged_inStage, times_cancel_unstaged.
  - repeat apply inStage_app.
    + apply unstaged_inStage, times_cancel_unstaged.
    + destruct (skipped ms a); repeat constructor; now right.
    + apply IH.
Qed.

Lemma finalize_stage (env : Env) (p : Painter) (t : QgsMapRendererTask) :
  Forall (inStage 3) (events (finalize env p t)).
Proof.
  eapply Forall_impl; [|apply finalize_events].
  intros e He. right. destruct e; cbn in He; try discriminate; reflexivity.
Qed.

(** A call of stage [k] does not occur among calls of another stage. *)
Lemma count_stage (p : Event -> bool) (s k : nat) (l : list Event) :
  (forall e, p e = true -> stage e = Some k) ->
  s <> k ->
  Forall (inStage s) l ->
  count p l = 0%nat.
Proof.
  intros Hp Hsk Hl. unfold count.
  induction Hl as [|e l He _ IH]; [reflexivity|]. cbn.
  destruct (p e) eqn:Hpe; [|exact IH].
  apply Hp in Hpe. destruct He as [He|He]; congruence.
Qed.

Lemma flat_map_stage {A : Type} (f : Event -> list A) (s k : nat) (l : list Event) :
  (forall e, f e <> [] -> stage e = Some k) ->
  s <> k ->
  Forall (inStage s) l ->
  flat_map f l = [].
Proof.
  intros Hf Hsk Hl.
  induction Hl as [|e l He _ IH]; [reflexivity|]. cbn. rewrite IH, app_nil_r.
  destruct (f e) eqn:Hfe; [reflexivity|].
  assert (Hne : f e <> []) by (rewrite Hfe; discriminate).
  apply Hf in Hne. destruct He as [He|He]; congruence.
Qed.

(** ** The outcome of the phases *)

Lemma resolveSurface_painter (env : Env) (t : QgsMapRendererTask) :
  surfaceError env t = None ->
  flow (resolveSurface env t) = Next (destination t).
Proof.
  unfold surfaceError, needsImage, destination, resolveSurface, bind. cbn.
  destruct (mFileFormat t =? "PDF"), (QT_NO_PRINTER env), (mForceRaster t),
    (mPainter t), (imageIsNull env (outputSize (mMapSettings t))); cbn;
    intros [=]; reflexivity.
Qed.

Lemma renderAnnotations_outcome (env : Env) (ms : QgsMapSettings)
  (l : list (option QgsAnnotation)) :
  forall i t,
    isCanceled t = false ->
    (flow (renderAnnotations env ms i l t) = Next tt
     /\ task (renderAnnotations env ms i l t) = set_isCanceled false t)
    \/ (flow (renderAnnotations env ms i l t) = Return false
        /\ task (renderAnnotations env ms i l t) = set_isCanceled true t).
Proof.
  induction l as [|a rest IH]; intros i t Ht.
  - left. split; [reflexivity|]. destruct t; cbn in *. now subst.
  - pose proof (renderAnnotations_cons env ms i a rest t) as H. cbn zeta in H.
    cbn [isCanceled set_isCanceled] in H.
    destruct (isCanceled t || _) in H.
    + right. destruct H as (Hf & Htask & _). auto.
    + destruct H as (-> & -> & _).
      destruct (IH (S i) (set_isCanceled false t) eq_refl) as [(Hf & Htask)|(Hf & Htask)];
        [left|right]; split; auto.
Qed.

Lemma finalize_cases (env : Env) (p : Painter) (t : QgsMapRendererTask) :
  (flow (finalize env p t) = Next tt /\ task (finalize env p t) = t)
  \/ (flow (finalize env p t) = Return false
      /\ exists e, task (finalize env p t) = set_mError e t)
  \/ (flow (finalize env p t) = Undefined /\ task (finalize env p t) = t).
Proof.
  unfold finalize, embedGeoTransform, writeWorldFile, bind. cbn.
  split_ifs; cbn; eauto.
Qed.

(** The four ways a run can go: the surface is not resolved; the task is
    found canceled at line 138; it is found canceled in the annotation loop;
    the output phase is reached. *)
Lemma run_cases (env : Env) (t : QgsMapRendererTask) :
  let s := run env t in
  let p := destination t in
  let t1 := afterJob env t in
  let s3 := renderAnnotations env (mMapSettings t) 0 (mAnnotations t) t1 in
  (exists e, surfaceError env t = Some e
             /\ flow s = Return false /\ task s = set_mError e t
             /\ events s = events (resolveSurface env t))
  \/ (surfaceError env t = None /\ isCanceled t1 = true
      /\ flow s = Return false /\ task s = t1
      /\ events s = events (resolveSurface env t) ++ events (renderJob env p t))
  \/ (surfaceError env t = None /\ isCanceled t1 = false
      /\ flow s3 = Return false /\ task s3 = set_isCanceled true t1
      /\ flow s = Return false /\ task s = task s3
      /\ events s = events (resolveSurface env t) ++ events (renderJob env p t)
                    ++ map DecorationRender (mDecorations t) ++ events s3)
  \/ (surfaceError env t = None /\ isCanceled t1 = false
      /\ flow s3 = Next tt /\ task s3 = set_isCanceled false t1
      /\ flow s = afterFinalize (flow (finalize env p (task s3)))
      /\ task s = task (finalize env p (task s3))
      /\ events s = events (resolveSurface env t) ++ events (renderJob env p t)
                    ++ map DecorationRender (mDecorations t) ++ events s3
                    ++ events (finalize env p (task s3))).
Proof.
  cbn zeta. pose proof (run_shape env t) as H. cbn zeta in H.
  destruct (surfaceError env t) as [e|] eqn:Hs.
  - left. exists e. destruct H as (Hf & Ht & He). auto.
  - right. destruct H as (p & Hp & H).
    rewrite (resolveSurface_painter env t Hs) in Hp. injection Hp as <-.
    destruct (isCanceled (afterJob env t)) eqn:Hc.
    + left. destruct H as (Hf & Ht & He). auto.
    + right.
      destruct (renderAnnotations_outcome env (mMapSettings t) (mAnnotations t) 0
                  (afterJob env t) Hc) as [(Hf3 & Ht3)|(Hf3 & Ht3)];
        rewrite Hf3 in H; destruct H as (Hf & Ht & He);
        rewrite <- !app_assoc in He; [right|left]; repeat split; auto.
Qed.

(** ** What a run leaves of the task *)

(** X1: [run()] changes nothing of what the constructor and the setters
    fixed: the settings, the file name, the format, the two flags, the
    painter, the annotations and the decorations are the same after the run,
    however it ends. *)
Theorem run_keeps_configuration (env : Env) (t : QgsMapRendererTask) :
  let t' := task (run env t) in
  mMapSettings t' = mMapSettings t
  /\ mFileName t' = mFileName t
  /\ mFileFormat t' = mFileFormat t
  /\ mForceRaster t' = mForceRaster t
  /\ mSaveWorldFile t' = mSaveWorldFile t
  /\ mPainter t' = mPainter t
  /\ mAnnotations t' = mAnnotations t
  /\ mDecorations t' = mDecorations t.
Proof.
  cbn zeta.
  destruct (run_cases env t)
    as [(e & _ & _ & -> & _)
       |[(_ & _ & _ & -> & _)
        |[(_ & _ & _ & Ht3 & _ & -> & _)
         |(_ & _ & _ & Ht3 & _ & -> & _)]]];
    try rewrite Ht3; try (cbn; repeat split; reflexivity).
  destruct (finalize_cases env (destination t) (set_isCanceled false (afterJob env t)))
    as [(_ & ->)|[(_ & e & ->)|(_ & ->)]]; cbn; repeat split; reflexivity.
Qed.

(** X2: a run that returns false has a reason that [finished] can report:
    the task is canceled, or an error code is set, which [finished(false)]
    then sends with [errorOccurred]. *)
Theorem run_failure_reported (env : Env) (t : QgsMapRendererTask) :
  flow (run env t) = Return false ->
  isCanceled (task (run env t)) = true
  \/ exists e, mError (task (run env t)) = Some e
               /\ snd (finished false (task (run env t))) = errorOccurred (Some e).
Proof.
  intros Hfalse.
  destruct (run_cases env t)
    as [(e & _ & _ & Ht & _)
       |[(_ & Hc & _ & Ht & _)
        |[(_ & _ & _ & Ht3 & _ & Ht & _)
         |(_ & _ & _ & Ht3 & Hf & Ht & _)]]].
  - right. exists e. rewrite Ht. split; reflexivity.
  - left. now rewrite Ht.
  - left. rewrite Ht, Ht3. reflexivity.
  - rewrite Hfalse in Hf. rewrite Ht, Ht3 in *.
    destruct (finalize_cases env (destination t) (set_isCanceled false (afterJob env t)))
      as [(Hfin & _)|[(_ & e & ->)|(Hfin & _)]].
    + rewrite Hfin in Hf. discriminate.
    + right. exists e. split; reflexivity.
    + rewrite Hfin in Hf. discriminate.
Qed.

Lemma run_failure_reported_witness :
  isCanceled (task (run allocationFails
                      (QgsMapRendererTask_file sampleSettings "/data/map.png" "PNG" false)))
    = true
  \/ exists e,
       mError (task (run allocationFails
                       (QgsMapRendererTask_file sampleSettings "/data/map.png" "PNG" false)))
         = Some e
       /\ snd (finished false
                 (task (run allocationFails
                          (QgsMapRendererTask_file sampleSettings "/data/map.png" "PNG" false))))
          = errorOccurred (Some e).
Proof.
  apply (run_failure_reported allocationFails
           (QgsMapRendererTask_file sampleSettings "/data/map.png" "PNG" false)).
  reflexivity.
Defined.

(** X3: a run that returns true has resolved its surface, has set no error
    code and has left no job behind. *)
Theorem run_success_clean (env : Env) (t : QgsMapRendererTask) :
  flow (run env t) = Return true ->
  surfaceError env t = None
  /\ mError (task (run env t)) = mError t
  /\ mJob (task (run env t)) = None.
Proof.
  intros Htrue.
  destruct (run_cases env t)
    as [(e & _ & Hf & _)
       |[(_ & _ & Hf & _)
        |[(_ & _ & _ & _ & Hf & _)
         |(Hs & _ & _ & Ht3 & Hf & Ht & _)]]]; try congruence.
  rewrite Htrue in Hf. rewrite Ht, Ht3 in *.
  destruct (finalize_cases env (destination t) (set_isCanceled false (afterJob env t)))
    as [(_ & ->)|[(Hfin & _)|(Hfin & _)]].
  - split; [exact Hs|split; reflexivity].
  - rewrite Hfin in Hf. discriminate.
  - rewrite Hfin in Hf. discriminate.
Qed.

Lemma run_success_clean_witness :
  surfaceError sampleEnv decoratedTask = None
  /\ mError (task (run sampleEnv decoratedTask)) = mError decoratedTask
  /\ mJob (task (run sampleEnv decoratedTask)) = None.
Proof.
  apply (run_success_clean sampleEnv decoratedTask). reflexivity.
Defined.

(** ** Decorations and annotations in order *)

Lemma decorationsRendered_map (l : list QgsMapDecoration) :
  decorationsRendered (map DecorationRender l) = l.
Proof.
  unfold decorationsRendered. induction l as [|d l IH]; [reflexivity|].
  cbn. now rewrite IH.
Qed.

Lemma decorationRendered_stage (e : Event) :
  decorationRendered e <> [] -> stage e = Some 1%nat.
Proof. destruct e; cbn; congruence. Qed.

Lemma annotationRendered_stage (e : Event) :
  annotationRendered e <> [] -> stage e = Some 2%nat.
Proof. destruct e; cbn; congruence. Qed.

Lemma staged_inStage (s : nat) (l : list Event) :
  Forall (fun e => stage e = Some s) l -> Forall (inStage s) l.
Proof. apply Forall_impl. intros e He. right. exact He. Qed.

(** X4: the decorations are rendered once each, in the order of the list,
    when the surface is resolved and the task is not found canceled at line
    138; otherwise none is rendered. *)
Theorem run_decorations_in_order (env : Env) (t : QgsMapRendererTask) :
  decorationsRendered (events (run env t)) =
  match surfaceError env t with
  | Some _ => []
  | None => if isCanceled (afterJob env t) then [] else mDecorations t
  end.
Proof.
  assert (H0 : forall l, Forall (inStage 0) l -> decorationsRendered l = []).
  { intros l. apply (flat_map_stage _ 0 1); [apply decorationRendered_stage|lia]. }
  assert (H2 : forall l, Forall (inStage 2) l -> decorationsRendered l = []).
  { intros l. apply (flat_map_stage _ 2 1); [apply decorationRendered_stage|lia]. }
  assert (H3 : forall l, Forall (inStage 3) l -> decorationsRendered l = []).
  { intros l. apply (flat_map_stage _ 3 1); [apply decorationRendered_stage|lia]. }
  pose proof (H0 _ (staged_inStage 0 _ (resolveSurface_stage env t))) as Hs1.
  pose proof (H0 _ (renderJob_stage env (destination t) t)) as Hs2.
  unfold decorationsRendered in *.
  destruct (run_cases env t)
    as [(e & -> & _ & _ & ->)
       |[(-> & -> & _ & _ & ->)
        |[(-> & -> & _ & _ & _ & _ & ->)
         |(-> & -> & _ & _ & _ & _ & ->)]]];
    rewrite ?flat_map_app, ?Hs1, ?Hs2; try reflexivity.
  - rewrite (H2 _ (renderAnnotations_stage _ _ _ _ _)), app_nil_r.
    apply decorationsRendered_map.
  - rewrite (H2 _ (renderAnnotations_stage _ _ _ _ _)),
      (H3 _ (finalize_stage _ _ _)), !app_nil_r.
    apply decorationsRendered_map.
Qed.

Lemma interleave_annotationsRendered (env : Env) (cp : Checkpoint)
  (t : QgsMapRendererTask) :
  annotationsRendered (events (interleave env cp t)) = [].
Proof.
  apply (flat_map_stage _ 0 2); [apply annotationRendered_stage|lia|].
  apply unstaged_inStage, times_cancel_unstaged.
Qed.

Lemma turn_annotationsRendered (ms : QgsMapSettings) (i : nat)
  (a : option QgsAnnotation) (x y : R) :
  annotationsRendered
    (if skipped ms a then []
     else [PainterSave; PainterSetRenderHint; PainterTranslate x y;
           AnnotationRender i; PainterRestore])
  = (if skipped ms a then [] else [i]).
Proof. destruct (skipped ms a); reflexivity. Qed.

(** The loop renders a prefix of what it has to render, and all of it when
    it runs to its end. *)
Lemma renderAnnotations_rendered (env : Env) (ms : QgsMapSettings)
  (l : list (option QgsAnnotation)) :
  forall i t,
    exists rest,
      toRender ms i l
      = annotationsRendered (events (renderAnnotations env ms i l t)) ++ rest
      /\ (flow (renderAnnotations env ms i l t) = Next tt -> rest = []).
Proof.
  induction l as [|a rest IH]; intros i t.
  - exists []. split; reflexivity.
  - pose proof (renderAnnotations_cons env ms i a rest t) as H. cbn zeta in H.
    cbn [isCanceled set_isCanceled] in H.
    destruct (isCanceled t || _) in H; destruct H as (Hf & _ & He); rewrite He, Hf.
    + rewrite interleave_annotationsRendered. eexists. split; [reflexivity|discriminate].
    + unfold annotationsRendered at 1. rewrite !flat_map_app.
      fold (annotationsRendered (events (interleave env (BeforeAnnotation i) t))).
      rewrite interleave_annotationsRendered.
      match goal with
      | |- context [flat_map annotationRendered (if skipped ms a then [] else ?b)] =>
          change (flat_map annotationRendered (if skipped ms a then [] else b))
            with (annotationsRendered (if skipped ms a then [] else b))
      end.
      rewrite turn_annotationsRendered. cbn [app toRender].
      destruct (IH (S i) (set_isCanceled false t)) as (r & Hr & Hnil).
      exists r. split; [|exact Hnil].
      rewrite Hr. unfold annotationsRendered. now rewrite app_assoc.
Qed.

(** X5: in every run the annotations rendered are, in the order of the
    list, a first part of the annotations that the loop does not skip:
    failing or being canceled only cuts the rendering short, it never skips
    or reorders. *)
Theorem run_annotations_prefix (env : Env) (t : QgsMapRendererTask) :
  exists rest,
    toRender (mMapSettings t) 0 (mAnnotations t)
    = annotationsRendered (events (run env t)) ++ rest.
Proof.
  assert (H0 : forall l, Forall (inStage 0) l -> annotationsRendered l = []).
  { intros l. apply (flat_map_stage _ 0 2); [apply annotationRendered_stage|lia]. }
  assert (H1 : forall l, Forall (inStage 1) l -> annotationsRendered l = []).
  { intros l. apply (flat_map_stage _ 1 2); [apply annotationRendered_stage|lia]. }
  assert (H3 : forall l, Forall (inStage 3) l -> annotationsRendered l = []).
  { intros l. apply (flat_map_stage _ 3 2); [apply annotationRendered_stage|lia]. }
  pose proof (H0 _ (staged_inStage 0 _ (resolveSurface_stage env t))) as Hs1.
  pose proof (H0 _ (renderJob_stage env (destination t) t)) as Hs2.
  pose proof (H1 _ (decorations_stage (mDecorations t))) as Hd.
  destruct (renderAnnotations_rendered env (mMapSettings t) (mAnnotations t) 0
              (afterJob env t)) as (r & Hr & _).
  unfold annotationsRendered in *.
  destruct (run_cases env t)
    as [(e & _ & _ & _ & ->)
       |[(_ & _ & _ & _ & ->)
        |[(_ & _ & _ & _ & _ & _ & ->)
         |(_ & _ & _ & _ & _ & _ & ->)]]];
    rewrite ?flat_map_app, ?Hs1, ?Hs2, ?Hd; cbn [app].
  - eexists; reflexivity.
  - eexists; reflexivity.
  - exists r. exact Hr.
  - rewrite (H3 _ (finalize_stage _ _ _)), app_nil_r. exists r. exact Hr.
Qed.

(** X6: a run that returns true has rendered every decoration, in the order
    of the list, and then exactly the annotations that the loop does not
    skip, in the order of the list. *)
Theorem run_success_renders_all (env : Env) (t : QgsMapRendererTask) :
  flow (run env t) = Return true ->
  decorationsRendered (events (run env t)) = mDecorations t
  /\ annotationsRendered (events (run env t))
     = toRender (mMapSettings t) 0 (mAnnotations t).
Proof.
  intros Htrue.
  assert (H0 : forall A (f : Event -> list A) k,
             (forall e, f e <> [] -> stage e = Some k) ->
             forall s l, s <> k -> Forall (inStage s) l -> flat_map f l = []).
  { intros A f k Hf s l Hsk. now apply (flat_map_stage f s k). }
  pose proof (staged_inStage 0 _ (resolveSurface_stage env t)) as Hs1.
  pose proof (renderJob_stage env (destination t) t) as Hs2.
  pose proof (decorations_stage (mDecorations t)) as Hd.
  destruct (renderAnnotations_rendered env (mMapSettings t) (mAnnotations t) 0
              (afterJob env t)) as (r & Hr & Hnil).
  destruct (run_cases env t)
    as [(e & _ & Hf & _)
       |[(_ & _ & Hf & _)
        |[(_ & _ & _ & _ & Hf & _)
         |(_ & _ & Hf3 & _ & _ & _ & He)]]]; try congruence.
  rewrite (Hnil Hf3), app_nil_r in Hr.
  pose proof (renderAnnotations_stage env (mMapSettings t) (mAnnotations t) 0
                (afterJob env t)) as Ha.
  pose proof (finalize_stage env (destination t)
                (task (renderAnnotations env (mMapSettings t) 0 (mAnnotations t)
                         (afterJob env t)))) as Hfin.
  rewrite He. unfold decorationsRendered, annotationsRendered in *.
  rewrite !flat_map_app.
  split.
  - rewrite (H0 _ _ 1%nat decorationRendered_stage 0%nat _ ltac:(lia) Hs1),
      (H0 _ _ 1%nat decorationRendered_stage 0%nat _ ltac:(lia) Hs2),
      (H0 _ _ 1%nat decorationRendered_stage 2%nat _ ltac:(lia) Ha),
      (H0 _ _ 1%nat decorationRendered_stage 3%nat _ ltac:(lia) Hfin).
    cbn [app]. rewrite app_nil_r. apply decorationsRendered_map.
  - rewrite (H0 _ _ 2%nat annotationRendered_stage 0%nat _ ltac:(lia) Hs1),
      (H0 _ _ 2%nat annotationRendered_stage 0%nat _ ltac:(lia) Hs2),
      (H0 _ _ 2%nat annotationRendered_stage 1%nat _ ltac:(lia) Hd),
      (H0 _ _ 2%nat annotationRendered_stage 3%nat _ ltac:(lia) Hfin).
    cbn [app]. rewrite app_nil_r. symmetry. exact Hr.
Qed.

Lemma run_success_renders_all_witness :
  decorationsRendered (events (run sampleEnv decoratedTask)) = [7; 8]%nat
  /\ annotationsRendered (events (run sampleEnv decoratedTask)) = [0; 2]%nat.
Proof.
  apply (run_success_renders_all sampleEnv decoratedTask). reflexivity.
Defined.

(** ** Calls that come in pairs *)

Lemma finalize_staged (env : Env) (p : Painter) (t : QgsMapRendererTask) :
  Forall (fun e => stage e = Some 3%nat) (events (finalize env p t)).
Proof.
  eapply Forall_impl; [|apply finalize_events].
  intros e He. destruct e; cbn in He; try discriminate; reflexivity.
Qed.

Lemma decorations_staged (l : list QgsMapDecoration) :
  Forall (fun e => stage e = Some 1%nat) (map DecorationRender l).
Proof.
  apply Forall_forall. intros e He. apply in_map_iff in He.
  destruct He as (d & <- & _). reflexivity.
Qed.

(** A call of [cancel()] does not occur among the calls of [run()] proper. *)
Lemma count_staged (p : Event -> bool) (s : nat) (l : list Event) :
  (forall e, p e = true -> stage e = None) ->
  Forall (fun e => stage e = Some s) l ->
  count p l = 0%nat.
Proof.
  intros Hp Hl. unfold count.
  induction Hl as [|e l He _ IH]; [reflexivity|]. cbn.
  destruct (p e) eqn:Hpe; [|exact IH].
  apply Hp in Hpe. congruence.
Qed.

Lemma count_unstaged (p : Event -> bool) (k : nat) (l : list Event) :
  (forall e, p e = true -> stage e = Some k) ->
  Forall (fun e => stage e = None) l ->
  count p l = 0%nat.
Proof.
  intros Hp Hl. apply (count_stage p (S k) k); [exact Hp|lia|].
  now apply unstaged_inStage.
Qed.

Lemma annotationsRendered_unstaged (l : list Event) :
  Forall (fun e => stage e = None) l -> annotationsRendered l = [].
Proof.
  intros Hl. apply (flat_map_stage _ 0 2); [apply annotationRendered_stage|lia|].
  now apply unstaged_inStage.
Qed.

(** Whatever is called once in each turn that renders is called as often as
    annotations are rendered. *)
Lemma renderAnnotations_per_render (p : Event -> bool) (env : Env)
  (ms : QgsMapSettings) (l : list (option QgsAnnotation)) :
  (forall e, p e = true -> stage e = Some 2%nat) ->
  (forall i x y, count p [PainterSave; PainterSetRenderHint; PainterTranslate x y;
                          AnnotationRender i; PainterRestore] = 1%nat) ->
  forall i t,
    count p (events (renderAnnotations env ms i l t))
    = List.length (annotationsRendered (events (renderAnnotations env ms i l t))).
Proof.
  intros Hp Hone.
  induction l as [|a rest IH]; intros i t; [reflexivity|].
  pose proof (renderAnnotations_cons env ms i a rest t) as H. cbn zeta in H.
  cbn [isCanceled set_isCanceled] in H.
  pose proof (times_cancel_unstaged (cancelCalls env (BeforeAnnotation i)) t) as Hu.
  fold (interleave env (BeforeAnnotation i) t) in Hu.
  destruct (isCanceled t || _) in H; destruct H as (_ & _ & ->).
  - rewrite (count_unstaged p 2 _ Hp Hu), (annotationsRendered_unstaged _ Hu).
    reflexivity.
  - unfold annotationsRendered. rewrite !count_app, !flat_map_app, !length_app.
    fold (annotationsRendered (events (interleave env (BeforeAnnotation i) t))).
    rewrite (count_unstaged p 2 _ Hp Hu), (annotationsRendered_unstaged _ Hu).
    fold (annotationsRendered (events (renderAnnotations env ms (S i) rest
                                         (set_isCanceled false t)))).
    rewrite IH. destruct (skipped ms a); [reflexivity|].
    rewrite Hone. reflexivity.
Qed.

Lemma run_per_render (p : Event -> bool) (env : Env) (t : QgsMapRendererTask) :
  (forall e, p e = true -> stage e = Some 2%nat) ->
  (forall i x y, count p [PainterSave; PainterSetRenderHint; PainterTranslate x y;
                          AnnotationRender i; PainterRestore] = 1%nat) ->
  count p (events (run env t)) = List.length (annotationsRendered (events (run env t))).
Proof.
  intros Hp Hone.
  assert (Hc : forall s l, s <> 2%nat -> Forall (inStage s) l ->
                           count p l = 0%nat /\ annotationsRendered l = []).
  { intros s l Hs Hl. split.
    - now apply (count_stage p s 2).
    - apply (flat_map_stage _ s 2); [apply annotationRendered_stage|exact Hs|exact Hl]. }
  destruct (Hc 0%nat _ ltac:(lia) (staged_inStage 0 _ (resolveSurface_stage env t)))
    as (Hp1 & Ha1).
  destruct (Hc 0%nat _ ltac:(lia) (renderJob_stage env (destination t) t)) as (Hp2 & Ha2).
  destruct (Hc 1%nat _ ltac:(lia) (decorations_stage (mDecorations t))) as (Hp3 & Ha3).
  pose proof (renderAnnotations_per_render p env (mMapSettings t) (mAnnotations t)
                Hp Hone 0 (afterJob env t)) as Hloop.
  unfold annotationsRendered in *.
  destruct (run_cases env t)
    as [(e & _ & _ & _ & ->)
       |[(_ & _ & _ & _ & ->)
        |[(_ & _ & _ & _ & _ & _ & ->)
         |(_ & _ & _ & Ht3 & _ & _ & ->)]]];
    rewrite ?count_app, ?flat_map_app, ?length_app, ?Hp1, ?Hp2, ?Hp3, ?Ha1, ?Ha2, ?Ha3;
    cbn [List.length Nat.add]; try reflexivity.
  - rewrite Hloop. lia.
  - destruct (Hc 3%nat _ ltac:(lia)
                (finalize_stage env (destination t)
                   (task (renderAnnotations env (mMapSettings t) 0 (mAnnotations t)
                            (afterJob env t))))) as (Hp4 & Ha4).
    unfold annotationsRendered in Ha4. rewrite Hp4, Ha4, Hloop. cbn. lia.
Qed.

(** X7: in every run the painter is saved, moved and restored exactly once
    for each annotation that is rendered, so the numbers of saves and of
    restores are equal, also when the run is canceled inside the loop. *)
Theorem run_save_restore_balanced (env : Env) (t : QgsMapRendererTask) :
  count isPainterSave (events (run env t))
    = List.length (annotationsRendered (events (run env t)))
  /\ count isPainterTranslate (events (run env t))
     = List.length (annotationsRendered (events (run env t)))
  /\ count isPainterRestore (events (run env t))
     = List.length (annotationsRendered (events (run env t))).
Proof.
  repeat split; apply run_per_render; try reflexivity;
    intros e He; destruct e; cbn in He; try discriminate; reflexivity.
Qed.

(** ** The mutex and the job *)

Lemma times_cancel_mutex (n : nat) (t : QgsMapRendererTask) :
  count isMutexLock (events (times n cancel t)) = n
  /\ count isMutexUnlock (events (times n cancel t)) = n
  /\ jobCancels (events (times n cancel t)) = (if hasJob t then n else 0)%nat.
Proof.
  revert t. induction n as [|n IH]; intros t; cbn [times].
  - destruct (hasJob t); repeat split.
  - rewrite bind_events, cancel_flow, cancel_events, cancel_task.
    destruct (IH (QgsTask_cancel t)) as (H1 & H2 & H3).
    change (hasJob (QgsTask_cancel t)) with (hasJob t) in H3.
    unfold jobCancels in *.
    change (MutexLock :: (if hasJob t then [JobCancelWithoutBlocking] else [])
              ++ [MutexUnlock])
      with ([MutexLock] ++ (if hasJob t then [JobCancelWithoutBlocking] else [])
              ++ [MutexUnlock]).
    rewrite !count_app, H1, H2, H3.
    destruct (hasJob t); cbn; repeat split; lia.
Qed.

Lemma renderAnnotations_mutex (env : Env) (ms : QgsMapSettings)
  (l : list (option QgsAnnotation)) :
  forall i t,
    count isMutexLock (events (renderAnnotations env ms i l t))
    = count isMutexUnlock (events (renderAnnotations env ms i l t))
    /\ (hasJob t = false ->
        jobCancels (events (renderAnnotations env ms i l t)) = 0%nat).
Proof.
  induction l as [|a rest IH]; intros i t; [split; reflexivity|].
  pose proof (renderAnnotations_cons env ms i a rest t) as H. cbn zeta in H.
  cbn [isCanceled set_isCanceled] in H.
  destruct (times_cancel_mutex (cancelCalls env (BeforeAnnotation i)) t)
    as (H1 & H2 & H3).
  fold (interleave env (BeforeAnnotation i) t) in H1, H2, H3.
  destruct (isCanceled t || _) in H; destruct H as (_ & _ & ->).
  - split; [congruence|]. intros Hj. now rewrite H3, Hj.
  - destruct (IH (S i) (set_isCanceled false t)) as (IH1 & IH2).
    unfold jobCancels in *. rewrite !count_app, H1, H2, IH1, H3.
    split.
    + destruct (skipped ms a); reflexivity.
    + intros Hj. rewrite Hj, (IH2 Hj). destruct (skipped ms a); reflexivity.
Qed.

Lemma resolveSurface_no_job (env : Env) (t : QgsMapRendererTask) :
  count isJobNew (events (resolveSurface env t)) = 0%nat
  /\ count isJobRender (events (resolveSurface env t)) = 0%nat
  /\ count isJobDelete (events (resolveSurface env t)) = 0%nat.
Proof.
  unfold resolveSurface, bind. cbn.
  destruct (mFileFormat t =? "PDF"), (QT_NO_PRINTER env), (mForceRaster t),
    (mPainter t), (imageIsNull env (outputSize (mMapSettings t))); cbn;
    repeat split.
Qed.

(** X8: in every run the mutex is locked as often as it is unlocked,
    whatever [cancel()] calls arrive meanwhile. *)
Theorem run_mutex_balanced (env : Env) (t : QgsMapRendererTask) :
  count isMutexLock (events (run env t)) = count isMutexUnlock (events (run env t)).
Proof.
  assert (Hz : forall s l, Forall (fun e => stage e = Some s) l ->
                           count isMutexLock l = 0%nat /\ count isMutexUnlock l = 0%nat).
  { intros s l Hl. split; apply (count_staged _ s); auto;
      intros e He; destruct e; cbn in He; try discriminate; reflexivity. }
  destruct (Hz _ _ (resolveSurface_stage env t)) as (Hl1 & Hu1).
  destruct (Hz _ _ (decorations_staged (mDecorations t))) as (Hl3 & Hu3).
  assert (Hjob : count isMutexLock (events (renderJob env (destination t) t))
                 = count isMutexUnlock (events (renderJob env (destination t) t))).
  { destruct (renderJob_events_eq env (destination t) t)
      as (t1 & t2 & t3 & _ & _ & _ & ->).
    destruct (times_cancel_mutex (cancelCalls env BeforeJob) t1) as (A1 & A2 & _).
    destruct (times_cancel_mutex (cancelCalls env DuringRender) t2) as (B1 & B2 & _).
    destruct (times_cancel_mutex (cancelCalls env AfterRender) t3) as (C1 & C2 & _).
    rewrite !count_app, A1, A2, B1, B2, C1, C2. reflexivity. }
  destruct (renderAnnotations_mutex env (mMapSettings t) (mAnnotations t) 0
              (afterJob env t)) as (Hloop & _).
  destruct (run_cases env t)
    as [(e & _ & _ & _ & ->)
       |[(_ & _ & _ & _ & ->)
        |[(_ & _ & _ & _ & _ & _ & ->)
         |(_ & _ & _ & _ & _ & _ & ->)]]];
    rewrite ?count_app, ?Hl1, ?Hu1, ?Hl3, ?Hu3, ?Hjob, ?Hloop; try reflexivity.
  destruct (Hz _ _ (finalize_staged env (destination t)
                      (task (renderAnnotations env (mMapSettings t) 0 (mAnnotations t)
                               (afterJob env t))))) as (Hl4 & Hu4).
  rewrite Hl4, Hu4. reflexivity.
Qed.

(** X9: a run whose surface is resolved creates one job, on the settings of
    the task and the painter chosen by lines 79-124, renders it once and
    deletes it once, also when the task was canceled before; a run whose
    surface is not resolved creates none. *)
Theorem run_job_lifecycle (env : Env) (t : QgsMapRendererTask) :
  let n := match surfaceError env t with Some _ => 0%nat | None => 1%nat end in
  jobsCreated (events (run env t))
    = match surfaceError env t with
      | Some _ => []
      | None => [{| jobSettings := mMapSettings t; jobPainter := destination t |}]
      end
  /\ count isJobRender (events (run env t)) = n
  /\ count isJobDelete (events (run env t)) = n.
Proof.
  cbn zeta.
  assert (Hp : forall p, p = isJobRender \/ p = isJobDelete ->
                         forall e, p e = true -> stage e = Some 0%nat).
  { intros p [-> | ->] e He; destruct e; cbn in He; try discriminate; reflexivity. }
  assert (Hj : forall e, jobCreated e <> [] -> stage e = Some 0%nat).
  { intros e. destruct e; cbn; congruence. }
  assert (Hz : forall s l, s <> 0%nat -> Forall (inStage s) l ->
                           jobsCreated l = []
                           /\ count isJobRender l = 0%nat /\ count isJobDelete l = 0%nat).
  { intros s l Hs Hl. split; [|split].
    - now apply (flat_map_stage _ s 0).
    - apply (count_stage _ s 0); [apply Hp; now left|exact Hs|exact Hl].
    - apply (count_stage _ s 0); [apply Hp; now right|exact Hs|exact Hl]. }
  assert (Hs1 : jobsCreated (events (resolveSurface env t)) = []
                /\ count isJobRender (events (resolveSurface env t)) = 0%nat
                /\ count isJobDelete (events (resolveSurface env t)) = 0%nat).
  { destruct (resolveSurface_no_job env t) as (A & B & C). split; [|auto].
    unfold resolveSurface, bind. cbn.
    destruct (mFileFormat t =? "PDF"), (QT_NO_PRINTER env), (mForceRaster t),
      (mPainter t), (imageIsNull env (outputSize (mMapSettings t))); reflexivity. }
  destruct Hs1 as (J1 & R1 & D1).
  assert (Hjob : jobsCreated (events (renderJob env (destination t) t))
                 = [{| jobSettings := mMapSettings t; jobPainter := destination t |}]
                 /\ count isJobRender (events (renderJob env (destination t) t)) = 1%nat
                 /\ count isJobDelete (events (renderJob env (destination t) t)) = 1%nat).
  { destruct (renderJob_events_eq env (destination t) t)
      as (t1 & t2 & t3 & _ & _ & _ & ->).
    destruct (Hz 1%nat _ ltac:(lia)
                (unstaged_inStage 1 _ (times_cancel_unstaged (cancelCalls env BeforeJob) t1)))
      as (A1 & A2 & A3).
    destruct (Hz 1%nat _ ltac:(lia)
                (unstaged_inStage 1 _ (times_cancel_unstaged (cancelCalls env DuringRender) t2)))
      as (B1 & B2 & B3).
    destruct (Hz 1%nat _ ltac:(lia)
                (unstaged_inStage 1 _ (times_cancel_unstaged (cancelCalls env AfterRender) t3)))
      as (C1 & C2 & C3).
    unfold jobsCreated in *.
    rewrite !count_app, !flat_map_app, A1, A2, A3, B1, B2, B3, C1, C2, C3.
    repeat split. }
  destruct Hjob as (J2 & R2 & D2).
  destruct (Hz 1%nat _ ltac:(lia) (decorations_stage (mDecorations t))) as (J3 & R3 & D3).
  destruct (Hz 2%nat _ ltac:(lia)
              (renderAnnotations_stage env (mMapSettings t) (mAnnotations t) 0
                 (afterJob env t))) as (J4 & R4 & D4).
  unfold jobsCreated in *.
  destruct (run_cases env t)
    as [(e & -> & _ & _ & ->)
       |[(-> & _ & _ & _ & ->)
        |[(-> & _ & _ & _ & _ & _ & ->)
         |(-> & _ & _ & _ & _ & _ & ->)]]];
    rewrite ?count_app, ?flat_map_app, ?J1, ?R1, ?D1, ?J2, ?R2, ?D2, ?J3, ?R3, ?D3,
      ?J4, ?R4, ?D4; try (repeat split; reflexivity).
  destruct (Hz 3%nat _ ltac:(lia)
              (finalize_stage env (destination t)
                 (task (renderAnnotations env (mMapSettings t) 0 (mAnnotations t)
                          (afterJob env t))))) as (J5 & R5 & D5).
  unfold jobsCreated in J5. rewrite J5, R5, D5. repeat split.
Qed.

(** X10: on a task that holds no job when [run()] starts, the cancel
    requests that the job receives are exactly the [cancel()] calls that
    arrive while it renders: a cancellation before or after the rendering
    is never sent to a job. *)
Theorem run_cancel_requests (env : Env) (t : QgsMapRendererTask) :
  mJob t = None ->
  jobCancels (events (run env t))
  = match surfaceError env t with
    | Some _ => 0%nat
    | None => cancelCalls env DuringRender
    end.
Proof.
  intros Hjob0.
  assert (Hno : hasJob t = false) by (unfold hasJob; now rewrite Hjob0).
  assert (Hz : forall s l, Forall (fun e => stage e = Some s) l -> jobCancels l = 0%nat).
  { intros s l. apply (count_staged _ s).
    intros e He; destruct e; cbn in He; try discriminate; reflexivity. }
  pose proof (Hz _ _ (resolveSurface_stage env t)) as H1.
  pose proof (Hz _ _ (decorations_staged (mDecorations t))) as H3.
  assert (H2 : jobCancels (events (renderJob env (destination t) t))
               = cancelCalls env DuringRender).
  { destruct (renderJob_events_eq env (destination t) t)
      as (t1 & t2 & t3 & E1 & E2 & E3 & ->).
    destruct (times_cancel_mutex (cancelCalls env BeforeJob) t1) as (_ & _ & A).
    destruct (times_cancel_mutex (cancelCalls env DuringRender) t2) as (_ & _ & B).
    destruct (times_cancel_mutex (cancelCalls env AfterRender) t3) as (_ & _ & C).
    rewrite E1, Hno in A. rewrite E2 in B. rewrite E3 in C.
    unfold jobCancels in *. rewrite !count_app, A, B, C. cbn. lia. }
  destruct (renderAnnotations_mutex env (mMapSettings t) (mAnnotations t) 0
              (afterJob env t)) as (_ & H4).
  specialize (H4 eq_refl).
  unfold jobCancels in *.
  destruct (run_cases env t)
    as [(e & -> & _ & _ & ->)
       |[(-> & _ & _ & _ & ->)
        |[(-> & _ & _ & _ & _ & _ & ->)
         |(-> & _ & _ & _ & _ & _ & ->)]]];
    rewrite ?count_app, ?H1, ?H2, ?H3, ?H4; try lia.
  pose proof (Hz _ _ (finalize_staged env (destination t)
                        (task (renderAnnotations env (mMapSettings t) 0 (mAnnotations t)
                                 (afterJob env t))))) as H5.
  unfold jobCancels in H5. rewrite H5. lia.
Qed.

Lemma run_cancel_requests_witness :
  jobCancels (events (run cancelWhileRendering decoratedTask)) = 2%nat.
Proof.
  apply (run_cancel_requests cancelWhileRendering decoratedTask). reflexivity.
Defined.

(** X11: once [run()] has returned on a task that held no job before, the
    task holds no job, so a later [cancel()] sends no request and only marks
    the task canceled. *)
Theorem cancel_after_run (env : Env) (t : QgsMapRendererTask) :
  mJob t = None ->
  mJob (task (run env t)) = None
  /\ jobCancels (events (cancel (task (run env t)))) = 0%nat
  /\ isCanceled (task (cancel (task (run env t)))) = true.
Proof.
  intros Hjob0.
  assert (Hj : mJob (task (run env t)) = None).
  { destruct (run_cases env t)
      as [(e & _ & _ & -> & _)
         |[(_ & _ & _ & -> & _)
          |[(_ & _ & _ & Ht3 & _ & -> & _)
           |(_ & _ & _ & Ht3 & _ & -> & _)]]];
      try rewrite Ht3; try reflexivity; try exact Hjob0.
    destruct (finalize_cases env (destination t) (set_isCanceled false (afterJob env t)))
      as [(_ & ->)|[(_ & e & ->)|(_ & ->)]]; reflexivity. }
  split; [exact Hj|].
  rewrite cancel_events, cancel_task. unfold hasJob. rewrite Hj.
  split; reflexivity.
Qed.

Lemma cancel_after_run_witness :
  mJob (task (run sampleEnv decoratedTask)) = None
  /\ jobCancels (events (cancel (task (run sampleEnv decoratedTask)))) = 0%nat
  /\ isCanceled (task (cancel (task (run sampleEnv decoratedTask)))) = true.
Proof.
  apply (cancel_after_run sampleEnv decoratedTask). reflexivity.
Defined.

(** ** The output phase, case by case *)

Lemma count_not_output (p : Event -> bool) (l : list Event) :
  (forall e, p e = true -> isOutput e = true) ->
  Forall (fun e => isOutput e = false) l ->
  count p l = 0%nat.
Proof.
  intros Hp Hl. unfold count.
  induction Hl as [|e l He _ IH]; [reflexivity|]. cbn.
  destruct (p e) eqn:Hpe; [|exact IH].
  apply Hp in Hpe. congruence.
Qed.

Lemma georeferencing_output (e : Event) : isGeoreferencing e = true -> isOutput e = true.
Proof. destruct e; cbn; congruence. Qed.

Lemma finalize_without_worldFile (env : Env) (p : Painter) (t : QgsMapRendererTask) :
  mSaveWorldFile t = false ->
  count isGeoreferencing (events (finalize env p t)) = 0%nat.
Proof.
  intros Hw. unfold finalize, embedGeoTransform, writeWorldFile, bind. cbn.
  rewrite Hw. split_ifs; reflexivity.
Qed.

(** X12: when the save-worldfile flag is off, a run georeferences nothing:
    it does not reopen the output with GDAL, sets no GDAL option, and opens
    and writes no sidecar. *)
Theorem run_without_worldFile (env : Env) (t : QgsMapRendererTask) :
  mSaveWorldFile t = false ->
  count isGeoreferencing (events (run env t)) = 0%nat.
Proof.
  intros Hw. destruct (run_output env t) as (mid & Hmid & H).
  pose proof (count_not_output _ _ georeferencing_output Hmid) as Hz.
  destruct H as [(-> & _)|(p & c & -> & _)]; [exact Hz|].
  rewrite count_app, Hz. now apply finalize_without_worldFile.
Qed.

Lemma run_without_worldFile_witness :
  count isGeoreferencing (events (run sampleEnv decoratedTask)) = 0%nat.
Proof.
  apply (run_without_worldFile sampleEnv decoratedTask). reflexivity.
Defined.

Lemma finalize_pdf (env : Env) (p : Painter) (t : QgsMapRendererTask) :
  mFileFormat t = "PDF"%string ->
  count isImageSave (events (finalize env p t)) = 0%nat
  /\ worldFileOpenings (events (finalize env p t)) = []
  /\ worldFiles (events (finalize env p t)) = []
  /\ (mForceRaster t = false ->
      count isGeoreferencing (events (finalize env p t)) = 0%nat
      /\ (events (finalize env p t) = []
          \/ events (finalize env p t) = [PainterEnd p])).
Proof.
  intros Hf. unfold finalize, embedGeoTransform, writeWorldFile, bind. cbn.
  rewrite Hf. cbn.
  destruct (QString.isEmpty (mFileName t)), (mForceRaster t), (QT_NO_PRINTER env),
    (mSaveWorldFile t), (gdalOpens env); cbn;
    repeat split; intros; try discriminate; auto.
Qed.

(** X13: a PDF output never gets a sidecar, with or without the
    force-raster flag, and the image is never saved as a file of its own. *)
Theorem run_pdf_no_sidecar (env : Env) (t : QgsMapRendererTask) :
  mFileFormat t = "PDF"%string ->
  count isImageSave (events (run env t)) = 0%nat
  /\ worldFileOpenings (events (run env t)) = []
  /\ worldFiles (events (run env t)) = [].
Proof.
  intros Hf. destruct (run_output env t) as (mid & Hmid & H).
  destruct (no_output_observed mid Hmid) as (_ & Hw & Ho).
  assert (Hz : count isImageSave mid = 0%nat).
  { apply count_not_output; [|exact Hmid]. intros e; destruct e; cbn; congruence. }
  destruct H as [(-> & _)|(p & c & -> & _)]; [auto|].
  destruct (finalize_pdf env p (set_isCanceled c (afterJob env t)) Hf) as (A & B & C & _).
  rewrite count_app, worldFileOpenings_app, worldFiles_app, Hz, Hw, Ho, A, B, C.
  auto.
Qed.

Lemma run_pdf_no_sidecar_witness :
  count isImageSave (events (run sampleEnv (worldFileTask "/data/map.pdf" "PDF"))) = 0%nat
  /\ worldFileOpenings (events (run sampleEnv (worldFileTask "/data/map.pdf" "PDF"))) = []
  /\ worldFiles (events (run sampleEnv (worldFileTask "/data/map.pdf" "PDF"))) = [].
Proof.
  apply (run_pdf_no_sidecar sampleEnv (worldFileTask "/data/map.pdf" "PDF")). reflexivity.
Defined.

Lemma renderJob_no_image (env : Env) (p : Painter) (t : QgsMapRendererTask) :
  count isImageNew (events (renderJob env p t)) = 0%nat.
Proof.
  assert (Hp : forall e, isImageNew e = true -> stage e = Some 0%nat).
  { intros e; destruct e; cbn; congruence. }
  destruct (renderJob_events_eq env p t) as (t1 & t2 & t3 & _ & _ & _ & ->).
  rewrite !count_app, !(count_unstaged _ 0 _ Hp (times_cancel_unstaged _ _)).
  reflexivity.
Qed.

(** X14: a PDF output without the force-raster flag is drawn on the printer
    alone: no image buffer is created, the only call of the output phase
    is the end of the printer's painter, and the save-worldfile flag has no
    effect. *)
Theorem run_pdf_direct (env : Env) (t : QgsMapRendererTask) :
  mFileFormat t = "PDF"%string ->
  mForceRaster t = false ->
  count isImageNew (events (run env t)) = 0%nat
  /\ count isGeoreferencing (events (run env t)) = 0%nat
  /\ (filter isOutput (events (run env t)) = []
      \/ filter isOutput (events (run env t)) = [PainterEnd OnPrinter]).
Proof.
  intros Hf Hr.
  assert (Hd : destination t = OnPrinter).
  { unfold destination. now rewrite Hf, Hr. }
  assert (Hp : forall e, isImageNew e = true -> stage e = Some 0%nat).
  { intros e; destruct e; cbn; congruence. }
  assert (Hg : forall e, isGeoreferencing e = true -> stage e = Some 3%nat).
  { intros e; destruct e; cbn; congruence. }
  assert (Hz : forall s l, s <> 0%nat -> s <> 3%nat -> Forall (inStage s) l ->
                           count isImageNew l = 0%nat
                           /\ count isGeoreferencing l = 0%nat
                           /\ filter isOutput l = []).
  { intros s l Hs0 Hs3 Hl. split; [|split].
    - now apply (count_stage _ s 0).
    - now apply (count_stage _ s 3).
    - apply filter_none. eapply Forall_impl; [|exact Hl].
      intros e [He|He]; destruct e; cbn in *; congruence. }
  assert (H1 : count isImageNew (events (resolveSurface env t)) = 0%nat
               /\ count isGeoreferencing (events (resolveSurface env t)) = 0%nat
               /\ filter isOutput (events (resolveSurface env t)) = []).
  { unfold resolveSurface, bind. cbn. rewrite Hf, Hr. cbn.
    destruct (QT_NO_PRINTER env); cbn; repeat split. }
  destruct H1 as (A1 & B1 & C1).
  assert (H2 : count isImageNew (events (renderJob env (destination t) t)) = 0%nat
               /\ count isGeoreferencing (events (renderJob env (destination t) t)) = 0%nat
               /\ filter isOutput (events (renderJob env (destination t) t)) = []).
  { split; [apply renderJob_no_image|]. split.
    - apply (count_stage _ 0 3); [exact Hg|lia|apply renderJob_stage].
    - apply filter_none. eapply Forall_impl; [|apply renderJob_events].
      apply setup_not_output. }
  destruct H2 as (A2 & B2 & C2).
  destruct (Hz 1%nat _ ltac:(lia) ltac:(lia) (decorations_stage (mDecorations t)))
    as (A3 & B3 & C3).
  destruct (Hz 2%nat _ ltac:(lia) ltac:(lia)
              (renderAnnotations_stage env (mMapSettings t) (mAnnotations t) 0
                 (afterJob env t))) as (A4 & B4 & C4).
  destruct (run_cases env t)
    as [(e & _ & _ & _ & ->)
       |[(_ & _ & _ & _ & ->)
        |[(_ & _ & _ & _ & _ & _ & ->)
         |(_ & _ & _ & Ht3 & _ & _ & ->)]]];
    rewrite ?count_app, ?filter_app, ?A1, ?B1, ?C1, ?A2, ?B2, ?C2, ?A3, ?B3, ?C3,
      ?A4, ?B4, ?C4; cbn [app Nat.add]; auto.
  rewrite Ht3, Hd.
  destruct (finalize_pdf env OnPrinter (set_isCanceled false (afterJob env t)) Hf)
    as (_ & _ & _ & H).
  destruct (H Hr) as (G & E).
  split; [|split; [exact G|]].
  - apply (count_stage _ 3 0); [exact Hp|lia|apply finalize_stage].
  - destruct E as [-> | ->]; [left|right]; reflexivity.
Qed.

Lemma run_pdf_direct_witness :
  count isImageNew (events (run sampleEnv (worldFileTask "/data/map.pdf" "PDF"))) = 0%nat
  /\ count isGeoreferencing (events (run sampleEnv (worldFileTask "/data/map.pdf" "PDF")))
     = 0%nat
  /\ (filter isOutput (events (run sampleEnv (worldFileTask "/data/map.pdf" "PDF"))) = []
      \/ filter isOutput (events (run sampleEnv (worldFileTask "/data/map.pdf" "PDF")))
         = [PainterEnd OnPrinter]).
Proof.
  apply (run_pdf_direct sampleEnv (worldFileTask "/data/map.pdf" "PDF")); reflexivity.
Defined.

Lemma finalize_config_balanced (env : Env) (p : Painter) (t : QgsMapRendererTask) :
  count isConfigSet (events (finalize env p t))
  = count isConfigReset (events (finalize env p t)).
Proof.
  unfold finalize, embedGeoTransform, writeWorldFile, bind. cbn.
  split_ifs; reflexivity.
Qed.

(** X15: in every run the GDAL option GDAL_PDF_DPI is reset as often as it
    is set: it does not stay set when the file cannot be reopened. *)
Theorem run_config_option_reset (env : Env) (t : QgsMapRendererTask) :
  count isConfigSet (events (run env t)) = count isConfigReset (events (run env t)).
Proof.
  destruct (run_output env t) as (mid & Hmid & H).
  assert (Hs : count isConfigSet mid = 0%nat).
  { apply count_not_output; [|exact Hmid].
    intros e; destruct e as [| | | | | | | | | | | | | | | | | | | |? [?|]| | | | |];
      cbn; congruence. }
  assert (Hr : count isConfigReset mid = 0%nat).
  { apply count_not_output; [|exact Hmid].
    intros e; destruct e as [| | | | | | | | | | | | | | | | | | | |? [?|]| | | | |];
      cbn; congruence. }
  destruct H as [(-> & _)|(p & c & -> & _)]; [congruence|].
  rewrite !count_app, Hs, Hr. apply finalize_config_balanced.
Qed.

(** ** Saving the image *)

Lemma not_output_no_imageSave (l : list Event) (f fmt : string) :
  Forall (fun e => isOutput e = false) l -> ~ In (ImageSave f fmt) l.
Proof.
  intros Hl Hin. rewrite Forall_forall in Hl. specialize (Hl _ Hin). discriminate.
Qed.

(** A run that saves the image does so in its output phase. *)
Lemma run_imageSave (env : Env) (t : QgsMapRendererTask) (f fmt : string) :
  In (ImageSave f fmt) (events (run env t)) ->
  exists mid p c,
    let t' := set_isCanceled c (afterJob env t) in
    Forall (fun e => isOutput e = false) mid
    /\ In (ImageSave f fmt) (events (finalize env p t'))
    /\ events (run env t) = mid ++ events (finalize env p t')
    /\ flow (run env t) = afterFinalize (flow (finalize env p t'))
    /\ task (run env t) = task (finalize env p t').
Proof.
  intros Hin. destruct (run_output env t) as (mid & Hmid & H).
  pose proof (not_output_no_imageSave mid f fmt Hmid) as Hno.
  destruct H as [(He & _)|(p & c & He & Hf & Ht)].
  - rewrite He in Hin. contradiction.
  - exists mid, p, c. cbn zeta. rewrite He in Hin. apply in_app_or in Hin.
    destruct Hin as [Hin|Hin]; [contradiction|]. auto.
Qed.

Lemma finalize_save_fails (env : Env) (p : Painter) (t : QgsMapRendererTask)
  (f fmt : string) :
  In (ImageSave f fmt) (events (finalize env p t)) ->
  imageSaves env = false ->
  f = mFileName t /\ fmt = mFileFormat t
  /\ flow (finalize env p t) = Return false
  /\ task (finalize env p t) = set_mError ImageSaveFail t
  /\ count isGeoreferencing (events (finalize env p t)) = 0%nat.
Proof.
  unfold finalize, embedGeoTransform, writeWorldFile, bind. cbn.
  intros Hin Hs. revert Hin. rewrite Hs. cbn.
  destruct (QString.isEmpty (mFileName t)), (mForceRaster t),
    (mFileFormat t =? "PDF"), (QT_NO_PRINTER env), (mSaveWorldFile t),
    (gdalOpens env); cbn; intros Hin;
    repeat (destruct Hin as [Hin|Hin]; try discriminate Hin);
    try contradiction; injection Hin as <- <-; repeat split.
Qed.

(** X16: when the image is handed to [QImage::save] under the file name and
    the format of the task and the saving fails, the run returns false with
    the error code ImageSaveFail, which [finished] reports, and nothing is
    georeferenced. *)
Theorem run_image_save_fails (env : Env) (t : QgsMapRendererTask) (f fmt : string) :
  In (ImageSave f fmt) (events (run env t)) ->
  imageSaves env = false ->
  f = mFileName t /\ fmt = mFileFormat t
  /\ flow (run env t) = Return false
  /\ mError (task (run env t)) = Some ImageSaveFail
  /\ snd (finished false (task (run env t))) = errorOccurred (Some ImageSaveFail)
  /\ count isGeoreferencing (events (run env t)) = 0%nat.
Proof.
  intros Hin Hs.
  destruct (run_imageSave env t f fmt Hin) as (mid & p & c & Hmid & Hfin & He & Hf & Ht).
  cbn zeta in *.
  destruct (finalize_save_fails env p _ f fmt Hfin Hs) as (A & B & C & D & G).
  cbn [mFileName mFileFormat set_isCanceled afterJob] in A, B.
  rewrite Hf, Ht, He, C, D, count_app, G,
    (count_not_output _ _ georeferencing_output Hmid).
  repeat split; assumption.
Qed.

Lemma run_image_save_fails_witness :
  "/data/map.png"%string = mFileName (worldFileTask "/data/map.png" "PNG")
  /\ "PNG"%string = mFileFormat (worldFileTask "/data/map.png" "PNG")
  /\ flow (run saveFails (worldFileTask "/data/map.png" "PNG")) = Return false
  /\ mError (task (run saveFails (worldFileTask "/data/map.png" "PNG")))
     = Some ImageSaveFail
  /\ snd (finished false (task (run saveFails (worldFileTask "/data/map.png" "PNG"))))
     = errorOccurred (Some ImageSaveFail)
  /\ count isGeoreferencing (events (run saveFails (worldFileTask "/data/map.png" "PNG")))
     = 0%nat.
Proof.
  apply (run_image_save_fails saveFails (worldFileTask "/data/map.png" "PNG")).
  - vm_compute. repeat (first [left; reflexivity | right]).
  - reflexivity.
Defined.

Lemma finalize_without_extension (env : Env) (p : Painter) (t : QgsMapRendererTask)
  (f fmt : string) :
  In (ImageSave f fmt) (events (finalize env p t)) ->
  imageSaves env = true ->
  mSaveWorldFile t = true ->
  QFileInfo.suffix (mFileName t) = EmptyString ->
  flow (finalize env p t) = Undefined
  /\ task (finalize env p t) = t
  /\ count isGeoreferencing (events (finalize env p t)) = 0%nat.
Proof.
  unfold finalize, embedGeoTransform, writeWorldFile, bind. cbn.
  intros Hin Hs Hw Hx. revert Hin. rewrite Hs, Hw, Hx. cbn.
  destruct (QString.isEmpty (mFileName t)), (mForceRaster t),
    (mFileFormat t =? "PDF"), (QT_NO_PRINTER env), (gdalOpens env); cbn; intros Hin;
    repeat (destruct Hin as [Hin|Hin]; try discriminate Hin);
    try contradiction; repeat split.
Qed.

(** X17: with the save-worldfile flag on and a file name without extension,
    a run that saves the image goes on to ask for the first character of
    an empty suffix (lines 258-259), which is outside the contract of
    [QString::at]; no sidecar has been opened by then and nothing was
    georeferenced. *)
Theorem run_without_extension (env : Env) (t : QgsMapRendererTask) (f fmt : string) :
  In (ImageSave f fmt) (events (run env t)) ->
  imageSaves env = true ->
  mSaveWorldFile t = true ->
  QFileInfo.suffix (mFileName t) = EmptyString ->
  flow (run env t) = Undefined
  /\ mError (task (run env t)) = mError t
  /\ count isGeoreferencing (events (run env t)) = 0%nat.
Proof.
  intros Hin Hs Hw Hx.
  destruct (run_imageSave env t f fmt Hin) as (mid & p & c & Hmid & Hfin & He & Hf & Ht).
  cbn zeta in *.
  destruct (finalize_without_extension env p _ f fmt Hfin Hs Hw Hx) as (A & B & C).
  rewrite Hf, Ht, He, A, B, count_app, C,
    (count_not_output _ _ georeferencing_output Hmid).
  repeat split.
Qed.

Lemma run_without_extension_witness :
  flow (run sampleEnv (worldFileTask "/data/map" "PNG")) = Undefined
  /\ mError (task (run sampleEnv (worldFileTask "/data/map" "PNG")))
     = mError (worldFileTask "/data/map" "PNG")
  /\ count isGeoreferencing (events (run sampleEnv (worldFileTask "/data/map" "PNG")))
     = 0%nat.
Proof.
  apply (run_without_extension sampleEnv (worldFileTask "/data/map" "PNG")
           "/data/map" "PNG").
  - vm_compute. repeat (first [left; reflexivity | right]).
  - reflexivity.
  - reflexivity.
  - reflexivity.
Defined.

Lemma finalize_sidecar (env : Env) (p : Painter) (t : QgsMapRendererTask) :
  QString.isEmpty (mFileName t) = false ->
  mFileFormat t <> "PDF"%string ->
  mSaveWorldFile t = true ->
  QFileInfo.suffix (mFileName t) <> "tif"%string ->
  QFileInfo.suffix (mFileName t) <> "tiff"%string ->
  flow (finalize env p t) = Next tt ->
  exists first last,
    QString.at_ (QFileInfo.suffix (mFileName t)) 0 = Some first
    /\ QString.at_ (QFileInfo.suffix (mFileName t))
         (QString.size (QFileInfo.suffix (mFileName t)) - 1) = Some last
    /\ let name := (absolutePath env (mFileName t) ++ "/"
                      ++ QFileInfo.baseName (mFileName t) ++ "."
                      ++ QString.ofChar first ++ QString.ofChar last ++ "w")%string in
       count isGDALOpen (events (finalize env p t)) = 0%nat
       /\ geoTransforms (events (finalize env p t)) = []
       /\ worldFileOpenings (events (finalize env p t)) = [name]
       /\ worldFiles (events (finalize env p t))
          = (if worldFileOpens env
             then [(name, worldFileContent env (mMapSettings t))]
             else []).
Proof.
  intros He Hf Hw Htif Htiff.
  apply String.eqb_neq in Hf, Htif, Htiff.
  unfold finalize, embedGeoTransform, writeWorldFile, bind.
  cbn -[QString.at_ QString.size].
  rewrite He, Hf, Hw, Htif, Htiff, andb_false_r. cbn -[QString.at_ QString.size].
  destruct (imageSaves env); cbn -[QString.at_ QString.size]; [|discriminate].
  destruct (QString.at_ (QFileInfo.suffix (mFileName t)) 0) as [first|];
    [|cbn; discriminate].
  destruct (QString.at_ (QFileInfo.suffix (mFileName t))
              (QString.size (QFileInfo.suffix (mFileName t)) - 1)) as [last|];
    [|cbn; discriminate].
  intros _. exists first, last.
  destruct (worldFileOpens env); cbn; repeat split.
Qed.

(** X18: for a file output that is not PDF, with the save-worldfile flag
    and an extension other than tif and tiff, a run that returns true has
    not reopened the output with GDAL and has embedded nothing; it has
    opened one sidecar, named after lines 258-259, and has written the
    world file content to it if and only if that opening succeeded. *)
Theorem run_sidecar_only (env : Env) (t : QgsMapRendererTask) :
  QString.isEmpty (mFileName t) = false ->
  mFileFormat t <> "PDF"%string ->
  mSaveWorldFile t = true ->
  QFileInfo.suffix (mFileName t) <> "tif"%string ->
  QFileInfo.suffix (mFileName t) <> "tiff"%string ->
  flow (run env t) = Return true ->
  exists first last,
    QString.at_ (QFileInfo.suffix (mFileName t)) 0 = Some first
    /\ QString.at_ (QFileInfo.suffix (mFileName t))
         (QString.size (QFileInfo.suffix (mFileName t)) - 1) = Some last
    /\ let name := (absolutePath env (mFileName t) ++ "/"
                      ++ QFileInfo.baseName (mFileName t) ++ "."
                      ++ QString.ofChar first ++ QString.ofChar last ++ "w")%string in
       count isGDALOpen (events (run env t)) = 0%nat
       /\ geoTransforms (events (run env t)) = []
       /\ worldFileOpenings (events (run env t)) = [name]
       /\ worldFiles (events (run env t))
          = (if worldFileOpens env
             then [(name, worldFileContent env (mMapSettings t))]
             else []).
Proof.
  intros He Hf Hw Htif Htiff Htrue.
  destruct (run_output env t) as (mid & Hmid & H).
  destruct (no_output_observed mid Hmid) as (Hg & Hwf & Ho).
  assert (Hz : count isGDALOpen mid = 0%nat).
  { apply count_not_output; [|exact Hmid]. intros e; destruct e; cbn; congruence. }
  destruct H as [(_ & Hfalse)|(p & c & Hev & Hflow & _)]; [congruence|].
  cbn zeta in Hev, Hflow.
  assert (Hfin : flow (finalize env p (set_isCanceled c (afterJob env t))) = Next tt).
  { rewrite Htrue in Hflow.
    destruct (finalize_cases env p (set_isCanceled c (afterJob env t)))
      as [(Hn & _)|[(Hn & _)|(Hn & _)]]; rewrite Hn in Hflow;
      [exact Hn|discriminate|discriminate]. }
  destruct (finalize_sidecar env p (set_isCanceled c (afterJob env t))
              He Hf Hw Htif Htiff Hfin) as (first & last & H0 & H1 & H).
  cbn zeta in H. cbn [mFileName mMapSettings set_isCanceled afterJob] in H0, H1, H.
  destruct H as (A & B & C & D).
  exists first, last. split; [exact H0|]. split; [exact H1|]. cbn zeta.
  rewrite Hev, count_app, geoTransforms_app, worldFileOpenings_app, worldFiles_app,
    Hz, Hg, Hwf, Ho, A, B, C, D.
  repeat split.
Qed.

Lemma run_sidecar_only_witness :
  exists first last,
    QString.at_ (QFileInfo.suffix (mFileName (worldFileTask "/data/map.png" "PNG"))) 0
      = Some first
    /\ QString.at_ (QFileInfo.suffix (mFileName (worldFileTask "/data/map.png" "PNG")))
         (QString.size (QFileInfo.suffix (mFileName (worldFileTask "/data/map.png" "PNG")))
            - 1) = Some last
    /\ let name := (absolutePath sampleEnv (mFileName (worldFileTask "/data/map.png" "PNG"))
                      ++ "/"
                      ++ QFileInfo.baseName (mFileName (worldFileTask "/data/map.png" "PNG"))
                      ++ "." ++ QString.ofChar first ++ QString.ofChar last ++ "w")%string in
       count isGDALOpen (events (run sampleEnv (worldFileTask "/data/map.png" "PNG")))
         = 0%nat
       /\ geoTransforms (events (run sampleEnv (worldFileTask "/data/map.png" "PNG"))) = []
       /\ worldFileOpenings (events (run sampleEnv (worldFileTask "/data/map.png" "PNG")))
          = [name]
       /\ worldFiles (events (run sampleEnv (worldFileTask "/data/map.png" "PNG")))
          = (if worldFileOpens sampleEnv
             then [(name, worldFileContent sampleEnv
                            (mMapSettings (worldFileTask "/data/map.png" "PNG")))]
             else []).
Proof.
  apply (run_sidecar_only sampleEnv (worldFileTask "/data/map.png" "PNG")).
  - reflexivity.
  - discriminate.
  - reflexivity.
  - discriminate.
  - discriminate.
  - reflexivity.
Defined.

(** ** The order of the stages *)


(** ** Cancellation in the annotation loop *)




(** ** Runs that nobody cancels *)

Lemma renderAnnotations_never_canceled (env : Env) (ms : QgsMapSettings)
  (l : list (option QgsAnnotation)) :
  (forall cp, cancelCalls env cp = 0%nat) ->
  forall i t,
    isCanceled t = false ->
    flow (renderAnnotations env ms i l t) = Next tt.
Proof.
  intros Hcalls. induction l as [|a rest IH]; intros i t Ht; [reflexivity|].
  pose proof (renderAnnotations_cons env ms i a rest t) as H. cbn zeta in H.
  cbn [isCanceled set_isCanceled] in H.
  rewrite Ht, Hcalls in H. cbn [orb negb Nat.eqb] in H. destruct H as (-> & _).
  now apply IH.
Qed.

(** A run that resolves its surface and that nobody cancels reaches the
    output phase, and returns what that phase makes of it. *)
Lemma run_never_canceled (env : Env) (t : QgsMapRendererTask) :
  surfaceError env t = None ->
  neverCanceled env t ->
  let t' := set_isCanceled false (afterJob env t) in
  flow (run env t) = afterFinalize (flow (finalize env (destination t) t'))
  /\ task (run env t) = task (finalize env (destination t) t').
Proof.
  intros Hs (Ht & Hcalls). cbn zeta.
  assert (Hc : isCanceled (afterJob env t) = false).
  { unfold afterJob, canceledMeanwhile. cbn. now rewrite Ht, !Hcalls. }
  pose proof (renderAnnotations_never_canceled env (mMapSettings t) (mAnnotations t)
                Hcalls 0 (afterJob env t) Hc) as Hloop.
  destruct (run_cases env t)
    as [(e & Hs' & _)
       |[(_ & Hc' & _)
        |[(_ & _ & Hf3 & _)
         |(_ & _ & _ & Ht3 & Hf & Htask & _)]]]; try congruence.
  rewrite Ht3 in Hf, Htask. auto.
Qed.

(** X21: a task without file name, which is what the painter constructor
    builds, cannot fail in its output phase: if its surface is resolved and
    nobody cancels it, [run()] returns true and sets no error code. *)
Theorem run_painter_succeeds (env : Env) (t : QgsMapRendererTask) :
  mFileName t = EmptyString ->
  surfaceError env t = None ->
  neverCanceled env t ->
  flow (run env t) = Return true
  /\ mError (task (run env t)) = mError t.
Proof.
  intros Hname Hs Hn.
  destruct (run_never_canceled env t Hs Hn) as (Hf & Ht). cbn zeta in Hf, Ht.
  rewrite finalize_skipped in Hf, Ht by (cbn; now rewrite Hname).
  rewrite Hf, Ht. split; reflexivity.
Qed.

Lemma run_painter_succeeds_witness :
  flow (run sampleEnv (QgsMapRendererTask_painter sampleSettings (Some 5%nat)))
    = Return true
  /\ mError (task (run sampleEnv (QgsMapRendererTask_painter sampleSettings (Some 5%nat))))
     = mError (QgsMapRendererTask_painter sampleSettings (Some 5%nat)).
Proof.
  apply (run_painter_succeeds sampleEnv
           (QgsMapRendererTask_painter sampleSettings (Some 5%nat))).
  - reflexivity.
  - reflexivity.
  - split; reflexivity.
Defined.

Lemma finalize_plain_image (env : Env) (p : Painter) (t : QgsMapRendererTask) :
  QString.isEmpty (mFileName t) = false ->
  mFileFormat t <> "PDF"%string ->
  mSaveWorldFile t = false ->
  flow (finalize env p t) = (if imageSaves env then Next tt else Return false)
  /\ mError (task (finalize env p t))
     = (if imageSaves env then mError t else Some ImageSaveFail).
Proof.
  intros He Hf Hw. apply String.eqb_neq in Hf.
  unfold finalize, bind. cbn. rewrite He, Hf, Hw, andb_false_r. cbn.
  destruct (imageSaves env); cbn; split; reflexivity.
Qed.

(** X22: for a file output that is not PDF, without the save-worldfile
    flag, a run that resolves its surface and that nobody cancels returns
    whether the image could be saved, and the error code is ImageSaveFail
    exactly when it could not. *)
Theorem run_image_result (env : Env) (t : QgsMapRendererTask) :
  QString.isEmpty (mFileName t) = false ->
  mFileFormat t <> "PDF"%string ->
  mSaveWorldFile t = false ->
  surfaceError env t = None ->
  neverCanceled env t ->
  flow (run env t) = Return (imageSaves env)
  /\ mError (task (run env t))
     = (if imageSaves env then mError t else Some ImageSaveFail).
Proof.
  intros He Hf Hw Hs Hn.
  destruct (run_never_canceled env t Hs Hn) as (Hflow & Ht). cbn zeta in Hflow, Ht.
  destruct (finalize_plain_image env (destination t)
              (set_isCanceled false (afterJob env t)) He Hf Hw) as (A & B).
  rewrite Hflow, Ht, A, B. cbn [mError set_isCanceled afterJob].
  destruct (imageSaves env); split; reflexivity.
Qed.

Lemma run_image_result_witness :
  flow (run saveFails decoratedTask) = Return (imageSaves saveFails)
  /\ mError (task (run saveFails decoratedTask))
     = (if imageSaves saveFails then mError decoratedTask else Some ImageSaveFail).
Proof.
  apply (run_image_result saveFails decoratedTask).
  - reflexivity.
  - discriminate.
  - reflexivity.
  - reflexivity.
  - split; reflexivity.
Defined.

(** ** Which surface is created *)

Lemma renderJob_no_surface (p : Event -> bool) (env : Env) (dest : Painter)
  (t : QgsMapRendererTask) :
  (forall e, p e = true -> stage e = Some 0%nat) ->
  (forall j, p (JobNew j) = false) ->
  p JobRenderSynchronously = false ->
  p JobDelete = false ->
  count p (events (renderJob env dest t)) = 0%nat.
Proof.
  intros Hp Hn Hr Hd.
  destruct (renderJob_events_eq env dest t) as (t1 & t2 & t3 & _ & _ & _ & ->).
  rewrite !count_app, !(count_unstaged _ 0 _ Hp (times_cancel_unstaged _ _)).
  unfold count. cbn. rewrite Hn, Hr, Hd.
  assert (Hl : p MutexLock = false).
  { destruct (p MutexLock) eqn:E; [apply Hp in E; discriminate|reflexivity]. }
  assert (Hu : p MutexUnlock = false).
  { destruct (p MutexUnlock) eqn:E; [apply Hp in E; discriminate|reflexivity]. }
  rewrite Hl, Hu. reflexivity.
Qed.

(** X23: the surfaces a run creates are read off the task and the build: a
    printer exactly for the PDF format in a build with printer support, and
    an image buffer exactly when no painter was given and the output is not
    a PDF drawn directly (and the build does not rule the PDF out). *)
Theorem run_surfaces_created (env : Env) (t : QgsMapRendererTask) :
  count isPrinterNew (events (run env t))
    = (if (mFileFormat t =? "PDF")%string && negb (QT_NO_PRINTER env) then 1 else 0)%nat
  /\ count isImageNew (events (run env t))
     = (if needsImage t && negb ((mFileFormat t =? "PDF")%string && QT_NO_PRINTER env)
        then 1 else 0)%nat.
Proof.
  assert (Hp : forall p, p = isPrinterNew \/ p = isImageNew ->
                         forall e, p e = true -> stage e = Some 0%nat).
  { intros p [-> | ->] e He; destruct e; cbn in He; try discriminate; reflexivity. }
  assert (Hz : forall s l, s <> 0%nat -> Forall (inStage s) l ->
                           count isPrinterNew l = 0%nat /\ count isImageNew l = 0%nat).
  { intros s l Hs Hl. split.
    - apply (count_stage _ s 0); [apply Hp; now left|exact Hs|exact Hl].
    - apply (count_stage _ s 0); [apply Hp; now right|exact Hs|exact Hl]. }
  assert (H1 : count isPrinterNew (events (resolveSurface env t))
               = (if (mFileFormat t =? "PDF")%string && negb (QT_NO_PRINTER env) then 1 else 0)%nat
               /\ count isImageNew (events (resolveSurface env t))
                  = (if needsImage t
                        && negb ((mFileFormat t =? "PDF")%string && QT_NO_PRINTER env)
                     then 1 else 0)%nat).
  { unfold needsImage, resolveSurface, bind. cbn.
    destruct (mFileFormat t =? "PDF")%string, (QT_NO_PRINTER env), (mForceRaster t),
      (mPainter t), (imageIsNull env (outputSize (mMapSettings t))); cbn;
      split; reflexivity. }
  destruct H1 as (A1 & B1).
  pose proof (renderJob_no_surface isPrinterNew env (destination t) t
                (Hp _ (or_introl eq_refl)) (fun _ => eq_refl) eq_refl eq_refl) as A2.
  pose proof (renderJob_no_surface isImageNew env (destination t) t
                (Hp _ (or_intror eq_refl)) (fun _ => eq_refl) eq_refl eq_refl) as B2.
  destruct (Hz 1%nat _ ltac:(lia) (decorations_stage (mDecorations t))) as (A3 & B3).
  destruct (Hz 2%nat _ ltac:(lia)
              (renderAnnotations_stage env (mMapSettings t) (mAnnotations t) 0
                 (afterJob env t))) as (A4 & B4).
  destruct (run_cases env t)
    as [(e & _ & _ & _ & ->)
       |[(_ & _ & _ & _ & ->)
        |[(_ & _ & _ & _ & _ & _ & ->)
         |(_ & _ & _ & _ & _ & _ & ->)]]];
    rewrite ?count_app, ?A1, ?B1, ?A2, ?B2, ?A3, ?B3, ?A4, ?B4;
    try (split; lia).
  destruct (Hz 3%nat _ ltac:(lia)
              (finalize_stage env (destination t)
                 (task (renderAnnotations env (mMapSettings t) 0 (mAnnotations t)
                          (afterJob env t))))) as (A5 & B5).
  rewrite A5, B5. split; lia.
Qed.

(** ** What a successful run writes *)

Lemma finalize_image (env : Env) (p : Painter) (t : QgsMapRendererTask) :
  QString.isEmpty (mFileName t) = false ->
  mFileFormat t <> "PDF"%string ->
  exists rest,
    events (finalize env p t)
    = PainterEnd p :: ImageSave (mFileName t) (mFileFormat t) :: rest
    /\ count isImageSave rest = 0%nat
    /\ count isPrinterDrawImage rest = 0%nat.
Proof.
  intros He Hf. apply String.eqb_neq in Hf.
  unfold finalize, embedGeoTransform, writeWorldFile, bind. cbn.
  rewrite He, Hf, andb_false_r. cbn.
  split_ifs; cbn; eexists; repeat split.
Qed.

(** X24: for a file output that is not PDF, the output phase of a run that
    returns true begins by ending the painter of the job and then saves the
    image, once, under the file name and the format of the task; nothing is
    merged into a page. *)
Theorem run_saves_image_once (env : Env) (t : QgsMapRendererTask) :
  QString.isEmpty (mFileName t) = false ->
  mFileFormat t <> "PDF"%string ->
  flow (run env t) = Return true ->
  exists rest,
    filter isOutput (events (run env t))
    = PainterEnd (destination t) :: ImageSave (mFileName t) (mFileFormat t) :: rest
    /\ count isImageSave (events (run env t)) = 1%nat
    /\ count isPrinterDrawImage (events (run env t)) = 0%nat.
Proof.
  intros He Hf Htrue.
  assert (Hz : forall l, Forall (fun e => isOutput e = false) l ->
                         filter isOutput l = []
                         /\ count isImageSave l = 0%nat
                         /\ count isPrinterDrawImage l = 0%nat).
  { intros l Hl. split; [now apply filter_none|].
    split; apply count_not_output; auto; intros e; destruct e; cbn; congruence. }
  destruct (Hz _ (Forall_impl _ setup_not_output (resolveSurface_events env t)))
    as (A1 & B1 & C1).
  destruct (Hz _ (Forall_impl _ setup_not_output (renderJob_events env (destination t) t)))
    as (A2 & B2 & C2).
  destruct (Hz _ (renderAnnotations_events env (mMapSettings t) (mAnnotations t) 0
                    (afterJob env t))) as (A4 & B4 & C4).
  assert (H3 : Forall (fun e => isOutput e = false) (map DecorationRender (mDecorations t))).
  { apply Forall_forall. intros e Hin. apply in_map_iff in Hin.
    destruct Hin as (d & <- & _). reflexivity. }
  destruct (Hz _ H3) as (A3 & B3 & C3).
  destruct (run_cases env t)
    as [(e & _ & Hfl & _)
       |[(_ & _ & Hfl & _)
        |[(_ & _ & _ & _ & Hfl & _)
         |(_ & _ & _ & Ht3 & _ & _ & ->)]]]; try congruence.
  rewrite Ht3.
  destruct (finalize_image env (destination t) (set_isCanceled false (afterJob env t))
              He Hf) as (rest & Hev & Hr1 & Hr2).
  cbn [mFileName mFileFormat set_isCanceled afterJob] in Hev.
  exists (filter isOutput rest).
  rewrite !filter_app, !count_app, A1, A2, A3, A4, B1, B2, B3, B4, C1, C2, C3, C4, Hev.
  cbn [app Nat.add]. split; [reflexivity|].
  change (PainterEnd (destination t) :: ImageSave (mFileName t) (mFileFormat t) :: rest)
    with ([PainterEnd (destination t); ImageSave (mFileName t) (mFileFormat t)] ++ rest).
  rewrite !count_app, Hr1, Hr2. split; reflexivity.
Qed.

Lemma run_saves_image_once_witness :
  exists rest,
    filter isOutput (events (run sampleEnv decoratedTask))
    = PainterEnd (destination decoratedTask)
        :: ImageSave (mFileName decoratedTask) (mFileFormat decoratedTask) :: rest
    /\ count isImageSave (events (run sampleEnv decoratedTask)) = 1%nat
    /\ count isPrinterDrawImage (events (run sampleEnv decoratedTask)) = 0%nat.
Proof.
  apply (run_saves_image_once sampleEnv decoratedTask).
  - reflexivity.
  - discriminate.
  - reflexivity.
Defined.

Lemma finalize_force_raster (env : Env) (p : Painter) (t : QgsMapRendererTask) :
  QString.isEmpty (mFileName t) = false ->
  mFileFormat t = "PDF"%string ->
  mForceRaster t = true ->
  QT_NO_PRINTER env = false ->
  flow (finalize env p t) = Next tt
  /\ count isPrinterDrawImage (events (finalize env p t)) = 1%nat
  /\ count isGDALOpen (events (finalize env p t))
     = (if mSaveWorldFile t then 1 else 0)%nat
  /\ geoTransforms (events (finalize env p t))
     = (if mSaveWorldFile t && gdalOpens env
        then [geoTransform env (mMapSettings t)] else []).
Proof.
  intros He Hf Hr Hp.
  unfold finalize, embedGeoTransform, writeWorldFile, bind. cbn.
  rewrite He, Hf, Hr, Hp. cbn.
  destruct (mSaveWorldFile t), (gdalOpens env); cbn; repeat split.
Qed.

(** X25: for a PDF output with the force-raster flag and a file name, a run
    that resolves its surface and that nobody cancels returns true: the
    image is merged into the page once, and the file is reopened with GDAL
    once if the save-worldfile flag is on, the geotransform being embedded
    when that reopening succeeds; a failed reopening is not an error. *)
Theorem run_force_raster_pdf (env : Env) (t : QgsMapRendererTask) :
  QString.isEmpty (mFileName t) = false ->
  mFileFormat t = "PDF"%string ->
  mForceRaster t = true ->
  surfaceError env t = None ->
  neverCanceled env t ->
  flow (run env t) = Return true
  /\ count isPrinterDrawImage (events (run env t)) = 1%nat
  /\ count isGDALOpen (events (run env t)) = (if mSaveWorldFile t then 1 else 0)%nat
  /\ geoTransforms (events (run env t))
     = (if mSaveWorldFile t && gdalOpens env
        then [geoTransform env (mMapSettings t)] else []).
Proof.
  intros He Hf Hr Hs Hn.
  assert (Hp : QT_NO_PRINTER env = false).
  { unfold surfaceError in Hs. rewrite Hf in Hs. cbn in Hs.
    destruct (QT_NO_PRINTER env); [discriminate|reflexivity]. }
  destruct (run_never_canceled env t Hs Hn) as (Hflow & _). cbn zeta in Hflow.
  destruct (run_output env t) as (mid & Hmid & H).
  destruct (no_output_observed mid Hmid) as (Hg & _ & _).
  assert (Hz1 : count isPrinterDrawImage mid = 0%nat).
  { apply count_not_output; [|exact Hmid]. intros e; destruct e; cbn; congruence. }
  assert (Hz2 : count isGDALOpen mid = 0%nat).
  { apply count_not_output; [|exact Hmid]. intros e; destruct e; cbn; congruence. }
  destruct (finalize_force_raster env (destination t)
              (set_isCanceled false (afterJob env t)) He Hf Hr Hp) as (A & _).
  rewrite A in Hflow. cbn in Hflow.
  destruct H as [(_ & Hfalse)|(p & c & Hev & _)]; [congruence|].
  cbn zeta in Hev.
  destruct (finalize_force_raster env p (set_isCanceled c (afterJob env t)) He Hf Hr Hp)
    as (_ & B & C & D).
  cbn [mSaveWorldFile mMapSettings set_isCanceled afterJob] in C, D.
  rewrite Hev, !count_app, geoTransforms_app, Hz1, Hz2, Hg, B, C, D.
  repeat split. exact Hflow.
Qed.

Lemma run_force_raster_pdf_witness :
  flow (run noGeoreferencing forceRasterTask) = Return true
  /\ count isPrinterDrawImage (events (run noGeoreferencing forceRasterTask)) = 1%nat
  /\ count isGDALOpen (events (run noGeoreferencing forceRasterTask))
     = (if mSaveWorldFile forceRasterTask then 1 else 0)%nat
  /\ geoTransforms (events (run noGeoreferencing forceRasterTask))
     = (if mSaveWorldFile forceRasterTask && gdalOpens noGeoreferencing
        then [geoTransform noGeoreferencing (mMapSettings forceRasterTask)] else []).
Proof.
  apply (run_force_raster_pdf noGeoreferencing forceRasterTask).
  - reflexivity.
  - reflexivity.
  - reflexivity.
  - reflexivity.
  - split; reflexivity.
Defined.

(** ** Cancellation is permanent *)

Lemma call_keeps_canceled (c : Call) (t : QgsMapRendererTask) :
  isCanceled t = true -> isCanceled (task (call c t)) = true.
Proof.
  intros Ht. destruct c; cbn [call]; [exact Ht|exact Ht|].
  now rewrite cancel_task.
Qed.

Lemma calls_keep_canceled (calls : list Call) (t : QgsMapRendererTask) :
  isCanceled t = true -> isCanceled (task (forEach call calls t)) = true.
Proof.
  revert t. induction calls as [|c calls IH]; intros t Ht; [exact Ht|].
  cbn [forEach]. rewrite bind_task, call_flow. apply IH. now apply call_keeps_canceled.
Qed.

(** X26: nothing takes a cancellation back: once the task is canceled, it
    is still canceled after any sequence of [addAnnotations],
    [addDecorations] and [cancel] calls, and after [run()], which then
    returns false. *)
Theorem canceled_for_good (env : Env) (calls : list Call) (t : QgsMapRendererTask) :
  isCanceled t = true ->
  isCanceled (task (forEach call calls t)) = true
  /\ isCanceled (task (run env (task (forEach call calls t)))) = true
  /\ flow (run env (task (forEach call calls t))) = Return false.
Proof.
  intros Ht. pose proof (calls_keep_canceled calls t Ht) as Hc.
  split; [exact Hc|].
  set (t' := task (forEach call calls t)) in *.
  destruct (run_cases env t')
    as [(e & _ & Hf & -> & _)
       |[(_ & _ & Hf & -> & _)
        |[(_ & Hfalse & _)
         |(_ & Hfalse & _)]]].
  - split; [exact Hc|exact Hf].
  - split; [|exact Hf]. cbn. now rewrite Hc.
  - cbn in Hfalse. rewrite Hc in Hfalse. discriminate.
  - cbn in Hfalse. rewrite Hc in Hfalse. discriminate.
Qed.

Lemma canceled_for_good_witness :
  isCanceled (task (forEach call [CallAddDecorations [7%nat]]
                      (task (cancel decoratedTask)))) = true
  /\ isCanceled (task (run sampleEnv
                         (task (forEach call [CallAddDecorations [7%nat]]
                                  (task (cancel decoratedTask)))))) = true
  /\ flow (run sampleEnv
             (task (forEach call [CallAddDecorations [7%nat]]
                      (task (cancel decoratedTask))))) = Return false.
Proof.
  apply (canceled_for_good sampleEnv [CallAddDecorations [7%nat]]
           (task (cancel decoratedTask))).
  reflexivity.
Defined.

(** ** The anchor of an annotation that is rendered *)

Lemma count_zero_not_in (p : Event -> bool) (e : Event) (l : list Event) :
  count p l = 0%nat -> p e = true -> ~ In e l.
Proof.
  unfold count. intros Hc Hp Hin.
  induction l as [|x l IH]; [contradiction|].
  cbn in Hc. destruct Hin as [-> | Hin].
  - rewrite Hp in Hc. discriminate.
  - destruct (p x); [discriminate|]. now apply IH.
Qed.

Lemma setup_no_annotationRender (i : nat) (l : list Event) :
  Forall (fun e => isSetup e = true) l -> ~ In (AnnotationRender i) l.
Proof.
  intros Hl Hin. rewrite Forall_forall in Hl. specialize (Hl _ Hin). discriminate.
Qed.

(** The turn of an annotation that is rendered: the painter is saved, the
    hint is set, the painter is moved to [itemPosition], the annotation is
    rendered and the painter is restored. *)
Lemma renderAnnotations_block (env : Env) (ms : QgsMapSettings)
  (l : list (option QgsAnnotation)) :
  forall i t k a,
    nth_error l k = Some (Some a) ->
    In (AnnotationRender (i + k)) (events (renderAnnotations env ms i l t)) ->
    exists l1 l2,
      events (renderAnnotations env ms i l t)
      = l1 ++ [PainterSave; PainterSetRenderHint;
               PainterTranslate (fst (itemPosition ms a)) (snd (itemPosition ms a));
               AnnotationRender (i + k); PainterRestore] ++ l2.
Proof.
  induction l as [|a0 rest IH]; intros i t k a Hnth Hin; [destruct k; discriminate|].
  pose proof (renderAnnotations_cons env ms i a0 rest t) as H. cbn zeta in H.
  cbn [isCanceled set_isCanceled] in H.
  pose proof (times_cancel_events (cancelCalls env (BeforeAnnotation i)) t) as Hsetup.
  fold (interleave env (BeforeAnnotation i) t) in Hsetup.
  destruct (isCanceled t || _) in H; destruct H as (_ & _ & He); rewrite He in Hin |- *.
  - exfalso. now apply (setup_no_annotationRender (i + k) _ Hsetup).
  - apply in_app_or in Hin. destruct Hin as [Hin|Hin].
    { exfalso. now apply (setup_no_annotationRender (i + k) _ Hsetup). }
    apply in_app_or in Hin. destruct Hin as [Hin|Hin].
    + destruct (skipped ms a0) eqn:Hs; [contradiction|].
      cbn in Hin.
      destruct Hin as [Hin|[Hin|[Hin|[Hin|[Hin|[]]]]]]; try discriminate.
      injection Hin as Hik.
      assert (k = 0%nat) by lia. subst k. cbn in Hnth. injection Hnth as ->.
      rewrite Nat.add_0_r.
      exists (events (interleave env (BeforeAnnotation i) t)),
        (events (renderAnnotations env ms (S i) rest (set_isCanceled false t))).
      reflexivity.
    + destruct k as [|k].
      * exfalso. rewrite Nat.add_0_r in Hin.
        pose proof (renderAnnotations_count_below env ms rest (S i)
                      (set_isCanceled false t) i ltac:(lia)) as Hb.
        exact (count_zero_not_in (isAnnotationRender i) (AnnotationRender i) _ Hb
                 (Nat.eqb_refl i) Hin).
      * cbn in Hnth. replace (i + S k)%nat with (S i + k)%nat in * by lia.
        destruct (IH (S i) (set_isCanceled false t) k a Hnth Hin) as (l1 & l2 & Hl).
        set (own := if skipped ms a0 then [] else _).
        exists (events (interleave env (BeforeAnnotation i) t) ++ own ++ l1), l2.
        rewrite Hl. rewrite <- (app_assoc _ (own ++ l1)), <- (app_assoc own l1).
        reflexivity.
Qed.

Lemma split_at_single (e : Event) (a1 a2 b1 b2 : list Event) :
  ~ In e a1 -> ~ In e a2 -> a1 ++ e :: b1 = a2 ++ e :: b2 -> a1 = a2.
Proof.
  revert a2. induction a1 as [|x a1 IH]; intros [|y a2] H1 H2 Heq; cbn in *.
  - reflexivity.
  - injection Heq as Hx _. exfalso. apply H2. now left.
  - injection Heq as Hx _. exfalso. apply H1. now left.
  - injection Heq as -> Heq. f_equal. apply IH; auto.
Qed.

Lemma run_annotationRenders_once (env : Env) (t : QgsMapRendererTask) (i : nat)
  (a : option QgsAnnotation) :
  nth_error (mAnnotations t) i = Some a ->
  (annotationRenders i (events (run env t)) <= 1)%nat.
Proof.
  intros Hnth. unfold annotationRenders.
  assert (Hp : forall e, isAnnotationRender i e = true -> stage e = Some 2%nat).
  { intros e; destruct e; cbn; congruence. }
  pose proof (count_stage _ 0 2 _ Hp ltac:(lia)
                (staged_inStage 0 _ (resolveSurface_stage env t))) as H1.
  pose proof (count_stage _ 0 2 _ Hp ltac:(lia)
                (renderJob_stage env (destination t) t)) as H2.
  pose proof (count_stage _ 1 2 _ Hp ltac:(lia)
                (decorations_stage (mDecorations t))) as H3.
  destruct (renderAnnotations_count env (mMapSettings t) (mAnnotations t) 0
              (afterJob env t) i a Hnth) as (Hle & _).
  cbn [Nat.add] in Hle. unfold annotationRenders in Hle.
  destruct (run_cases env t)
    as [(e & _ & _ & _ & ->)
       |[(_ & _ & _ & _ & ->)
        |[(_ & _ & _ & _ & _ & _ & ->)
         |(_ & _ & _ & _ & _ & _ & ->)]]];
    rewrite ?count_app, ?H1, ?H2, ?H3; try lia.
  rewrite (count_stage _ 3 2 _ Hp ltac:(lia) (finalize_stage _ _ _)). lia.
Qed.

(** In a run that renders the i-th annotation, the painter is moved to the
    anchor of that annotation just before it is rendered, within a save and
    a restore, and any move that comes just before its rendering is that
    one. *)
Lemma run_anchor (env : Env) (t : QgsMapRendererTask) (i : nat) (a : QgsAnnotation) :
  nth_error (mAnnotations t) i = Some (Some a) ->
  In (AnnotationRender i) (events (run env t)) ->
  (exists l1 l2,
     events (run env t)
     = l1 ++ [PainterSave; PainterSetRenderHint;
              PainterTranslate (fst (itemPosition (mMapSettings t) a))
                               (snd (itemPosition (mMapSettings t) a));
              AnnotationRender i; PainterRestore] ++ l2)
  /\ (forall x y l1 l2,
        events (run env t) = l1 ++ PainterTranslate x y :: AnnotationRender i :: l2 ->
        (x, y) = itemPosition (mMapSettings t) a).
Proof.
  intros Hnth Hin.
  assert (Hex : exists l1 l2,
             events (run env t)
             = l1 ++ [PainterSave; PainterSetRenderHint;
                      PainterTranslate (fst (itemPosition (mMapSettings t) a))
                                       (snd (itemPosition (mMapSettings t) a));
                      AnnotationRender i; PainterRestore] ++ l2).
  { pose proof (setup_no_annotationRender i _ (resolveSurface_events env t)) as N1.
    pose proof (setup_no_annotationRender i _ (renderJob_events env (destination t) t))
      as N2.
    assert (N3 : ~ In (AnnotationRender i) (map DecorationRender (mDecorations t))).
    { intros Hi. apply in_map_iff in Hi. destruct Hi as (d & Hd & _). discriminate. }
    assert (N4 : forall p t', ~ In (AnnotationRender i) (events (finalize env p t'))).
    { intros p t' Hi. pose proof (finalize_events env p t') as Hf.
      rewrite Forall_forall in Hf. specialize (Hf _ Hi). discriminate. }
    set (s3 := renderAnnotations env (mMapSettings t) 0 (mAnnotations t)
                 (afterJob env t)).
    assert (Hblock : In (AnnotationRender i) (events s3) ->
                     exists l1 l2,
                       events s3
                       = l1 ++ [PainterSave; PainterSetRenderHint;
                                PainterTranslate (fst (itemPosition (mMapSettings t) a))
                                                 (snd (itemPosition (mMapSettings t) a));
                                AnnotationRender i; PainterRestore] ++ l2).
    { intros Hi.
      apply (renderAnnotations_block env (mMapSettings t) (mAnnotations t) 0
               (afterJob env t) i a Hnth Hi). }
    destruct (run_cases env t)
      as [(e & _ & _ & _ & He)
         |[(_ & _ & _ & _ & He)
          |[(_ & _ & _ & _ & _ & _ & He)
           |(_ & _ & _ & _ & _ & _ & He)]]];
      fold s3 in He; rewrite He in Hin |- *; rewrite ?in_app_iff in Hin.
    - contradiction.
    - tauto.
    - assert (Hi : In (AnnotationRender i) (events s3)) by tauto.
      destruct (Hblock Hi) as (l1 & l2 & ->).
      exists (events (resolveSurface env t) ++ events (renderJob env (destination t) t)
                ++ map DecorationRender (mDecorations t) ++ l1), l2.
      rewrite <- !app_assoc. reflexivity.
    - specialize (N4 (destination t) (task s3)).
      assert (Hi : In (AnnotationRender i) (events s3)) by tauto.
      destruct (Hblock Hi) as (l1 & l2 & ->).
      exists (events (resolveSurface env t) ++ events (renderJob env (destination t) t)
                ++ map DecorationRender (mDecorations t) ++ l1),
        (l2 ++ events (finalize env (destination t) (task s3))).
      rewrite <- !app_assoc. reflexivity. }
  split; [exact Hex|].
  destruct Hex as (l1 & l2 & Hev).
  intros x y l1' l2' Hev'.
  pose proof (run_annotationRenders_once env t i (Some a) Hnth) as Hle.
  unfold annotationRenders in Hle.
  assert (Hone : isAnnotationRender i (AnnotationRender i) = true) by apply Nat.eqb_refl.
  set (ip := itemPosition (mMapSettings t) a) in *.
  assert (E1 : events (run env t)
               = (l1 ++ [PainterSave; PainterSetRenderHint;
                         PainterTranslate (fst ip) (snd ip)])
                   ++ AnnotationRender i :: PainterRestore :: l2).
  { rewrite Hev, <- app_assoc. reflexivity. }
  assert (E2 : events (run env t)
               = (l1' ++ [PainterTranslate x y]) ++ AnnotationRender i :: l2').
  { rewrite Hev', <- app_assoc. reflexivity. }
  assert (Hnot : forall pre post,
             events (run env t) = pre ++ AnnotationRender i :: post ->
             ~ In (AnnotationRender i) pre).
  { intros pre post E. apply (count_zero_not_in (isAnnotationRender i)); [|exact Hone].
    rewrite E, count_app in Hle.
    change (AnnotationRender i :: post) with ([AnnotationRender i] ++ post) in Hle.
    rewrite count_app in Hle. unfold count at 2 in Hle. cbn [filter] in Hle.
    rewrite Hone in Hle. cbn [List.length] in Hle. lia. }
  pose proof (split_at_single _ _ _ _ _ (Hnot _ _ E1) (Hnot _ _ E2)
                (eq_trans (eq_sym E1) E2)) as Hpre.
  change [PainterSave; PainterSetRenderHint; PainterTranslate (fst ip) (snd ip)]
    with ([PainterSave; PainterSetRenderHint] ++ [PainterTranslate (fst ip) (snd ip)])
    in Hpre.
  rewrite app_assoc in Hpre. apply app_inj_tail in Hpre. destruct Hpre as (_ & Hlast).
  injection Hlast as <- <-. symmetry. apply surjective_pairing.
Qed.

(** C4: in a run that renders an annotation with a fixed map position, on
    settings with a positive extent and a positive output size, the painter
    is moved, just before the annotation is rendered, to
    x = outputWidth * (x - xmin) / width and
    y = outputHeight * (1 - (y - ymin) / height), and to no other place; for
    an annotation at the center of the extent that is
    (outputWidth / 2, outputHeight / 2). *)
Theorem C4_fixed_position_anchor (env : Env) (t : QgsMapRendererTask) (i : nat)
  (a : QgsAnnotation) :
  nth_error (mAnnotations t) i = Some (Some a) ->
  hasFixedMapPosition a = true ->
  (0 < QgsRectangle.width (extent (mMapSettings t)))%R ->
  (0 < QgsRectangle.height (extent (mMapSettings t)))%R ->
  (0 < QSize.width (outputSize (mMapSettings t)))%Z ->
  (0 < QSize.height (outputSize (mMapSettings t)))%Z ->
  In (AnnotationRender i) (events (run env t)) ->
  exists itemX itemY,
    itemX = (IZR (QSize.width (outputSize (mMapSettings t)))
             * (QgsPointXY.x (mapPosition a)
                - QgsRectangle.xMinimum (extent (mMapSettings t)))
             / QgsRectangle.width (extent (mMapSettings t)))%R
    /\ itemY = (IZR (QSize.height (outputSize (mMapSettings t)))
                * (1 - (QgsPointXY.y (mapPosition a)
                        - QgsRectangle.yMinimum (extent (mMapSettings t)))
                       / QgsRectangle.height (extent (mMapSettings t))))%R
    /\ (exists l1 l2,
          events (run env t)
          = l1 ++ [PainterSave; PainterSetRenderHint; PainterTranslate itemX itemY;
                   AnnotationRender i; PainterRestore] ++ l2)
    /\ (forall x y l1 l2,
          events (run env t) = l1 ++ PainterTranslate x y :: AnnotationRender i :: l2 ->
          x = itemX /\ y = itemY)
    /\ (mapPosition a = QgsRectangle.center (extent (mMapSettings t)) ->
        itemX = (IZR (QSize.width (outputSize (mMapSettings t))) / 2)%R
        /\ itemY = (IZR (QSize.height (outputSize (mMapSettings t))) / 2)%R).
Proof.
  intros Hnth Hfixed Hw Hh _ _ Hin.
  destruct (run_anchor env t i a Hnth Hin) as (Hex & Huniq).
  destruct (itemPosition_fixed (mMapSettings t) a Hfixed Hw Hh) as (Hpos & Hcenter).
  cbn zeta in Hpos, Hcenter.
  exists (fst (itemPosition (mMapSettings t) a)), (snd (itemPosition (mMapSettings t) a)).
  split; [now rewrite Hpos|]. split; [now rewrite Hpos|].
  split; [exact Hex|]. split.
  - intros x y l1 l2 Hev. rewrite <- (Huniq x y l1 l2 Hev). split; reflexivity.
  - intros Hc. rewrite (Hcenter Hc). split; reflexivity.
Qed.

Lemma C4_fixed_position_anchor_witness :
  exists l1 l2,
    events (run sampleEnv
              (task (addAnnotations [sampleAnnotation]
                       (QgsMapRendererTask_file sampleSettings "/data/map.png" "PNG" false))))
    = l1 ++ [PainterSave; PainterSetRenderHint; PainterTranslate (200 / 2) (100 / 2);
             AnnotationRender 0; PainterRestore] ++ l2.
Proof.
  destruct (C4_fixed_position_anchor sampleEnv
              (task (addAnnotations [sampleAnnotation]
                       (QgsMapRendererTask_file sampleSettings "/data/map.png" "PNG" false)))
              0%nat sampleAnnotation)
    as (x & y & _ & _ & Hex & _ & Hcenter).
  - reflexivity.
  - reflexivity.
  - unfold QgsRectangle.width; cbn; lra.
  - unfold QgsRectangle.height; cbn; lra.
  - reflexivity.
  - reflexivity.
  - vm_compute. repeat (first [left; reflexivity | right]).
  - destruct Hcenter as (Hx & Hy).
    + unfold QgsRectangle.center, QgsRectangle.width, QgsRectangle.height; cbn.
      f_equal; lra.
    + cbn in Hx, Hy. rewrite Hx, Hy in Hex. exact Hex.
Defined.

(** C5: in a run that renders an annotation placed relatively, the painter
    is moved, just before the annotation is rendered, to
    (relX * outputWidth, relY * outputHeight), and to no other place; the
    relative position (0,0) gives the pixel (0,0) and (1,1) gives
    (outputWidth, outputHeight). *)
Theorem C5_relative_position_anchor (env : Env) (t : QgsMapRendererTask) (i : nat)
  (a : QgsAnnotation) :
  nth_error (mAnnotations t) i = Some (Some a) ->
  hasFixedMapPosition a = false ->
  In (AnnotationRender i) (events (run env t)) ->
  exists itemX itemY,
    itemX = (QPointF.x (relativePosition a)
             * IZR (QSize.width (outputSize (mMapSettings t))))%R
    /\ itemY = (QPointF.y (relativePosition a)
                * IZR (QSize.height (outputSize (mMapSettings t))))%R
    /\ (exists l1 l2,
          events (run env t)
          = l1 ++ [PainterSave; PainterSetRenderHint; PainterTranslate itemX itemY;
                   AnnotationRender i; PainterRestore] ++ l2)
    /\ (forall x y l1 l2,
          events (run env t) = l1 ++ PainterTranslate x y :: AnnotationRender i :: l2 ->
          x = itemX /\ y = itemY)
    /\ (relativePosition a = QPointF.mk 0 0 -> itemX = 0%R /\ itemY = 0%R)
    /\ (relativePosition a = QPointF.mk 1 1 ->
        itemX = IZR (QSize.width (outputSize (mMapSettings t)))
        /\ itemY = IZR (QSize.height (outputSize (mMapSettings t)))).
Proof.
  intros Hnth Hrel Hin.
  destruct (run_anchor env t i a Hnth Hin) as (Hex & Huniq).
  destruct (itemPosition_relative (mMapSettings t) a Hrel) as (Hpos & H00 & H11).
  cbn zeta in Hpos, H00, H11.
  exists (fst (itemPosition (mMapSettings t) a)), (snd (itemPosition (mMapSettings t) a)).
  split; [now rewrite Hpos|]. split; [now rewrite Hpos|].
  split; [exact Hex|]. split; [|split].
  - intros x y l1 l2 Hev. rewrite <- (Huniq x y l1 l2 Hev). split; reflexivity.
  - intros Hc. rewrite (H00 Hc). split; reflexivity.
  - intros Hc. rewrite (H11 Hc). split; reflexivity.
Qed.

Lemma C5_relative_position_anchor_witness :
  exists l1 l2,
    events (run sampleEnv
              (task (addAnnotations [relativeAnnotation]
                       (QgsMapRendererTask_file sampleSettings "/data/map.png" "PNG" false))))
    = l1 ++ [PainterSave; PainterSetRenderHint; PainterTranslate 200 100;
             AnnotationRender 0; PainterRestore] ++ l2.
Proof.
  destruct (C5_relative_position_anchor sampleEnv
              (task (addAnnotations [relativeAnnotation]
                       (QgsMapRendererTask_file sampleSettings "/data/map.png" "PNG" false)))
              0%nat relativeAnnotation)
    as (x & y & _ & _ & Hex & _ & _ & Hcorner).
  - reflexivity.
  - reflexivity.
  - vm_compute. repeat (first [left; reflexivity | right]).
  - destruct Hcorner as (Hx & Hy); [reflexivity|].
    cbn in Hx, Hy. rewrite Hx, Hy in Hex. exact Hex.
Defined.
